(** * blimp_boards: boards and cards domain layer

    A shallow embedding of [blimp_boards/boards/models.py] and
    [blimp_boards/cards/models.py].  Model instances are records, the
    database is a record of tables, and every method that touches the
    database or an outside service is a computation in a small
    state-and-exception monad.  A raised exception keeps the store as it
    was at the point of the raise: the methods run without a transaction
    block, so rows written before a failure stay written. *)

From Stdlib Require Import ZArith List String Bool Lia.
From Stdlib Require Import DecimalString DecimalZ.
Import ListNotations.

Local Open Scope Z_scope.
Local Open Scope string_scope.

(** ** Exceptions and the store monad *)

Inductive Exception : Type :=
| ValidationError (messages : list string)
| DoesNotExist
| MultipleObjectsReturned
| AssertionError
| ValueError
| DatabaseError
| TypeError
| SMTPException
| DeliveryError.

Inductive Result (S A : Type) : Type :=
| Ok (value : A) (store : S)
| Raise (exc : Exception) (store : S).

Arguments Ok {S A} value store.
Arguments Raise {S A} exc store.

Definition M (S A : Type) : Type := S -> Result S A.

Definition ret {S A} (a : A) : M S A := fun st => Ok a st.

Definition raise {S A} (e : Exception) : M S A := fun st => Raise e st.

Definition bind {S A B} (m : M S A) (k : A -> M S B) : M S B :=
  fun st =>
    match m st with
    | Ok a st' => k a st'
    | Raise e st' => Raise e st'
    end.

(** [try: m except <handled>: h] *)
Definition try_except {S A} (m : M S A) (handled : Exception -> bool)
    (h : M S A) : M S A :=
  fun st =>
    match m st with
    | Ok a st' => Ok a st'
    | Raise e st' => if handled e then h st' else Raise e st'
    end.

Declare Scope py_scope.
Delimit Scope py_scope with py.
Notation "x <- m ;; k" := (bind m (fun x => k))
  (at level 61, m at next level, right associativity) : py_scope.
Notation "m ;;; k" := (bind m (fun _ => k))
  (at level 61, right associativity) : py_scope.
Local Open Scope py_scope.

Definition store_of {S A} (r : Result S A) : S :=
  match r with
  | Ok _ st => st
  | Raise _ st => st
  end.

(** ** Python truthiness and primary keys *)

(** [bool(s)] for a string. *)
Definition truthy (s : string) : bool := negb (s =? "").

(** [bool(n)] for an integer that may be [None]. *)
Definition truthy_int (n : option Z) : bool :=
  match n with
  | Some v => negb (v =? 0)%Z
  | None => false
  end.

(** [bool(s)] for a string that may be [None]. *)
Definition truthy_opt (s : option string) : bool :=
  match s with
  | Some v => truthy v
  | None => false
  end.

(** [bool(obj)] for a related object that may be [None]. *)
Definition is_set {A} (o : option A) : bool :=
  match o with
  | Some _ => true
  | None => false
  end.

(** Two primary keys denote the same row; an unsaved instance ([None])
    matches nothing. *)
Definition same_pk (a b : option Z) : bool :=
  match a, b with
  | Some x, Some y => (x =? y)%Z
  | _, _ => false
  end.

(** ['{}'.format(n)] for an integer: its decimal numeral. *)
Definition format_int (n : Z) : string :=
  NilEmpty.string_of_int (Z.to_int n).

(** ** Database tables *)

Record Table (A : Type) : Type := mkTable {
  rows : list A;
  seq : Z
}.

Arguments mkTable {A} rows seq.
Arguments rows {A} t.
Arguments seq {A} t.

Section TableOps.
Context {A : Type}.
Variable pk : A -> option Z.
Variable set_pk : option Z -> A -> A.

Definition table_has (k : Z) (t : Table A) : bool :=
  existsb (fun r => same_pk (pk r) (Some k)) (rows t).

(** INSERT with a key drawn from the table's sequence. *)
Definition table_insert (a : A) (t : Table A) : A * Table A :=
  let a' := set_pk (Some (seq t)) a in
  (a', mkTable (rows t ++ [a'])%list (seq t + 1)).

(** INSERT with the key the instance already carries. *)
Definition table_insert_at (k : Z) (a : A) (t : Table A) : Table A :=
  mkTable (rows t ++ [a])%list (Z.max (seq t) (k + 1)).

(** UPDATE ... WHERE id = k. *)
Definition table_update (k : Z) (a : A) (t : Table A) : Table A :=
  mkTable
    (map (fun r => if same_pk (pk r) (Some k) then a else r) (rows t))
    (seq t).

(** DELETE ... WHERE id = k. *)
Definition table_delete (k : Z) (t : Table A) : Table A :=
  mkTable (filter (fun r => negb (same_pk (pk r) (Some k))) (rows t))
          (seq t).

(** [Model.save]: an instance without a key is inserted, one whose key
    is in the table is updated, and one with a key that is not in the
    table is inserted under that key.  The flag is the [created]
    argument of the [post_save] signal. *)
Definition table_save (a : A) (t : Table A) : A * bool * Table A :=
  match pk a with
  | None => let '(a', t') := table_insert a t in (a', true, t')
  | Some k =>
      if table_has k t then (a, false, table_update k a t)
      else (a, true, table_insert_at k a t)
  end.
End TableOps.

(** [QuerySet.exists()] *)
Definition qs_exists {A} (qs : list A) : bool :=
  match qs with
  | [] => false
  | _ :: _ => true
  end.

(** * boards/models.py *)

Module Boards.

(** ** Model instances *)

(** [users.User], as far as this module reads it. *)
Record User : Type := mkUser {
  user_id : Z;
  user_first_name : string;
  user_last_name : string;
  user_email : string
}.

(** [account.owner], a collaborator of the account with a [user]. *)
Record AccountCollaborator : Type := mkAccountCollaborator {
  ac_user : User
}.

Record Account : Type := mkAccount {
  account_id : Z;
  account_owner : AccountCollaborator
}.

Record Board : Type := mkBoard {
  board_id : option Z;
  board_name : string;
  board_slug : string;
  board_account : Account;
  board_created_by : User;
  board_is_shared : bool;
  board_thumbnail_sm_path : string;
  board_thumbnail_md_path : string;
  board_thumbnail_lg_path : string
}.

Record InvitedUser : Type := mkInvitedUser {
  iu_id : option Z;
  iu_first_name : string;
  iu_last_name : string;
  iu_email : string;
  iu_user : option User;
  iu_account : Account;
  iu_created_by : User
}.

Record BoardCollaborator : Type := mkBoardCollaborator {
  bc_id : option Z;
  bc_board : Board;
  bc_user : option User;
  bc_invited_user : option InvitedUser;
  bc_permission : string
}.

Record BoardCollaboratorRequest : Type := mkBoardCollaboratorRequest {
  req_id : option Z;
  req_first_name : string;
  req_last_name : string;
  req_email : string;
  req_user : option User;
  req_board : Board;
  req_message : string
}.

(** A message handed to [django.core.mail.send_mail]. *)
Record Mail : Type := mkMail {
  mail_subject : string;
  mail_message : string;
  mail_from : string;
  mail_recipients : list string
}.

(** ** The store: database tables and the outside world *)

Record Store : Type := mkStore {
  users : list User;
  boards : Table Board;
  collaborators : Table BoardCollaborator;
  requests : Table BoardCollaboratorRequest;
  invited_users : Table InvitedUser;
  (** join table of [InvitedUser.board_collaborators] *)
  invited_user_board_collaborators : list (Z * Z);
  (** mails accepted by the mail sender *)
  outbox : list Mail;
  (** invited users whose invite went out *)
  invites : list Z
}.

Definition with_boards (t : Table Board) (st : Store) : Store :=
  mkStore (users st) t (collaborators st) (requests st) (invited_users st)
          (invited_user_board_collaborators st) (outbox st) (invites st).

Definition with_collaborators (t : Table BoardCollaborator) (st : Store)
    : Store :=
  mkStore (users st) (boards st) t (requests st) (invited_users st)
          (invited_user_board_collaborators st) (outbox st) (invites st).

Definition with_requests (t : Table BoardCollaboratorRequest) (st : Store)
    : Store :=
  mkStore (users st) (boards st) (collaborators st) t (invited_users st)
          (invited_user_board_collaborators st) (outbox st) (invites st).

Definition with_invited_users (t : Table InvitedUser) (st : Store) : Store :=
  mkStore (users st) (boards st) (collaborators st) (requests st) t
          (invited_user_board_collaborators st) (outbox st) (invites st).

Definition with_links (l : list (Z * Z)) (st : Store) : Store :=
  mkStore (users st) (boards st) (collaborators st) (requests st)
          (invited_users st) l (outbox st) (invites st).

Definition with_outbox (l : list Mail) (st : Store) : Store :=
  mkStore (users st) (boards st) (collaborators st) (requests st)
          (invited_users st) (invited_user_board_collaborators st) l
          (invites st).

Definition with_invites (l : list Z) (st : Store) : Store :=
  mkStore (users st) (boards st) (collaborators st) (requests st)
          (invited_users st) (invited_user_board_collaborators st)
          (outbox st) l.

(** ** Outside services *)

(** The calls that leave this module and may fail there. *)
Inductive Call : Type :=
| InsertInvitedUser
| WriteBoard
| WriteBoardCollaborator
| WriteBoardCollaboratorRequest
| LinkBoardCollaborator
| SendInvite
| DeleteBoardCollaboratorRequest
| SendMail.

(** What the surroundings decide: whether an outside call fails in a
    given store, and the per-field validation of a request
    ([clean_fields]: lengths, e-mail syntax). *)
Record Env : Type := mkEnv {
  fails : Call -> Store -> bool;
  request_fields_valid : BoardCollaboratorRequest -> bool
}.

Definition READ_PERMISSION : string := "read".
Definition WRITE_PERMISSION : string := "write".

Definition PERMISSION_CHOICES : list (string * string) :=
  [(READ_PERMISSION, "Read"); (WRITE_PERMISSION, "Read and Write")].

(** ** Board *)

(** [filter(board=self, user=user)] on a collaborator row. *)
Definition for_board_and_user (self : Board) (user : User)
    (c : BoardCollaborator) : bool :=
  same_pk (board_id (bc_board c)) (board_id self)
  && match bc_user c with
     | Some u => (user_id u =? user_id user)%Z
     | None => false
     end.

Definition opt_string_eqb (a : option string) (b : string) : bool :=
  match a with
  | Some s => s =? b
  | None => false
  end.

Definition is_user_collaborator (st : Store) (self : Board) (user : User)
    (permission : option string) : bool :=
  let collaborators :=
    filter (for_board_and_user self user) (rows (collaborators st)) in
  let read_permission := READ_PERMISSION in
  let write_permission := WRITE_PERMISSION in
  let collaborators :=
    if opt_string_eqb permission read_permission then
      filter (fun c => (bc_permission c =? write_permission)
                       || (bc_permission c =? read_permission))
             collaborators
    else if opt_string_eqb permission write_permission then
      filter (fun c => bc_permission c =? write_permission) collaborators
    else collaborators in
  qs_exists collaborators.

(** ** BoardCollaborator *)

Definition set_bc_id (k : option Z) (c : BoardCollaborator)
    : BoardCollaborator :=
  mkBoardCollaborator k (bc_board c) (bc_user c) (bc_invited_user c)
                      (bc_permission c).

Definition BoardCollaborator_clean (self : BoardCollaborator)
    : M Store unit :=
  if is_set (bc_user self) && is_set (bc_invited_user self) then
    raise (ValidationError
             ["Both user and invited_user cannot be set together."])
  else if negb (is_set (bc_user self))
          && negb (is_set (bc_invited_user self)) then
    raise (ValidationError ["Either user or invited_user must be set."])
  else ret tt.

(** [clean_fields]: [permission] has to be one of [PERMISSION_CHOICES].
    The instance carries its related objects, and the lookups by which
    the database confirms that the board, the user and the invited user
    are rows of their tables are not part of this check: a property
    that creates a collaborator for a board that may not be saved says
    that the board is in the boards table. *)
Definition BoardCollaborator_clean_fields (self : BoardCollaborator)
    : list string :=
  if existsb (fun choice => fst choice =? bc_permission self)
             PERMISSION_CHOICES
  then []
  else ["permission: not a valid choice."].

Definition user_pk (u : option User) : option Z :=
  match u with
  | Some v => Some (user_id v)
  | None => None
  end.

Definition invited_user_pk (i : option InvitedUser) : option Z :=
  match i with
  | Some v => iu_id v
  | None => None
  end.

(** [validate_unique] for [unique_together = (('board', 'user'),
    ('board', 'invited_user'))].  A pair with a [None] component is not
    checked, and the instance's own row is left out. *)
Definition BoardCollaborator_validate_unique (st : Store)
    (self : BoardCollaborator) : list string :=
  let others :=
    filter (fun c => negb (same_pk (bc_id c) (bc_id self)))
           (rows (collaborators st)) in
  let clash (mine : option Z) (theirs : BoardCollaborator -> option Z)
      (msg : string) : list string :=
    match board_id (bc_board self), mine with
    | Some _, Some _ =>
        if existsb (fun c => same_pk (board_id (bc_board c))
                                     (board_id (bc_board self))
                             && same_pk (theirs c) mine) others
        then [msg] else []
    | _, _ => []
    end in
  (clash (user_pk (bc_user self)) (fun c => user_pk (bc_user c))
         "Board collaborator with this Board and User already exists."
   ++ clash (invited_user_pk (bc_invited_user self))
            (fun c => invited_user_pk (bc_invited_user c))
         "Board collaborator with this Board and Invited user already exists."
  )%list.

(** Messages of a [ValidationError] raised by [m], none otherwise. *)
Definition validation_messages {A} (m : M Store A) (st : Store)
    : list string :=
  match m st with
  | Raise (ValidationError msgs) _ => msgs
  | _ => []
  end.

(** [full_clean]: field checks, [clean] and the uniqueness checks all
    run, and their errors are raised together. *)
Definition BoardCollaborator_full_clean (self : BoardCollaborator)
    : M Store unit :=
  fun st =>
    match (BoardCollaborator_clean_fields self
           ++ validation_messages (BoardCollaborator_clean self) st
           ++ BoardCollaborator_validate_unique st self)%list with
    | [] => Ok tt st
    | errors => Raise (ValidationError errors) st
    end.

Section WithEnv.
Variable env : Env.

(** The outside call [c]: fails where the surroundings say so. *)
Definition outside (c : Call) (failure : Exception) : M Store unit :=
  fun st => if fails env c st then Raise failure st else Ok tt st.

Definition BoardCollaborator_save (self : BoardCollaborator)
    : M Store BoardCollaborator :=
  BoardCollaborator_full_clean self ;;;
  outside WriteBoardCollaborator DatabaseError ;;;
  fun st =>
    let '(obj, _, t) := table_save bc_id set_bc_id self (collaborators st) in
    Ok obj (with_collaborators t st).

(** [BoardCollaborator.objects.create(board=..., user=...,
    invited_user=..., permission=...)] *)
Definition BoardCollaborator_objects_create (board : Board)
    (user : option User) (invited_user : option InvitedUser)
    (permission : string) : M Store BoardCollaborator :=
  BoardCollaborator_save
    (mkBoardCollaborator None board user invited_user permission).

(** ** The [post_save] receiver of Board *)

Definition create_owner_collaborator (instance : Board) (created : bool)
    : M Store unit :=
  if created then
    let account_owner := account_owner (board_account instance) in
    BoardCollaborator_objects_create
      instance (Some (ac_user account_owner)) None WRITE_PERMISSION ;;;
    ret tt
  else ret tt.

Definition set_board_id (k : option Z) (b : Board) : Board :=
  mkBoard k (board_name b) (board_slug b) (board_account b)
          (board_created_by b) (board_is_shared b)
          (board_thumbnail_sm_path b) (board_thumbnail_md_path b)
          (board_thumbnail_lg_path b).

(** [Board.save]: Board defines no [save] of its own, so this is the
    inherited one: the row is written, then [post_save] reaches
    [create_owner_collaborator] with the [created] flag of the write. *)
Definition Board_save (self : Board) : M Store Board :=
  outside WriteBoard DatabaseError ;;;
  written <- (fun st =>
    let '(obj, created, t) :=
      table_save board_id set_board_id self (boards st) in
    Ok (obj, created) (with_boards t st)) ;;
  create_owner_collaborator (fst written) (snd written) ;;;
  ret (fst written).

(** ** Outside collaborators of the request workflow *)

Definition set_iu_id (k : option Z) (i : InvitedUser) : InvitedUser :=
  mkInvitedUser k (iu_first_name i) (iu_last_name i) (iu_email i)
                (iu_user i) (iu_account i) (iu_created_by i).

(** Modelled from the spec: [InvitedUser.objects.create], of the
    invitations application.  The invited user is built from the given
    identity fields, the account and the creator, and stored as a new
    row; the store may refuse it. *)
Definition InvitedUser_objects_create (first_name last_name email : string)
    (user : option User) (account : Account) (created_by : User)
    : M Store InvitedUser :=
  outside InsertInvitedUser DatabaseError ;;;
  fun st =>
    let '(obj, t) :=
      table_insert set_iu_id
        (mkInvitedUser None first_name last_name email user account
                       created_by)
        (invited_users st) in
    Ok obj (with_invited_users t st).

(** Modelled from the spec: [invited_user.board_collaborators.add(c)],
    which registers the collaborator in the invited user's collaborator
    set; a pair already in the join table is not added again. *)
Definition InvitedUser_board_collaborators_add (invited_user : InvitedUser)
    (c : BoardCollaborator) : M Store unit :=
  match iu_id invited_user, bc_id c with
  | Some i, Some k =>
      outside LinkBoardCollaborator DatabaseError ;;;
      fun st =>
        let links := invited_user_board_collaborators st in
        if existsb (fun l => (fst l =? i)%Z && (snd l =? k)%Z) links
        then Ok tt st
        else Ok tt (with_links (links ++ [(i, k)])%list st)
  | _, _ => raise ValueError
  end.

(** Modelled from the spec: [InvitedUser.send_invite], the invite
    delivery; it is opaque here, so all that is kept is that it ran for
    this invited user, or failed. *)
Definition InvitedUser_send_invite (invited_user : InvitedUser)
    : M Store unit :=
  match iu_id invited_user with
  | Some i =>
      outside SendInvite DeliveryError ;;;
      fun st => Ok tt (with_invites (invites st ++ [i])%list st)
  | None => raise ValueError
  end.

(** [django.core.mail.send_mail]: the number of messages sent; a
    transport failure is raised unless [fail_silently]. *)
Definition send_mail (subject message from_email : string)
    (recipient_list : list string) (fail_silently : bool) : M Store Z :=
  fun st =>
    if fails env SendMail st then
      if fail_silently then Ok 0%Z st else Raise SMTPException st
    else
      Ok 1%Z (with_outbox
                (outbox st
                 ++ [mkMail subject message from_email recipient_list])%list
                st).

(** [User.objects.get(email=email)] *)
Definition User_objects_get (email : string) : M Store User :=
  fun st =>
    match filter (fun u => user_email u =? email) (users st) with
    | [] => Raise DoesNotExist st
    | [u] => Ok u st
    | _ :: _ :: _ => Raise MultipleObjectsReturned st
    end.

(** ** BoardCollaboratorRequest *)

Definition set_req_id (k : option Z) (r : BoardCollaboratorRequest)
    : BoardCollaboratorRequest :=
  mkBoardCollaboratorRequest k (req_first_name r) (req_last_name r)
    (req_email r) (req_user r) (req_board r) (req_message r).

Definition set_req_user (u : option User) (r : BoardCollaboratorRequest)
    : BoardCollaboratorRequest :=
  mkBoardCollaboratorRequest (req_id r) (req_first_name r) (req_last_name r)
    (req_email r) u (req_board r) (req_message r).

Definition set_req_identity (first_name last_name email : string)
    (r : BoardCollaboratorRequest) : BoardCollaboratorRequest :=
  mkBoardCollaboratorRequest (req_id r) first_name last_name email
    (req_user r) (req_board r) (req_message r).

Definition BoardCollaboratorRequest_clean (self : BoardCollaboratorRequest)
    : M Store unit :=
  if negb (is_set (req_user self)) && negb (truthy (req_email self)) then
    raise (ValidationError ["Either user or email must be set."])
  else ret tt.

(** [validate_unique] for [unique_together = (('email', 'board'),
    ('user', 'board'))]. *)
Definition BoardCollaboratorRequest_validate_unique (st : Store)
    (self : BoardCollaboratorRequest) : list string :=
  let others :=
    filter (fun r => negb (same_pk (req_id r) (req_id self)))
           (rows (requests st)) in
  let same_board (r : BoardCollaboratorRequest) : bool :=
    same_pk (board_id (req_board r)) (board_id (req_board self)) in
  match board_id (req_board self) with
  | Some _ =>
      ((if existsb (fun r => (req_email r =? req_email self) && same_board r)
                   others
        then ["Board collaborator request with this Email and Board already exists."]
        else [])
       ++
       match user_pk (req_user self) with
       | Some _ =>
           if existsb (fun r => same_pk (user_pk (req_user r))
                                        (user_pk (req_user self))
                                && same_board r) others
           then ["Board collaborator request with this User and Board already exists."]
           else []
       | None => []
       end)%list
  | None => []
  end.

Definition BoardCollaboratorRequest_full_clean
    (self : BoardCollaboratorRequest) : M Store unit :=
  fun st =>
    match ((if request_fields_valid env self then []
            else ["Enter valid values for the fields."])
           ++ validation_messages (BoardCollaboratorRequest_clean self) st
           ++ BoardCollaboratorRequest_validate_unique st self)%list with
    | [] => Ok tt st
    | errors => Raise (ValidationError errors) st
    end.

Definition is_DoesNotExist (e : Exception) : bool :=
  match e with
  | DoesNotExist => true
  | _ => false
  end.

(** The first half of [save]: the lookup of a user by e-mail and the
    copy of the bound user's name and e-mail into the request.  The
    value is [self] as it stands when [full_clean] is called. *)
Definition BoardCollaboratorRequest_bind_user
    (self : BoardCollaboratorRequest) : M Store BoardCollaboratorRequest :=
  self <- (if negb (is_set (req_user self)) then
             try_except
               (u <- User_objects_get (req_email self) ;;
                ret (set_req_user (Some u) self))
               is_DoesNotExist
               (ret self)
           else ret self) ;;
  match req_user self with
  | Some u =>
      ret (set_req_identity (user_first_name u) (user_last_name u)
                            (user_email u) self)
  | None => ret self
  end.

Definition BoardCollaboratorRequest_save (self : BoardCollaboratorRequest)
    : M Store BoardCollaboratorRequest :=
  self <- BoardCollaboratorRequest_bind_user self ;;
  BoardCollaboratorRequest_full_clean self ;;;
  outside WriteBoardCollaboratorRequest DatabaseError ;;;
  fun st =>
    let '(obj, _, t) := table_save req_id set_req_id self (requests st) in
    Ok obj (with_requests t st).

(** [self.delete()] *)
Definition BoardCollaboratorRequest_delete (self : BoardCollaboratorRequest)
    : M Store unit :=
  match req_id self with
  | Some k =>
      outside DeleteBoardCollaboratorRequest DatabaseError ;;;
      fun st => Ok tt (with_requests (table_delete req_id k (requests st)) st)
  | None => raise AssertionError
  end.

Definition accept (self : BoardCollaboratorRequest) : M Store unit :=
  invited_user <-
    InvitedUser_objects_create
      (req_first_name self) (req_last_name self) (req_email self)
      (req_user self) (board_account (req_board self))
      (ac_user (account_owner (board_account (req_board self)))) ;;
  board_collaborator <-
    BoardCollaborator_objects_create
      (req_board self) None (Some invited_user) READ_PERMISSION ;;
  InvitedUser_board_collaborators_add invited_user board_collaborator ;;;
  InvitedUser_send_invite invited_user ;;;
  BoardCollaboratorRequest_delete self.

Definition reject (self : BoardCollaboratorRequest) : M Store unit :=
  BoardCollaboratorRequest_delete self.

Definition notify_account_owner (self : BoardCollaboratorRequest)
    : M Store Z :=
  let message := req_email self ++ " wants to join your board" in
  send_mail "Blimp Board Collaborator Request" message "from@example.com"
            [req_email self] false.

End WithEnv.

(** ** Board.announce_room *)

Definition Board_announce_room (self : Board) : string :=
  "a" ++ format_int (account_id (board_account self)).

(** ** Vocabulary of the properties *)

(** A collaborator row of board [b] for user [u]. *)
Definition row_for (st : Store) (b : Board) (u : User)
    (c : BoardCollaborator) : Prop :=
  In c (rows (collaborators st))
  /\ (exists k, board_id (bc_board c) = Some k /\ board_id b = Some k)
  /\ (exists v, bc_user c = Some v /\ user_id v = user_id u).

(** No outside call fails. *)
Definition no_failures (env : Env) : Prop :=
  forall (c : Call) (st : Store), fails env c st = false.

(** Referential integrity of the tables: saved boards carry keys below
    the sequence of their table, every collaborator row points to a
    board of the boards table and, if it has an invited user, to a key
    below the sequence of the invited users; request rows carry keys. *)
Definition store_ok (st : Store) : bool :=
  forallb (fun b => match board_id b with
                    | Some k => (k <? seq (boards st))%Z
                    | None => false
                    end)
          (rows (boards st))
  && forallb (fun c =>
                existsb (fun b => same_pk (board_id (bc_board c)) (board_id b))
                        (rows (boards st))
                && match bc_invited_user c with
                   | Some i => match iu_id i with
                               | Some k => (k <? seq (invited_users st))%Z
                               | None => false
                               end
                   | None => true
                   end)
             (rows (collaborators st))
  && forallb (fun r => is_set (req_id r)) (rows (requests st)).

(** Every saved board carries a key below the sequence of the table. *)
Definition boards_keyed (t : Table Board) : Prop :=
  forall b, In b (rows t) ->
            exists k, board_id b = Some k /\ (k < seq t)%Z.

(** The collaborator row points to a board of the table and, if it has
    an invited user, to a key below the sequence of the invited users. *)
Definition collaborator_linked (bs : Table Board) (ius : Table InvitedUser)
    (c : BoardCollaborator) : Prop :=
  (exists b, In b (rows bs)
             /\ same_pk (board_id (bc_board c)) (board_id b) = true)
  /\ (forall i, bc_invited_user c = Some i ->
                exists k, iu_id i = Some k /\ (k < seq ius)%Z).

(** A board whose save is a creation: it has no key yet, or a key that
    is not in the boards table. *)
Definition is_new_board (st : Store) (b : Board) : bool :=
  match board_id b with
  | None => true
  | Some k => negb (table_has board_id k (boards st))
  end.

(** The rows [accept] writes for request [r] in store [st], and the
    stores it goes through. *)
Definition accepted_invited_user (st : Store) (r : BoardCollaboratorRequest)
    : InvitedUser :=
  mkInvitedUser (Some (seq (invited_users st)))
    (req_first_name r) (req_last_name r) (req_email r) (req_user r)
    (board_account (req_board r))
    (ac_user (account_owner (board_account (req_board r)))).

Definition accepted_collaborator (st : Store) (r : BoardCollaboratorRequest)
    : BoardCollaborator :=
  mkBoardCollaborator (Some (seq (collaborators st))) (req_board r) None
    (Some (accepted_invited_user st r)) READ_PERMISSION.

(** The collaborator [accept] hands to [objects.create], before it has
    a key. *)
Definition accept_instance (st : Store) (r : BoardCollaboratorRequest)
    : BoardCollaborator :=
  mkBoardCollaborator None (req_board r) None
    (Some (accepted_invited_user st r)) READ_PERMISSION.

Definition after_invited_user (st : Store) (r : BoardCollaboratorRequest)
    : Store :=
  with_invited_users
    (mkTable (rows (invited_users st) ++ [accepted_invited_user st r])%list
             (seq (invited_users st) + 1))
    st.

Definition after_collaborator (st : Store) (r : BoardCollaboratorRequest)
    : Store :=
  with_collaborators
    (mkTable (rows (collaborators st) ++ [accepted_collaborator st r])%list
             (seq (collaborators st) + 1))
    (after_invited_user st r).

Definition after_link (st : Store) (r : BoardCollaboratorRequest) : Store :=
  let link := (seq (invited_users st), seq (collaborators st)) in
  let links := invited_user_board_collaborators st in
  if existsb (fun l => (fst l =? fst link)%Z && (snd l =? snd link)%Z) links
  then after_collaborator st r
  else with_links (links ++ [link])%list (after_collaborator st r).

Definition after_invite (st : Store) (r : BoardCollaboratorRequest) : Store :=
  with_invites (invites st ++ [seq (invited_users st)])%list
               (after_link st r).

Definition after_delete (st : Store) (r : BoardCollaboratorRequest) (k : Z)
    : Store :=
  with_requests (table_delete req_id k (requests st)) (after_invite st r).

(** The users with e-mail address [email] are exactly [u]. *)
Definition matches_only (st : Store) (email : string) (u : User) : Prop :=
  filter (fun v => user_email v =? email) (users st) = [u].

(** Request [r] bound to user [u], with the name and the e-mail address
    of [u]. *)
Definition bound_to (u : User) (r : BoardCollaboratorRequest)
    : BoardCollaboratorRequest :=
  mkBoardCollaboratorRequest (req_id r) (user_first_name u)
    (user_last_name u) (user_email u) (Some u) (req_board r)
    (req_message r).

(** ** Sample data *)

Definition olivia : User := mkUser 1 "Olivia" "Owner" "olivia@example.com".
Definition alice : User := mkUser 2 "Alice" "Archer" "alice@example.com".
Definition nobody : User := mkUser 3 "" "" "".
Definition alice_twin : User := mkUser 4 "Al" "Archer" "alice@example.com".

Definition acme : Account := mkAccount 1 (mkAccountCollaborator olivia).

Definition roadmap : Board :=
  mkBoard (Some 1) "Roadmap" "roadmap" acme olivia false "" "" "".

Definition draft_board : Board :=
  mkBoard None "Ideas" "ideas" acme olivia false "" "" "".

Definition olivia_on_roadmap : BoardCollaborator :=
  mkBoardCollaborator (Some 1) roadmap (Some olivia) None WRITE_PERMISSION.

Definition alice_on_roadmap : BoardCollaborator :=
  mkBoardCollaborator (Some 2) roadmap (Some alice) None READ_PERMISSION.

Definition alice_request : BoardCollaboratorRequest :=
  mkBoardCollaboratorRequest (Some 1) "Alice" "Archer" "alice@example.com"
    (Some alice) roadmap "May I join?".

Definition blank_request : BoardCollaboratorRequest :=
  mkBoardCollaboratorRequest None "" "" "" None roadmap "".

Definition unbound_request : BoardCollaboratorRequest :=
  mkBoardCollaboratorRequest None "A." "" "alice@example.com" None roadmap
    "May I join?".

Definition sample_store : Store :=
  mkStore [olivia; alice]
          (mkTable [roadmap] 2)
          (mkTable [olivia_on_roadmap] 2)
          (mkTable [alice_request] 2)
          (mkTable [] 1)
          [] [] [].

(** The sample store with Alice as a reader of the roadmap board. *)
Definition reader_store : Store :=
  with_collaborators (mkTable [olivia_on_roadmap; alice_on_roadmap] 3)
                     sample_store.

(** The sample store before Alice asked to join. *)
Definition quiet_store : Store :=
  with_requests (mkTable [] 1) sample_store.

(** The sample store with a user whose e-mail address is empty. *)
Definition nobody_store : Store :=
  mkStore [olivia; alice; nobody] (boards sample_store)
          (collaborators sample_store) (requests sample_store)
          (invited_users sample_store) [] [] [].

(** The sample store with two users of one e-mail address. *)
Definition twin_store : Store :=
  mkStore [olivia; alice; alice_twin] (boards sample_store)
          (collaborators sample_store) (requests sample_store)
          (invited_users sample_store) [] [] [].

(** A request of a newcomer whom no user matches. *)
Definition newcomer_request : BoardCollaboratorRequest :=
  mkBoardCollaboratorRequest None "Nora" "New" "nora@example.com" None
    roadmap "Hello".

(** Alice's request as she would file it again. *)
Definition repeated_request : BoardCollaboratorRequest :=
  mkBoardCollaboratorRequest None "Alice" "Archer" "alice@example.com"
    (Some alice) roadmap "Please?".

(** A request that was never saved. *)
Definition unsaved_request : BoardCollaboratorRequest :=
  mkBoardCollaboratorRequest None "Alice" "Archer" "alice@example.com"
    (Some alice) roadmap "May I join?".

(** A second account, with Alice as its owner. *)
Definition globex : Account := mkAccount 2 (mkAccountCollaborator alice).

Definition plans : Board :=
  mkBoard (Some 2) "Plans" "plans" globex alice false "" "" "".

(** Every outside call succeeds and every field is valid. *)
Definition calm : Env := mkEnv (fun _ _ => false) (fun _ => true).

(** The invite delivery is down; everything else works. *)
Definition invite_down : Env :=
  mkEnv (fun c _ => match c with SendInvite => true | _ => false end)
        (fun _ => true).

(** The mail sender is down. *)
Definition mail_down : Env :=
  mkEnv (fun c _ => match c with SendMail => true | _ => false end)
        (fun _ => true).

End Boards.

(** * cards/models.py *)

Module Cards.

Record Card : Type := mkCard {
  card_id : option Z;
  card_name : string;
  card_type : string;
  card_slug : string;
  card_board_id : Z;
  card_created_by_id : Z;
  card_position : Z;
  (** [stack]: the key of the stack card this card points back to *)
  card_stack_id : option Z;
  card_featured : bool;
  card_origin_url : string;
  card_content : string;
  card_is_shared : bool;
  card_thumbnail_sm_path : string;
  card_thumbnail_md_path : string;
  card_thumbnail_lg_path : string;
  card_file_size : option Z;
  card_mime_type : option string
}.

(** One call of [queue_previews(url, sizes, metadata)]. *)
Record PreviewRequest : Type := mkPreviewRequest {
  preview_url : string;
  preview_sizes : list string;
  preview_metadata : list (string * option Z)
}.

Record Store : Type := mkStore {
  cards : Table Card;
  (** join table of [Card.cards]: (stack card, member card) *)
  card_cards : list (Z * Z);
  (** preview requests handed to the preview service *)
  preview_queue : list PreviewRequest
}.

Definition with_cards (t : Table Card) (st : Store) : Store :=
  mkStore t (card_cards st) (preview_queue st).

Definition with_card_cards (l : list (Z * Z)) (st : Store) : Store :=
  mkStore (cards st) l (preview_queue st).

Definition with_preview_queue (l : list PreviewRequest) (st : Store)
    : Store :=
  mkStore (cards st) (card_cards st) l.

Inductive Call : Type :=
| WriteCard
| QueuePreviews
| BasePostSave.

(** What the surroundings decide: whether an outside call fails, and the
    per-field validation of a card ([clean_fields]: choices, lengths,
    URL syntax). *)
Record Env : Type := mkEnv {
  fails : Call -> Store -> bool;
  card_fields_valid : Card -> bool
}.

Definition set_card_id (k : option Z) (c : Card) : Card :=
  mkCard k (card_name c) (card_type c) (card_slug c) (card_board_id c)
         (card_created_by_id c) (card_position c) (card_stack_id c)
         (card_featured c) (card_origin_url c) (card_content c)
         (card_is_shared c) (card_thumbnail_sm_path c)
         (card_thumbnail_md_path c) (card_thumbnail_lg_path c)
         (card_file_size c) (card_mime_type c).

Definition set_card_stack (s : option Z) (c : Card) : Card :=
  mkCard (card_id c) (card_name c) (card_type c) (card_slug c)
         (card_board_id c) (card_created_by_id c) (card_position c) s
         (card_featured c) (card_origin_url c) (card_content c)
         (card_is_shared c) (card_thumbnail_sm_path c)
         (card_thumbnail_md_path c) (card_thumbnail_lg_path c)
         (card_file_size c) (card_mime_type c).

(** ** Card.clean *)

(** [disallowed_fields], each name with [bool(getattr(self, field))]. *)
Definition disallowed_fields (self : Card) : list (string * bool) :=
  [("origin_url", truthy (card_origin_url self));
   ("content", truthy (card_content self));
   ("thumbnail_sm_path", truthy (card_thumbnail_sm_path self));
   ("thumbnail_md_path", truthy (card_thumbnail_md_path self));
   ("thumbnail_lg_path", truthy (card_thumbnail_lg_path self));
   ("file_size", truthy_int (card_file_size self));
   ("mime_type", truthy_opt (card_mime_type self))].

(** The [for] loop of [clean]: the first field that is truthy raises. *)
Fixpoint check_disallowed (fields : list (string * bool)) : M Store unit :=
  match fields with
  | [] => ret tt
  | (field, value) :: rest =>
      if value then
        raise (ValidationError
                 ["The `" ++ field
                  ++ "` field should not be set on a card stack."])
      else check_disallowed rest
  end.

Definition Card_clean (self : Card) : M Store unit :=
  if negb (card_type self =? "stack") then
    if negb (truthy (card_content self)) then
      raise (ValidationError ["The `content` field is required."])
    else ret tt
  else check_disallowed (disallowed_fields self).

Definition validation_messages {A} (m : M Store A) (st : Store)
    : list string :=
  match m st with
  | Raise (ValidationError msgs) _ => msgs
  | _ => []
  end.

Section WithEnv.
Variable env : Env.

Definition outside (c : Call) (failure : Exception) : M Store unit :=
  fun st => if fails env c st then Raise failure st else Ok tt st.

Definition Card_full_clean (self : Card) : M Store unit :=
  fun st =>
    match ((if card_fields_valid env self then []
            else ["Enter valid values for the fields."])
           ++ validation_messages (Card_clean self) st)%list with
    | [] => Ok tt st
    | errors => Raise (ValidationError errors) st
    end.

Definition Card_pre_save (self : Card) : M Store unit :=
  Card_full_clean self.

(** Modelled from the spec: [queue_previews(url, sizes, metadata)] of
    the files application, a job submission to the preview service
    whose return value is not used. *)
Definition queue_previews (url : string) (sizes : list string)
    (metadata : list (string * option Z)) : M Store unit :=
  outside QueuePreviews DeliveryError ;;;
  fun st =>
    Ok tt (with_preview_queue
             (preview_queue st ++ [mkPreviewRequest url sizes metadata])%list
             st).

(** Modelled from the spec: [super(Card, self).post_save(created)], the
    inherited hook of [BaseModel] in utils/models.py.  It serves the
    announcements of the change, outside the tables and queues kept
    here, and may fail there. *)
Definition BaseModel_post_save (self : Card) (created : bool)
    : M Store unit :=
  outside BasePostSave DeliveryError.

Definition Card_post_save (self : Card) (created : bool) : M Store unit :=
  (if created && (card_type self =? "file") then
     let url := card_content self in
     let sizes := ["200x200"; "500x500"; "800x800"] in
     let metadata := [("cardId", card_id self)] in
     queue_previews url sizes metadata
   else ret tt) ;;;
  BaseModel_post_save self created.

(** [Card.save]: [autoconnect] ties [pre_save] and [post_save] to the
    signals of the same names, sent around the write of the row. *)
Definition Card_save (self : Card) : M Store Card :=
  Card_pre_save self ;;;
  outside WriteCard DatabaseError ;;;
  written <- (fun st =>
    let '(obj, created, t) :=
      table_save card_id set_card_id self (cards st) in
    Ok (obj, created) (with_cards t st)) ;;
  Card_post_save (fst written) (snd written) ;;;
  ret (fst written).

End WithEnv.

(** ** The [m2m_changed] receiver of [Card.cards] *)

(** [Card.objects.filter(p).update(stack=s)] *)
Definition update_stack (p : Card -> bool) (s : option Z) : M Store unit :=
  fun st =>
    Ok tt (with_cards
             (mkTable (map (fun c => if p c then set_card_stack s c else c)
                           (rows (cards st)))
                      (seq (cards st)))
             st).

(** [pk__in=pk_set] *)
Definition pk_in (pk_set : list Z) (c : Card) : bool :=
  match card_id c with
  | Some k => existsb (Z.eqb k) pk_set
  | None => false
  end.

(** [stack=instance] *)
Definition stack_is (instance : Card) (c : Card) : bool :=
  same_pk (card_stack_id c) (card_id instance).

Definition cards_changed (instance : Card) (action : string)
    (pk_set : option (list Z)) : M Store unit :=
  if action =? "post_add" then
    match pk_set with
    | Some pks => update_stack (pk_in pks) (card_id instance)
    | None => raise TypeError
    end
  else if action =? "post_remove" then
    match pk_set with
    | Some pks =>
        update_stack (fun c => pk_in pks c && stack_is instance c) None
    | None => raise TypeError
    end
  else if action =? "post_clear" then
    update_stack (stack_is instance) None
  else ret tt.

(** ** The member set [Card.cards] and its manager

    The related manager of the framework: it edits the join table and
    sends [m2m_changed] before and after, with the keys it touched. *)

Definition is_link (s k : Z) (l : Z * Z) : bool :=
  (fst l =? s)%Z && (snd l =? k)%Z.

Definition is_member (st : Store) (s k : Z) : bool :=
  existsb (is_link s k) (card_cards st).

Definition Z_nodup (l : list Z) : list Z := nodup Z.eq_dec l.

(** [instance.cards.add(objs)]: only keys that are not members yet are
    inserted and reported to the receiver. *)
Definition Card_cards_add (instance : Card) (objs : list Z)
    : M Store unit :=
  match card_id instance with
  | Some s =>
      new_ids <- (fun st =>
        Ok (Z_nodup (filter (fun k => negb (is_member st s k)) objs)) st) ;;
      cards_changed instance "pre_add" (Some new_ids) ;;;
      (fun st =>
         Ok tt (with_card_cards
                  (card_cards st ++ map (fun k => (s, k)) new_ids)%list st)) ;;;
      cards_changed instance "post_add" (Some new_ids)
  | None => raise ValueError
  end.

(** [instance.cards.remove(objs)] *)
Definition Card_cards_remove (instance : Card) (objs : list Z)
    : M Store unit :=
  match card_id instance with
  | Some s =>
      let old_ids := Z_nodup objs in
      cards_changed instance "pre_remove" (Some old_ids) ;;;
      (fun st =>
         Ok tt (with_card_cards
                  (filter (fun l => negb ((fst l =? s)%Z
                                          && existsb (Z.eqb (snd l)) old_ids))
                          (card_cards st))
                  st)) ;;;
      cards_changed instance "post_remove" (Some old_ids)
  | None => raise ValueError
  end.

(** [instance.cards.clear()] *)
Definition Card_cards_clear (instance : Card) : M Store unit :=
  match card_id instance with
  | Some s =>
      cards_changed instance "pre_clear" None ;;;
      (fun st =>
         Ok tt (with_card_cards
                  (filter (fun l => negb (fst l =? s)%Z) (card_cards st))
                  st)) ;;;
      cards_changed instance "post_clear" None
  | None => raise ValueError
  end.

(** ** Vocabulary of the properties *)

(** [Card.objects.get(pk=k)], if there is such a card. *)
Definition lookup (st : Store) (k : Z) : option Card :=
  find (fun c => same_pk (card_id c) (Some k)) (rows (cards st)).

(** The back-reference of the card with key [k], if that card exists. *)
Definition stack_of (st : Store) (k : Z) : option (option Z) :=
  option_map card_stack_id (lookup st k).

(** Back-references and member sets agree: a card points to stack [s]
    exactly when it is in the member set of [s]. *)
Definition in_step (st : Store) : Prop :=
  forall (c : Card) (k s : Z),
    In c (rows (cards st)) -> card_id c = Some k ->
    (card_stack_id c = Some s <-> is_member st s k = true).

(** The card has a value in one of the fields a stack must not have: a
    string that is not empty, or a file size. *)
Definition stack_field_set (self : Card) : Prop :=
  card_origin_url self <> ""
  \/ card_content self <> ""
  \/ card_thumbnail_sm_path self <> ""
  \/ card_thumbnail_md_path self <> ""
  \/ card_thumbnail_lg_path self <> ""
  \/ card_file_size self <> None
  \/ (exists m, card_mime_type self = Some m /\ m <> "").

(** The keys [instance.cards.add(objs)] inserts for stack [s]. *)
Definition newly_added (st : Store) (s : Z) (objs : list Z) : list Z :=
  Z_nodup (filter (fun k => negb (is_member st s k)) objs).

(** The cards table after [filter(p).update(stack=v)]. *)
Definition restacked (p : Card -> bool) (v : option Z) (st : Store)
    : Table Card :=
  mkTable (map (fun c => if p c then set_card_stack v c else c)
               (rows (cards st)))
          (seq (cards st)).

(** What [clean] refuses: a card that is no stack and has no content,
    or a stack with a truthy value in a field of files and notes (a
    string that is not empty, a file size other than zero). *)
Definition refused_by_clean (self : Card) : Prop :=
  (card_type self <> "stack" /\ card_content self = "")
  \/ (card_type self = "stack"
      /\ (card_origin_url self <> ""
          \/ card_content self <> ""
          \/ card_thumbnail_sm_path self <> ""
          \/ card_thumbnail_md_path self <> ""
          \/ card_thumbnail_lg_path self <> ""
          \/ (exists n, card_file_size self = Some n /\ n <> 0%Z)
          \/ (exists m, card_mime_type self = Some m /\ m <> ""))).

(** [instance.cards.all()], as keys. *)
Definition members (st : Store) (s : Z) : list Z :=
  map snd (filter (fun l => (fst l =? s)%Z) (card_cards st)).

(** When validation of a card has to fail. *)
Definition invalid_card (self : Card) : Prop :=
  (card_type self <> "stack" /\ card_content self = "")
  \/ (card_type self = "stack" /\ stack_field_set self).

Definition no_failures (env : Env) : Prop :=
  forall (c : Call) (st : Store), fails env c st = false.

(** A card whose save is a creation. *)
Definition is_new_card (st : Store) (c : Card) : bool :=
  match card_id c with
  | None => true
  | Some k => negb (table_has card_id k (cards st))
  end.

(** ** Sample data *)

Definition blank_card (id : option Z) (name type : string) : Card :=
  mkCard id name type "" 1 1 0 None false "" "" false "" "" "" None None.

Definition with_content (content : string) (c : Card) : Card :=
  mkCard (card_id c) (card_name c) (card_type c) (card_slug c)
         (card_board_id c) (card_created_by_id c) (card_position c)
         (card_stack_id c) (card_featured c) (card_origin_url c) content
         (card_is_shared c) (card_thumbnail_sm_path c)
         (card_thumbnail_md_path c) (card_thumbnail_lg_path c)
         (card_file_size c) (card_mime_type c).

Definition with_file_size (n : option Z) (c : Card) : Card :=
  mkCard (card_id c) (card_name c) (card_type c) (card_slug c)
         (card_board_id c) (card_created_by_id c) (card_position c)
         (card_stack_id c) (card_featured c) (card_origin_url c)
         (card_content c) (card_is_shared c) (card_thumbnail_sm_path c)
         (card_thumbnail_md_path c) (card_thumbnail_lg_path c)
         n (card_mime_type c).

(** Two stacks and a note on one board. *)
Definition pile : Card := blank_card (Some 1) "Pile" "stack".
Definition heap : Card := blank_card (Some 2) "Heap" "stack".
Definition memo : Card :=
  with_content "Buy milk" (blank_card (Some 3) "Memo" "note").

(** A stack that carries a file size of zero bytes. *)
Definition zero_size_stack : Card :=
  with_file_size (Some 0) (blank_card None "Empty" "stack").

(** A file card that is not saved yet. *)
Definition new_file : Card :=
  with_content "https://files.example.com/plan.pdf"
               (blank_card None "Plan" "file").

Definition deck : Store := mkStore (mkTable [pile; heap; memo] 4) [] [].

(** The memo added to the pile and then to the heap. *)
Definition memo_on_both : Store :=
  store_of (Card_cards_add heap [3]%Z
              (store_of (Card_cards_add pile [3]%Z deck))).

Definition calm : Env := mkEnv (fun _ _ => false) (fun _ => true).

(** The preview service is down; everything else works. *)
Definition previews_down : Env :=
  mkEnv (fun c _ => match c with QueuePreviews => true | _ => false end)
        (fun _ => true).

(** A note without content. *)
Definition empty_note : Card := blank_card None "Empty" "note".

End Cards.

(** * notifications/types.py *)

Module Notifications.

(** One entry of [NOTIFICATION_TYPES].  The display and description
    texts are lazily translated in the source; they are kept as the
    untranslated message. *)
Record NotificationType : Type := mkNotificationType {
  nt_label : string;
  nt_display : string;
  nt_description : string;
  nt_email : bool;
  nt_notification : bool
}.

Definition NOTIFICATION_TYPES : list NotificationType :=
  [mkNotificationType "card_comment_created" "Comment created"
     "commented" true true;
   mkNotificationType "signup_request_created" "Signup Request Created"
     "invited" true false;
   mkNotificationType "user_invited" "Invited to join account"
     "invited" true false;
   mkNotificationType "board_collaborator_requested"
     "Blimp Board Collaborator Request" "wants to join your board"
     true false;
   mkNotificationType "password_reset_requested" "Password Reset"
     "reset your password" true false;
   mkNotificationType "card_created" "Card created"
     "created a card on board" false true;
   mkNotificationType "card_featured" "Card highlighted"
     "highlighted" false true;
   mkNotificationType "card_stack_created" "Stack created"
     "created a stack" false true;
   mkNotificationType "board_collaborator_created" "New board collaborator"
     "is now a collaborator on board" true true].

(** The [for] loop over a list of types: the first one with the label,
    [None] when the loop runs out. *)
Fixpoint first_labelled (types : list NotificationType) (label : string)
    : option NotificationType :=
  match types with
  | [] => None
  | type :: rest =>
      if nt_label type =? label then Some type
      else first_labelled rest label
  end.

Definition get_notification_type (label : string)
    : option NotificationType :=
  first_labelled NOTIFICATION_TYPES label.

End Notifications.

(** * cards/models.py: Card.notify_comment_created *)

Module CardComments.

Import Boards.

(** [comments.Comment], as far as the card reads it. *)
Record Comment : Type := mkComment {
  comment_id : Z;
  comment_content : string
}.

(** One call of [notify.send]. *)
Record Notification : Type := mkNotification {
  n_actor : User;
  n_recipients : list User;
  n_label : string;
  n_action_object : Comment;
  n_description : string;
  n_target : Cards.Card
}.

(** The tables of boards/models.py and the notifications handed to the
    dispatcher. *)
Record World : Type := mkWorld {
  db : Boards.Store;
  dispatched : list Notification
}.

(** [User.objects.filter(boardcollaborator__board__id=board)]: the join
    of users with the collaborator rows of the board, one result per
    matching row. *)
Definition users_of_board (st : Boards.Store) (board : Z) : list User :=
  flat_map
    (fun u =>
       map (fun _ => u)
           (filter (fun c => same_pk (user_pk (bc_user c)) (Some (user_id u))
                             && same_pk (board_id (bc_board c)) (Some board))
                   (rows (collaborators st))))
    (users st).

(** [.exclude(id=k)] *)
Definition exclude_id (k : Z) (qs : list User) : list User :=
  filter (fun u => negb (user_id u =? k)%Z) qs.

Section WithDispatcher.
Variable dispatch_fails : World -> bool.

(** Modelled from the spec: [notify.send(actor, recipients=..., label=...,
    extra_context=...)] of notifications/signals.py, the dispatcher.  It
    takes the notification for delivery, or fails. *)
Definition notify_send (actor : User) (recipients : list User)
    (label : string) (action_object : Comment) (description : string)
    (target : Cards.Card) : M World unit :=
  fun w =>
    if dispatch_fails w then Raise DeliveryError w
    else Ok tt (mkWorld (db w)
                  (dispatched w
                   ++ [mkNotification actor recipients label action_object
                         description target])%list).

Definition notify_comment_created (self : Cards.Card) (user : User)
    (comment : Comment) : M World unit :=
  recipients <- (fun w =>
    Ok (exclude_id (user_id user)
          (users_of_board (db w) (Cards.card_board_id self))) w) ;;
  let actor := user in
  let label := "card_comment_created" in
  notify_send actor recipients label comment (comment_content comment) self.

End WithDispatcher.

(** ** Vocabulary of the properties *)

(** User [u] has a collaborator row on the board with key [board]. *)
Definition collaborates (st : Boards.Store) (board : Z) (u : User) : Prop :=
  exists c v,
    In c (rows (collaborators st))
    /\ bc_user c = Some v /\ user_id v = user_id u
    /\ board_id (bc_board c) = Some board.

(** No user has two collaborator rows on the board with key [board]. *)
Definition one_row_per_user (st : Boards.Store) (board : Z) : Prop :=
  forall u,
    (List.length
       (filter (fun c => same_pk (user_pk (bc_user c)) (Some (user_id u))
                         && same_pk (board_id (bc_board c)) (Some board))
               (rows (collaborators st))) <= 1)%nat.

(** ** Sample data *)

Definition hello : Comment := mkComment 1 "Looks good".

(** The reader store, nothing dispatched yet. *)
Definition quiet_world : World := mkWorld reader_store [].

End CardComments.

(** * Properties of boards/models.py *)

Section BoardsProperties.
Import Boards.

(** ** Query sets *)

Lemma qs_exists_filter {A} (p : A -> bool) (l : list A) :
  qs_exists (filter p l) = true <-> exists x, In x l /\ p x = true.
Proof.
  induction l as [|a l IH]; simpl.
  - split; [discriminate | intros [x [[] _]]].
  - destruct (p a) eqn:Hp; simpl.
    + split; [intros _; exists a; auto | reflexivity].
    + rewrite IH. split.
      * intros [x [Hin Hx]]. exists x. auto.
      * intros [x [[Heq | Hin] Hx]]; [congruence | exists x; auto].
Qed.

Lemma qs_exists_filter_filter {A} (p q : A -> bool) (l : list A) :
  qs_exists (filter q (filter p l)) = true
  <-> exists x, In x l /\ p x = true /\ q x = true.
Proof.
  rewrite qs_exists_filter. split.
  - intros [x [Hin Hq]]. apply filter_In in Hin. destruct Hin. exists x. auto.
  - intros [x [Hin [Hp Hq]]]. exists x. split; [apply filter_In|]; auto.
Qed.

Lemma same_pk_true (a b : option Z) :
  same_pk a b = true <-> exists k, a = Some k /\ b = Some k.
Proof.
  destruct a as [x|], b as [y|]; simpl.
  - rewrite Z.eqb_eq. split.
    + intros ->. exists y. auto.
    + intros [k [Hx Hy]]. congruence.
  - split; [discriminate | intros [k [_ H]]; discriminate].
  - split; [discriminate | intros [k [H _]]; discriminate].
  - split; [discriminate | intros [k [H _]]; discriminate].
Qed.

Lemma for_board_and_user_true (st : Store) (b : Board) (u : User)
    (c : BoardCollaborator) :
  In c (rows (collaborators st)) /\ for_board_and_user b u c = true
  <-> row_for st b u c.
Proof.
  unfold for_board_and_user, row_for.
  rewrite andb_true_iff, same_pk_true.
  destruct (bc_user c) as [v|].
  - rewrite Z.eqb_eq. split.
    + intros [Hin [Hb Hu]]. repeat split; auto. exists v. auto.
    + intros [Hin [Hb [w [Hw Hu]]]]. inversion Hw; subst. auto.
  - split.
    + intros [_ [_ H]]. discriminate.
    + intros [_ [_ [w [Hw _]]]]. discriminate.
Qed.

(** ** Board.is_user_collaborator *)

Lemma is_user_collaborator_any (st : Store) (b : Board) (u : User) :
  is_user_collaborator st b u None = true
  <-> exists c, row_for st b u c.
Proof.
  unfold is_user_collaborator. simpl.
  rewrite qs_exists_filter.
  split; intros [c H]; exists c; apply for_board_and_user_true; exact H.
Qed.

Lemma is_user_collaborator_read (st : Store) (b : Board) (u : User) :
  is_user_collaborator st b u (Some "read") = true
  <-> exists c, row_for st b u c
                /\ (bc_permission c = "read" \/ bc_permission c = "write").
Proof.
  unfold is_user_collaborator. simpl.
  rewrite qs_exists_filter_filter. split.
  - intros [c [Hin [Hrow Hperm]]]. exists c. split.
    + apply for_board_and_user_true. auto.
    + apply orb_true_iff in Hperm.
      destruct Hperm as [H | H]; apply String.eqb_eq in H; auto.
  - intros [c [Hrow Hperm]].
    apply for_board_and_user_true in Hrow. destruct Hrow as [Hin Hrow].
    exists c. repeat split; auto.
    apply orb_true_iff.
    destruct Hperm as [H | H]; rewrite H; [right | left]; reflexivity.
Qed.

Lemma is_user_collaborator_write (st : Store) (b : Board) (u : User) :
  is_user_collaborator st b u (Some "write") = true
  <-> exists c, row_for st b u c /\ bc_permission c = "write".
Proof.
  unfold is_user_collaborator. simpl.
  rewrite qs_exists_filter_filter. split.
  - intros [c [Hin [Hrow Hperm]]]. exists c. split.
    + apply for_board_and_user_true. auto.
    + apply String.eqb_eq. exact Hperm.
  - intros [c [Hrow Hperm]].
    apply for_board_and_user_true in Hrow. destruct Hrow as [Hin Hrow].
    exists c. repeat split; auto. apply String.eqb_eq. exact Hperm.
Qed.

(** C2. With no permission asked, any collaborator row of the board
    for the user counts; asking for read accepts a row with read or
    write permission; asking for write accepts only a row with write
    permission.  Hence write implies read, and there is a store in which
    a user is a reader and not a writer. *)
Theorem is_user_collaborator_permission_levels :
  (forall (st : Store) (b : Board) (u : User),
      (is_user_collaborator st b u None = true
       <-> exists c, row_for st b u c)
      /\ (is_user_collaborator st b u (Some "read") = true
          <-> exists c, row_for st b u c
                        /\ (bc_permission c = "read"
                            \/ bc_permission c = "write"))
      /\ (is_user_collaborator st b u (Some "write") = true
          <-> exists c, row_for st b u c /\ bc_permission c = "write")
      /\ (is_user_collaborator st b u (Some "write") = true ->
          is_user_collaborator st b u (Some "read") = true))
  /\ (exists (st : Store) (b : Board) (u : User),
         is_user_collaborator st b u (Some "read") = true
         /\ is_user_collaborator st b u (Some "write") = false).
Proof.
  split.
  - intros st b u.
    split; [apply is_user_collaborator_any|].
    split; [apply is_user_collaborator_read|].
    split; [apply is_user_collaborator_write|].
    rewrite is_user_collaborator_write, is_user_collaborator_read.
    intros [c [Hrow Hperm]]. exists c. auto.
  - exists reader_store, roadmap, alice. split; reflexivity.
Qed.

(** ** BoardCollaboratorRequest.notify_account_owner *)

Lemma notify_account_owner_sent (env : Env) (st : Store)
    (r : BoardCollaboratorRequest) :
  fails env SendMail st = false ->
  notify_account_owner env r st
  = Ok 1%Z
       (with_outbox
          (outbox st
           ++ [mkMail "Blimp Board Collaborator Request"
                      (req_email r ++ " wants to join your board")
                      "from@example.com" [req_email r]])%list
          st).
Proof.
  intros Hup. unfold notify_account_owner, send_mail. rewrite Hup.
  reflexivity.
Qed.

Lemma notify_account_owner_failure_surfaces (env : Env) (st : Store)
    (r : BoardCollaboratorRequest) :
  fails env SendMail st = true ->
  notify_account_owner env r st = Raise SMTPException st.
Proof.
  intros Hdown. unfold notify_account_owner, send_mail. rewrite Hdown.
  reflexivity.
Qed.

(** C1. For Alice's request to join Olivia's roadmap board the mail goes
    to Alice, the requester, and not to Olivia, the owner of the board's
    account; a failure of the mail sender does reach the caller. *)
Theorem notify_account_owner_mails_requester :
  notify_account_owner calm alice_request sample_store
  = Ok 1%Z
       (with_outbox
          [mkMail "Blimp Board Collaborator Request"
                  "alice@example.com wants to join your board"
                  "from@example.com" ["alice@example.com"]]
          sample_store)
  /\ user_email
       (ac_user (account_owner (board_account (req_board alice_request))))
     = "olivia@example.com"
  /\ notify_account_owner mail_down alice_request sample_store
     = Raise SMTPException sample_store.
Proof. repeat split. Qed.

(** ** Creating a collaborator row *)

Lemma full_clean_keeps_store (c : BoardCollaborator) (st : Store) :
  BoardCollaborator_full_clean c st = Ok tt st
  \/ exists msgs, BoardCollaborator_full_clean c st
                  = Raise (ValidationError msgs) st.
Proof.
  unfold BoardCollaborator_full_clean.
  destruct (_ ++ _)%list; [left | right; eexists]; reflexivity.
Qed.

(** The store after the INSERT of a new collaborator row. *)
Lemma save_new_collaborator (env : Env) (c : BoardCollaborator)
    (st : Store) :
  bc_id c = None ->
  (exists e, BoardCollaborator_save env c st = Raise e st)
  \/ BoardCollaborator_save env c st
     = Ok (set_bc_id (Some (seq (collaborators st))) c)
          (with_collaborators
             (mkTable (rows (collaborators st)
                       ++ [set_bc_id (Some (seq (collaborators st))) c])%list
                      (seq (collaborators st) + 1))
             st).
Proof.
  intros Hid. unfold BoardCollaborator_save, bind, outside.
  destruct (full_clean_keeps_store c st) as [-> | [msgs ->]].
  - destruct (fails env WriteBoardCollaborator st).
    + left. eexists. reflexivity.
    + right. unfold table_save. rewrite Hid. reflexivity.
  - left. eexists. reflexivity.
Qed.

Lemma full_clean_passes (c : BoardCollaborator) (st : Store) :
  BoardCollaborator_clean_fields c = [] ->
  xorb (is_set (bc_user c)) (is_set (bc_invited_user c)) = true ->
  BoardCollaborator_validate_unique st c = [] ->
  BoardCollaborator_full_clean c st = Ok tt st.
Proof.
  intros Hfields Hone Hunique. unfold BoardCollaborator_full_clean.
  rewrite Hfields, Hunique.
  unfold validation_messages, BoardCollaborator_clean.
  destruct (bc_user c), (bc_invited_user c); simpl in *;
    try discriminate; reflexivity.
Qed.

Lemma save_new_collaborator_ok (env : Env) (c : BoardCollaborator)
    (st : Store) :
  bc_id c = None ->
  fails env WriteBoardCollaborator st = false ->
  BoardCollaborator_full_clean c st = Ok tt st ->
  BoardCollaborator_save env c st
  = Ok (set_bc_id (Some (seq (collaborators st))) c)
       (with_collaborators
          (mkTable (rows (collaborators st)
                    ++ [set_bc_id (Some (seq (collaborators st))) c])%list
                   (seq (collaborators st) + 1))
          st).
Proof.
  intros Hid Hup Hclean. unfold BoardCollaborator_save, bind, outside.
  rewrite Hclean, Hup. unfold table_save. rewrite Hid. reflexivity.
Qed.

Lemma existsb_false_forall {A} (p : A -> bool) (l : list A) :
  (forall x, In x l -> p x = false) -> existsb p l = false.
Proof.
  intros H. induction l as [|a l IH]; simpl; [reflexivity|].
  rewrite (H a (or_introl eq_refl)). apply IH.
  intros x Hx. apply H. right. exact Hx.
Qed.

Lemma store_ok_boards (st : Store) (b : Board) :
  store_ok st = true -> In b (rows (boards st)) ->
  exists k, board_id b = Some k /\ (k < seq (boards st))%Z.
Proof.
  unfold store_ok. rewrite !andb_true_iff. intros [[Hb _] _] Hin.
  rewrite forallb_forall in Hb. specialize (Hb b Hin).
  destruct (board_id b) as [k|]; [|discriminate].
  exists k. split; [reflexivity | apply Z.ltb_lt; exact Hb].
Qed.

Lemma store_ok_collaborator_board (st : Store) (c : BoardCollaborator) :
  store_ok st = true -> In c (rows (collaborators st)) ->
  exists k, board_id (bc_board c) = Some k
            /\ table_has board_id k (boards st) = true
            /\ (k < seq (boards st))%Z.
Proof.
  intros Hok Hin. pose proof Hok as Hok'.
  unfold store_ok in Hok. rewrite !andb_true_iff in Hok.
  destruct Hok as [[_ Hc] _].
  rewrite forallb_forall in Hc. specialize (Hc c Hin).
  apply andb_true_iff in Hc. destruct Hc as [Hc _].
  apply existsb_exists in Hc. destruct Hc as [b [Hb Hsame]].
  apply same_pk_true in Hsame. destruct Hsame as [k [Hck Hbk]].
  exists k. split; [exact Hck|]. split.
  - unfold table_has. apply existsb_exists. exists b. split; [exact Hb|].
    rewrite Hbk. simpl. apply Z.eqb_refl.
  - destruct (store_ok_boards st b Hok' Hb) as [k' [Hk' Hlt]]. congruence.
Qed.

Lemma store_ok_collaborator_invited_user (st : Store)
    (c : BoardCollaborator) (k : Z) :
  store_ok st = true -> In c (rows (collaborators st)) ->
  invited_user_pk (bc_invited_user c) = Some k ->
  (k < seq (invited_users st))%Z.
Proof.
  unfold store_ok. rewrite !andb_true_iff. intros [[_ Hc] _] Hin Hk.
  rewrite forallb_forall in Hc. specialize (Hc c Hin).
  apply andb_true_iff in Hc. destruct Hc as [_ Hc].
  unfold invited_user_pk in Hk.
  destruct (bc_invited_user c) as [i|]; [|discriminate].
  rewrite Hk in Hc. apply Z.ltb_lt. exact Hc.
Qed.

(** ** BoardCollaboratorRequest.accept, step by step *)

Lemma accept_collaborator_is_clean (st : Store)
    (r : BoardCollaboratorRequest) :
  store_ok st = true ->
  BoardCollaborator_full_clean
    (mkBoardCollaborator None (req_board r) None
       (Some (accepted_invited_user st r)) READ_PERMISSION)
    (after_invited_user st r)
  = Ok tt (after_invited_user st r).
Proof.
  intros Hok. apply full_clean_passes; [reflexivity | reflexivity |].
  unfold BoardCollaborator_validate_unique. simpl.
  destruct (board_id (req_board r)) as [b|]; [|reflexivity].
  rewrite existsb_false_forall; [reflexivity|].
  intros c Hc. apply filter_In in Hc. destruct Hc as [Hc _].
  apply andb_false_iff. right.
  destruct (invited_user_pk (bc_invited_user c)) as [k|] eqn:Hk;
    [|reflexivity].
  pose proof (store_ok_collaborator_invited_user st c k Hok Hc Hk) as Hlt.
  simpl. apply Z.eqb_neq. lia.
Qed.

Lemma accept_succeeds (env : Env) (st : Store)
    (r : BoardCollaboratorRequest) (k : Z) :
  no_failures env -> store_ok st = true -> req_id r = Some k ->
  accept env r st = Ok tt (after_delete st r k).
Proof.
  intros Hup Hok Hk. unfold accept, bind.
  unfold InvitedUser_objects_create, bind, outside at 1.
  rewrite Hup. simpl.
  change (with_invited_users _ st) with (after_invited_user st r).
  change (mkInvitedUser (Some (seq (invited_users st))) _ _ _ _ _ _)
    with (accepted_invited_user st r).
  unfold BoardCollaborator_objects_create.
  rewrite save_new_collaborator_ok;
    [| reflexivity | apply Hup | apply accept_collaborator_is_clean; exact Hok].
  change (with_collaborators _ (after_invited_user st r))
    with (after_collaborator st r).
  unfold InvitedUser_board_collaborators_add. simpl.
  unfold bind, outside. rewrite Hup.
  change (invited_user_board_collaborators (after_collaborator st r))
    with (invited_user_board_collaborators st).
  unfold InvitedUser_send_invite, BoardCollaboratorRequest_delete.
  simpl. rewrite Hk. unfold bind, outside, after_delete, after_invite.
  unfold after_link. simpl.
  destruct (existsb _ (invited_user_board_collaborators st));
    rewrite !Hup; reflexivity.
Qed.

Lemma store_ok_request_key (st : Store) (r : BoardCollaboratorRequest) :
  store_ok st = true -> In r (rows (requests st)) ->
  exists k, req_id r = Some k.
Proof.
  unfold store_ok. rewrite !andb_true_iff. intros [_ Hr] Hin.
  rewrite forallb_forall in Hr. specialize (Hr r Hin).
  destruct (req_id r) as [k|]; [exists k; reflexivity | discriminate].
Qed.

Lemma deleted_request_rows (t : Table BoardCollaboratorRequest) (k : Z)
    (x : BoardCollaboratorRequest) :
  In x (rows (table_delete req_id k t))
  <-> In x (rows t) /\ req_id x <> Some k.
Proof.
  unfold table_delete. simpl. rewrite filter_In, negb_true_iff.
  split; intros [Hin Hk]; split; try exact Hin.
  - intros Heq. rewrite Heq in Hk. simpl in Hk.
    rewrite Z.eqb_refl in Hk. discriminate.
  - destruct (same_pk (req_id x) (Some k)) eqn:Hs; [|reflexivity].
    apply same_pk_true in Hs. destruct Hs as [j [Hx Hj]].
    exfalso. apply Hk. congruence.
Qed.

Lemma after_link_registers (st : Store) (r : BoardCollaboratorRequest) :
  In (seq (invited_users st), seq (collaborators st))
     (invited_user_board_collaborators (after_link st r)).
Proof.
  unfold after_link. simpl.
  destruct (existsb _ (invited_user_board_collaborators st)) eqn:Hex.
  - apply existsb_exists in Hex. destruct Hex as [[i c] [Hin Heq]].
    simpl in Heq. apply andb_true_iff in Heq. destruct Heq as [Hi Hc].
    apply Z.eqb_eq in Hi. apply Z.eqb_eq in Hc. subst. exact Hin.
  - simpl. apply in_or_app. right. left. reflexivity.
Qed.

Lemma after_link_tables (st : Store) (r : BoardCollaboratorRequest) :
  invited_users (after_link st r) = invited_users (after_collaborator st r)
  /\ collaborators (after_link st r)
     = collaborators (after_collaborator st r)
  /\ requests (after_link st r) = requests st
  /\ invites (after_link st r) = invites st.
Proof.
  unfold after_link.
  destruct (existsb _ (invited_user_board_collaborators st));
    repeat split.
Qed.

Lemma reject_succeeds (env : Env) (st : Store)
    (r : BoardCollaboratorRequest) (k : Z) :
  no_failures env -> req_id r = Some k ->
  reject env r st
  = Ok tt (with_requests (table_delete req_id k (requests st)) st).
Proof.
  intros Hup Hk. unfold reject, BoardCollaboratorRequest_delete.
  rewrite Hk. unfold bind, outside. rewrite Hup. reflexivity.
Qed.

(** C3. Accepting a pending request adds exactly one invited user and
    exactly one collaborator row, of read permission and linked to that
    invited user, puts the row in the invited user's collaborator set,
    sends the invite and deletes the request; rejecting it deletes the
    request and leaves invited users and collaborators as they were. *)
Theorem accept_and_reject_effects (env : Env) (st : Store)
    (r : BoardCollaboratorRequest) :
  no_failures env -> store_ok st = true -> In r (rows (requests st)) ->
  (exists st' iu bc i c,
      accept env r st = Ok tt st'
      /\ rows (invited_users st') = (rows (invited_users st) ++ [iu])%list
      /\ iu = mkInvitedUser (Some i) (req_first_name r) (req_last_name r)
                (req_email r) (req_user r) (board_account (req_board r))
                (ac_user (account_owner (board_account (req_board r))))
      /\ rows (collaborators st') = (rows (collaborators st) ++ [bc])%list
      /\ bc = mkBoardCollaborator (Some c) (req_board r) None (Some iu)
                                  "read"
      /\ In (i, c) (invited_user_board_collaborators st')
      /\ invites st' = (invites st ++ [i])%list
      /\ ~ In r (rows (requests st'))
      /\ (forall x, In x (rows (requests st'))
                    <-> In x (rows (requests st)) /\ req_id x <> req_id r))
  /\ (exists st',
         reject env r st = Ok tt st'
         /\ invited_users st' = invited_users st
         /\ collaborators st' = collaborators st
         /\ invited_user_board_collaborators st'
            = invited_user_board_collaborators st
         /\ invites st' = invites st
         /\ ~ In r (rows (requests st'))
         /\ (forall x, In x (rows (requests st'))
                       <-> In x (rows (requests st))
                           /\ req_id x <> req_id r)).
Proof.
  intros Hup Hok Hin.
  destruct (store_ok_request_key st r Hok Hin) as [k Hk].
  split.
  - exists (after_delete st r k), (accepted_invited_user st r),
      (accepted_collaborator st r), (seq (invited_users st)),
      (seq (collaborators st)).
    destruct (after_link_tables st r) as [Hiu [Hbc [Hreq Hinv]]].
    split; [apply accept_succeeds; assumption|].
    unfold after_delete, after_invite. simpl.
    rewrite Hiu, Hbc. simpl.
    do 4 (split; [reflexivity|]).
    split; [apply after_link_registers|].
    split; [reflexivity|].
    split.
    + intros Hr. apply deleted_request_rows in Hr. tauto.
    + intros x. rewrite Hk. apply deleted_request_rows.
  - exists (with_requests (table_delete req_id k (requests st)) st).
    split; [apply reject_succeeds; assumption|].
    simpl. do 4 (split; [reflexivity|]).
    split.
    + intros Hr. apply deleted_request_rows in Hr. tauto.
    + intros x. rewrite Hk. apply deleted_request_rows.
Qed.

Lemma calm_no_failures : no_failures calm.
Proof. intros c st. reflexivity. Qed.

Lemma accept_and_reject_effects_witness :
  (exists st' iu bc i c,
      accept calm alice_request sample_store = Ok tt st'
      /\ rows (invited_users st')
         = (rows (invited_users sample_store) ++ [iu])%list
      /\ iu = mkInvitedUser (Some i) "Alice" "Archer" "alice@example.com"
                (Some alice) acme olivia
      /\ rows (collaborators st')
         = (rows (collaborators sample_store) ++ [bc])%list
      /\ bc = mkBoardCollaborator (Some c) roadmap None (Some iu) "read"
      /\ In (i, c) (invited_user_board_collaborators st')
      /\ invites st' = (invites sample_store ++ [i])%list
      /\ ~ In alice_request (rows (requests st'))
      /\ (forall x, In x (rows (requests st'))
                    <-> In x (rows (requests sample_store))
                        /\ req_id x <> req_id alice_request))
  /\ (exists st',
         reject calm alice_request sample_store = Ok tt st'
         /\ invited_users st' = invited_users sample_store
         /\ collaborators st' = collaborators sample_store
         /\ invited_user_board_collaborators st'
            = invited_user_board_collaborators sample_store
         /\ invites st' = invites sample_store
         /\ ~ In alice_request (rows (requests st'))
         /\ (forall x, In x (rows (requests st'))
                       <-> In x (rows (requests sample_store))
                           /\ req_id x <> req_id alice_request)).
Proof.
  apply (accept_and_reject_effects calm sample_store alice_request).
  - exact calm_no_failures.
  - reflexivity.
  - simpl. left. reflexivity.
Defined.

(** ** accept without a transaction *)

Lemma accept_failure_stages (env : Env) (st st' : Store)
    (r : BoardCollaboratorRequest) (e : Exception) :
  accept env r st = Raise e st' ->
  st' = st
  \/ st' = after_invited_user st r
  \/ st' = after_collaborator st r
  \/ st' = after_link st r
  \/ st' = after_invite st r.
Proof.
  unfold accept, bind.
  unfold InvitedUser_objects_create, bind, outside at 1.
  destruct (fails env InsertInvitedUser st).
  { intros H. inversion H. auto. }
  unfold table_insert, set_iu_id. simpl.
  change (with_invited_users _ st) with (after_invited_user st r).
  change (mkInvitedUser (Some (seq (invited_users st))) _ _ _ _ _ _)
    with (accepted_invited_user st r).
  unfold BoardCollaborator_objects_create.
  destruct (save_new_collaborator env
              (mkBoardCollaborator None (req_board r) None
                 (Some (accepted_invited_user st r)) READ_PERMISSION)
              (after_invited_user st r) eq_refl) as [[e' He'] | Hsaved].
  { rewrite He'. intros H. inversion H. auto. }
  rewrite Hsaved. clear Hsaved.
  change (with_collaborators _ (after_invited_user st r))
    with (after_collaborator st r).
  unfold InvitedUser_board_collaborators_add. simpl.
  unfold bind, outside at 1.
  destruct (fails env LinkBoardCollaborator (after_collaborator st r)).
  { intros H. inversion H. auto. }
  change (invited_user_board_collaborators (after_collaborator st r))
    with (invited_user_board_collaborators st).
  assert (Hlink :
    (if existsb (fun l => (fst l =? seq (invited_users st))%Z
                          && (snd l =? seq (collaborators st))%Z)
                (invited_user_board_collaborators st)
     then Ok tt (after_collaborator st r)
     else Ok tt (with_links
                   (invited_user_board_collaborators st
                    ++ [(seq (invited_users st), seq (collaborators st))])%list
                   (after_collaborator st r)))
    = Ok tt (after_link st r)).
  { unfold after_link. simpl. destruct (existsb _ _); reflexivity. }
  rewrite Hlink. clear Hlink.
  unfold InvitedUser_send_invite. simpl. unfold bind, outside at 1.
  destruct (fails env SendInvite (after_link st r)).
  { intros H. inversion H. auto. }
  assert (Hinvites : invites (after_link st r) = invites st)
    by apply after_link_tables.
  rewrite Hinvites.
  change (with_invites _ (after_link st r)) with (after_invite st r).
  unfold BoardCollaboratorRequest_delete.
  destruct (req_id r) as [k|].
  - unfold bind, outside.
    destruct (fails env DeleteBoardCollaboratorRequest (after_invite st r)).
    + intros H. inversion H. auto 6.
    + discriminate.
  - unfold raise. intros H. inversion H. auto 6.
Qed.

Lemma accept_stage_requests (st : Store) (r : BoardCollaboratorRequest) :
  requests (after_invited_user st r) = requests st
  /\ requests (after_collaborator st r) = requests st
  /\ requests (after_link st r) = requests st
  /\ requests (after_invite st r) = requests st.
Proof.
  destruct (after_link_tables st r) as [_ [_ [Hreq _]]].
  unfold after_invite. simpl. rewrite Hreq. repeat split.
Qed.

(** [accept] as the chain of its steps, each on the store the steps
    before it left. *)
Lemma accept_unfolded (env : Env) (st : Store)
    (r : BoardCollaboratorRequest) :
  accept env r st
  = if fails env InsertInvitedUser st then Raise DatabaseError st
    else
      match BoardCollaborator_save env (accept_instance st r)
              (after_invited_user st r) with
      | Raise e _ => Raise e (after_invited_user st r)
      | Ok _ _ =>
          if fails env LinkBoardCollaborator (after_collaborator st r)
          then Raise DatabaseError (after_collaborator st r)
          else if fails env SendInvite (after_link st r)
          then Raise DeliveryError (after_link st r)
          else
            match req_id r with
            | None => Raise AssertionError (after_invite st r)
            | Some k =>
                if fails env DeleteBoardCollaboratorRequest
                     (after_invite st r)
                then Raise DatabaseError (after_invite st r)
                else Ok tt (after_delete st r k)
            end
      end.
Proof.
  unfold accept, bind.
  unfold InvitedUser_objects_create, bind, outside at 1.
  destruct (fails env InsertInvitedUser st); [reflexivity|].
  unfold table_insert, set_iu_id. simpl.
  change (with_invited_users _ st) with (after_invited_user st r).
  change (mkInvitedUser (Some (seq (invited_users st))) _ _ _ _ _ _)
    with (accepted_invited_user st r).
  unfold BoardCollaborator_objects_create.
  change (mkBoardCollaborator None (req_board r) None
            (Some (accepted_invited_user st r)) READ_PERMISSION)
    with (accept_instance st r).
  destruct (save_new_collaborator env (accept_instance st r)
              (after_invited_user st r) eq_refl) as [[e' He'] | Hsaved].
  { rewrite He'. reflexivity. }
  rewrite Hsaved. clear Hsaved.
  change (with_collaborators _ (after_invited_user st r))
    with (after_collaborator st r).
  unfold InvitedUser_board_collaborators_add. simpl.
  unfold bind, outside at 1.
  destruct (fails env LinkBoardCollaborator (after_collaborator st r));
    [reflexivity|].
  change (invited_user_board_collaborators (after_collaborator st r))
    with (invited_user_board_collaborators st).
  assert (Hlink :
    (if existsb (fun l => (fst l =? seq (invited_users st))%Z
                          && (snd l =? seq (collaborators st))%Z)
                (invited_user_board_collaborators st)
     then Ok tt (after_collaborator st r)
     else Ok tt (with_links
                   (invited_user_board_collaborators st
                    ++ [(seq (invited_users st), seq (collaborators st))])%list
                   (after_collaborator st r)))
    = Ok tt (after_link st r)).
  { unfold after_link. simpl. destruct (existsb _ _); reflexivity. }
  rewrite Hlink. clear Hlink.
  unfold InvitedUser_send_invite. simpl. unfold bind, outside at 1.
  destruct (fails env SendInvite (after_link st r)); [reflexivity|].
  assert (Hinvites : invites (after_link st r) = invites st)
    by apply after_link_tables.
  rewrite Hinvites.
  change (with_invites _ (after_link st r)) with (after_invite st r).
  unfold BoardCollaboratorRequest_delete.
  destruct (req_id r) as [k|]; [|reflexivity].
  unfold bind, outside.
  destruct (fails env DeleteBoardCollaboratorRequest (after_invite st r));
    [reflexivity|].
  unfold after_delete.
  change (requests (after_invite st r)) with (requests (after_link st r)).
  destruct (after_link_tables st r) as [_ [_ [Hreq _]]].
  rewrite Hreq. reflexivity.
Qed.

(** With an intact store and a working database, the collaborator of
    [accept] is created. *)
Lemma accept_instance_saved (env : Env) (st : Store)
    (r : BoardCollaboratorRequest) :
  store_ok st = true ->
  fails env WriteBoardCollaborator (after_invited_user st r) = false ->
  BoardCollaborator_save env (accept_instance st r) (after_invited_user st r)
  = Ok (accepted_collaborator st r) (after_collaborator st r).
Proof.
  intros Hok Hdb.
  rewrite save_new_collaborator_ok;
    [reflexivity | reflexivity | exact Hdb
     | apply accept_collaborator_is_clean; exact Hok].
Qed.

(** What the stores between the steps hold: the rows of the steps that
    ran. *)
Lemma accept_stage_rows (st : Store) (r : BoardCollaboratorRequest) :
  (rows (invited_users (after_invited_user st r))
   = (rows (invited_users st) ++ [accepted_invited_user st r])%list
   /\ collaborators (after_invited_user st r) = collaborators st)
  /\ (invited_users (after_collaborator st r)
      = invited_users (after_invited_user st r)
      /\ rows (collaborators (after_collaborator st r))
         = (rows (collaborators st) ++ [accepted_collaborator st r])%list)
  /\ (invited_users (after_link st r)
      = invited_users (after_invited_user st r)
      /\ collaborators (after_link st r)
         = collaborators (after_collaborator st r)
      /\ In (seq (invited_users st), seq (collaborators st))
            (invited_user_board_collaborators (after_link st r))
      /\ invites (after_link st r) = invites st)
  /\ (invited_users (after_invite st r)
      = invited_users (after_invited_user st r)
      /\ collaborators (after_invite st r)
         = collaborators (after_collaborator st r)
      /\ In (seq (invited_users st), seq (collaborators st))
            (invited_user_board_collaborators (after_invite st r))
      /\ invites (after_invite st r)
         = (invites st ++ [seq (invited_users st)])%list).
Proof.
  destruct (after_link_tables st r) as [Hiu [Hbc [_ Hinv]]].
  pose proof (after_link_registers st r) as Hlink.
  split; [split; reflexivity|].
  split; [split; reflexivity|].
  split; [repeat split; assumption|].
  unfold after_invite. simpl. repeat split; assumption.
Qed.

(** C4, as the code has it.  [accept] runs without a transaction, step
    by step.  Whenever it raises, the request is still in the requests
    table and the store is the one the steps before the failing step
    left: the failure of the first step leaves the store as it was, the
    failure of the collaborator's creation leaves the invited user, the
    failure of the registration leaves the invited user and the
    collaborator, the failure of the invite delivery leaves those and the
    join-table entry, the failure of the deletion leaves all of it and
    the sent invite.  And each of these failures does make [accept]
    raise at that store (for a request whose board is in the boards
    table, in an intact store). *)
Theorem accept_failure_keeps_request (env : Env) (st : Store)
    (r : BoardCollaboratorRequest) :
  (forall e st',
      accept env r st = Raise e st' ->
      requests st' = requests st
      /\ (st' = st
          \/ st' = after_invited_user st r
          \/ st' = after_collaborator st r
          \/ st' = after_link st r
          \/ st' = after_invite st r)
      /\ ((fails env InsertInvitedUser st = true /\ st' = st)
          \/ (BoardCollaborator_save env (accept_instance st r)
                 (after_invited_user st r)
               = Raise e (after_invited_user st r)
              /\ st' = after_invited_user st r)
          \/ (fails env LinkBoardCollaborator (after_collaborator st r) = true
              /\ st' = after_collaborator st r)
          \/ (fails env SendInvite (after_link st r) = true
              /\ st' = after_link st r)
          \/ ((req_id r = None
               \/ fails env DeleteBoardCollaboratorRequest
                    (after_invite st r) = true)
              /\ st' = after_invite st r)))
  /\ (fails env InsertInvitedUser st = true ->
      accept env r st = Raise DatabaseError st)
  /\ (store_ok st = true ->
      (exists k, board_id (req_board r) = Some k
                 /\ table_has board_id k (boards st) = true) ->
      fails env InsertInvitedUser st = false ->
      (fails env WriteBoardCollaborator (after_invited_user st r) = true ->
       accept env r st = Raise DatabaseError (after_invited_user st r))
      /\ (fails env WriteBoardCollaborator (after_invited_user st r) = false ->
          (fails env LinkBoardCollaborator (after_collaborator st r) = true ->
           accept env r st = Raise DatabaseError (after_collaborator st r))
          /\ (fails env LinkBoardCollaborator (after_collaborator st r)
              = false ->
              (fails env SendInvite (after_link st r) = true ->
               accept env r st = Raise DeliveryError (after_link st r))
              /\ (fails env SendInvite (after_link st r) = false ->
                  forall k, req_id r = Some k ->
                  fails env DeleteBoardCollaboratorRequest
                    (after_invite st r) = true ->
                  accept env r st
                  = Raise DatabaseError (after_invite st r)))))
  /\ ((rows (invited_users (after_invited_user st r))
       = (rows (invited_users st) ++ [accepted_invited_user st r])%list
       /\ collaborators (after_invited_user st r) = collaborators st)
      /\ (invited_users (after_collaborator st r)
          = invited_users (after_invited_user st r)
          /\ rows (collaborators (after_collaborator st r))
             = (rows (collaborators st) ++ [accepted_collaborator st r])%list)
      /\ (invited_users (after_link st r)
          = invited_users (after_invited_user st r)
          /\ collaborators (after_link st r)
             = collaborators (after_collaborator st r)
          /\ In (seq (invited_users st), seq (collaborators st))
                (invited_user_board_collaborators (after_link st r))
          /\ invites (after_link st r) = invites st)
      /\ (invited_users (after_invite st r)
          = invited_users (after_invited_user st r)
          /\ collaborators (after_invite st r)
             = collaborators (after_collaborator st r)
          /\ In (seq (invited_users st), seq (collaborators st))
                (invited_user_board_collaborators (after_invite st r))
          /\ invites (after_invite st r)
             = (invites st ++ [seq (invited_users st)])%list)).
Proof.
  pose proof (accept_unfolded env st r) as Hrun.
  split; [|split; [|split; [|apply accept_stage_rows]]].
  - intros e st' Hfail.
    pose proof (accept_failure_stages env st st' r e Hfail) as Hstage.
    destruct (accept_stage_requests st r) as [H1 [H2 [H3 H4]]].
    split; [destruct Hstage as [-> | [-> | [-> | [-> | ->]]]]; auto|].
    split; [exact Hstage|].
    rewrite Hrun in Hfail.
    destruct (fails env InsertInvitedUser st) eqn:Hiu.
    { inversion Hfail. left. auto. }
    destruct (BoardCollaborator_save env (accept_instance st r)
                (after_invited_user st r)) as [bc st1 | e1 st1] eqn:Hsave.
    2:{ inversion Hfail; subst. right. left. split; [|reflexivity].
        destruct (save_new_collaborator env (accept_instance st r)
                    (after_invited_user st r) eq_refl)
          as [[e2 He2] | Hok]; congruence. }
    destruct (fails env LinkBoardCollaborator (after_collaborator st r))
      eqn:Hlink.
    { inversion Hfail. right. right. left. auto. }
    destruct (fails env SendInvite (after_link st r)) eqn:Hinvite.
    { inversion Hfail. right. right. right. left. auto. }
    destruct (req_id r) as [k|] eqn:Hk.
    + destruct (fails env DeleteBoardCollaboratorRequest (after_invite st r))
        eqn:Hdel; [|discriminate].
      inversion Hfail. do 4 right. auto.
    + inversion Hfail. do 4 right. auto.
  - intros Hiu. rewrite Hrun, Hiu. reflexivity.
  - intros Hok _ Hiu. rewrite Hrun, Hiu. split.
    + intros Hdb.
      unfold BoardCollaborator_save, bind, outside, accept_instance.
      rewrite (accept_collaborator_is_clean st r Hok), Hdb. reflexivity.
    + intros Hdb. rewrite (accept_instance_saved env st r Hok Hdb). split.
      * intros Hlink. rewrite Hlink. reflexivity.
      * intros Hlink. rewrite Hlink. split.
        -- intros Hinvite. rewrite Hinvite. reflexivity.
        -- intros Hinvite k Hk Hdel. rewrite Hinvite, Hk, Hdel. reflexivity.
Qed.

Lemma accept_failure_keeps_request_witness :
  (requests (after_link sample_store alice_request) = requests sample_store
   /\ (after_link sample_store alice_request = sample_store
       \/ after_link sample_store alice_request
          = after_invited_user sample_store alice_request
       \/ after_link sample_store alice_request
          = after_collaborator sample_store alice_request
       \/ after_link sample_store alice_request
          = after_link sample_store alice_request
       \/ after_link sample_store alice_request
          = after_invite sample_store alice_request))
  /\ accept invite_down alice_request sample_store
     = Raise DeliveryError (after_link sample_store alice_request).
Proof.
  pose proof (accept_failure_keeps_request invite_down sample_store
                alice_request) as [Hback [_ [Hforward _]]].
  split.
  - destruct (Hback DeliveryError (after_link sample_store alice_request)
                eq_refl) as [Hreq [Hstage _]].
    split; [exact Hreq | exact Hstage].
  - assert (Hboard : exists k,
               board_id (req_board alice_request) = Some k
               /\ table_has board_id k (boards sample_store) = true)
      by (exists 1%Z; split; reflexivity).
    destruct (Hforward eq_refl Hboard eq_refl) as [_ Hwritten].
    destruct (Hwritten eq_refl) as [_ Hlinked].
    destruct (Hlinked eq_refl) as [Hinvite _].
    apply Hinvite. reflexivity.
Defined.

(** C4, as the specification has it, fails: with the invite delivery
    down, [accept] raises and the invited user and the collaborator row
    it had written are in the store. *)
Lemma accept_is_not_atomic :
  accept invite_down alice_request sample_store
  = Raise DeliveryError (after_link sample_store alice_request)
  /\ rows (invited_users sample_store) = []
  /\ rows (invited_users (after_link sample_store alice_request))
     = [mkInvitedUser (Some 1%Z) "Alice" "Archer" "alice@example.com"
          (Some alice) acme olivia]
  /\ rows (collaborators sample_store) = [olivia_on_roadmap]
  /\ rows (collaborators (after_link sample_store alice_request))
     = [olivia_on_roadmap;
        mkBoardCollaborator (Some 2%Z) roadmap None
          (Some (mkInvitedUser (Some 1%Z) "Alice" "Archer"
                   "alice@example.com" (Some alice) acme olivia))
          "read"]
  /\ In alice_request
        (rows (requests (after_link sample_store alice_request))).
Proof.
  repeat split. simpl. left. reflexivity.
Qed.

(** ** accept and the permission check *)

Lemma qs_exists_filter_weaken {A} (q : A -> bool) (l : list A) :
  qs_exists l = false -> qs_exists (filter q l) = false.
Proof.
  destruct l; [reflexivity | discriminate].
Qed.

Lemma is_user_collaborator_none_false (st : Store) (b : Board) (u : User)
    (p : option string) :
  is_user_collaborator st b u None = false ->
  is_user_collaborator st b u p = false.
Proof.
  unfold is_user_collaborator. simpl. intros Hnone.
  destruct (opt_string_eqb p READ_PERMISSION);
    [apply qs_exists_filter_weaken; exact Hnone|].
  destruct (opt_string_eqb p WRITE_PERMISSION);
    [apply qs_exists_filter_weaken; exact Hnone | exact Hnone].
Qed.

Lemma is_user_collaborator_skips_invited (st st' : Store) (b : Board)
    (u : User) (p : option string) (bc : BoardCollaborator) :
  rows (collaborators st') = (rows (collaborators st) ++ [bc])%list ->
  bc_user bc = None ->
  is_user_collaborator st' b u p = is_user_collaborator st b u p.
Proof.
  intros Hrows Huser.
  assert (Hsame : filter (for_board_and_user b u) (rows (collaborators st'))
                  = filter (for_board_and_user b u)
                           (rows (collaborators st))).
  { rewrite Hrows, filter_app. simpl.
    unfold for_board_and_user at 2. rewrite Huser, andb_false_r.
    apply app_nil_r. }
  unfold is_user_collaborator. rewrite Hsame. reflexivity.
Qed.

(** C10. When the request carries a registered user who is not yet a
    collaborator of the board, [accept] goes through and its collaborator
    row has no user, only the new invited user (which remembers the
    user); so the user is still no collaborator of the board, at any
    permission level, right after [accept].  More generally [accept]
    changes the answer of the permission check for nobody. *)
Theorem accept_leaves_bound_user_out (env : Env) (st : Store)
    (r : BoardCollaboratorRequest) (u : User) :
  no_failures env -> store_ok st = true -> In r (rows (requests st)) ->
  req_user r = Some u ->
  is_user_collaborator st (req_board r) u None = false ->
  exists st' bc iu,
    accept env r st = Ok tt st'
    /\ rows (collaborators st') = (rows (collaborators st) ++ [bc])%list
    /\ bc_user bc = None
    /\ bc_invited_user bc = Some iu
    /\ iu_user iu = Some u
    /\ (forall p, is_user_collaborator st' (req_board r) u p = false)
    /\ (forall b v p,
          is_user_collaborator st' b v p = is_user_collaborator st b v p).
Proof.
  intros Hup Hok Hin Hu Hnot.
  destruct (store_ok_request_key st r Hok Hin) as [k Hk].
  assert (Hrows : rows (collaborators (after_delete st r k))
                  = (rows (collaborators st)
                     ++ [accepted_collaborator st r])%list).
  { destruct (after_link_tables st r) as [_ [Hbc _]].
    unfold after_delete, after_invite. simpl. rewrite Hbc. reflexivity. }
  exists (after_delete st r k), (accepted_collaborator st r),
    (accepted_invited_user st r).
  split; [apply accept_succeeds; assumption|].
  split; [exact Hrows|].
  split; [reflexivity|].
  split; [reflexivity|].
  split; [exact Hu|].
  assert (Hsame : forall b v p,
             is_user_collaborator (after_delete st r k) b v p
             = is_user_collaborator st b v p).
  { intros b v p.
    apply (is_user_collaborator_skips_invited st (after_delete st r k)
             b v p (accepted_collaborator st r) Hrows eq_refl). }
  split; [|exact Hsame].
  intros p. rewrite Hsame.
  apply is_user_collaborator_none_false. exact Hnot.
Qed.

Lemma accept_leaves_bound_user_out_witness :
  exists st' bc iu,
    accept calm alice_request sample_store = Ok tt st'
    /\ rows (collaborators st')
       = (rows (collaborators sample_store) ++ [bc])%list
    /\ bc_user bc = None
    /\ bc_invited_user bc = Some iu
    /\ iu_user iu = Some alice
    /\ (forall p, is_user_collaborator st' roadmap alice p = false)
    /\ (forall b v p,
          is_user_collaborator st' b v p
          = is_user_collaborator sample_store b v p).
Proof.
  apply (accept_leaves_bound_user_out calm sample_store alice_request alice).
  - exact calm_no_failures.
  - reflexivity.
  - simpl. left. reflexivity.
  - reflexivity.
  - reflexivity.
Defined.

(** ** Board.save and create_owner_collaborator *)

Lemma no_collaborator_of_new_board (st : Store) (c : BoardCollaborator)
    (k : Z) :
  store_ok st = true -> In c (rows (collaborators st)) ->
  k = seq (boards st) \/ table_has board_id k (boards st) = false ->
  same_pk (board_id (bc_board c)) (Some k) = false.
Proof.
  intros Hok Hin Hnew.
  destruct (store_ok_collaborator_board st c Hok Hin) as [j [Hj [Hhas Hlt]]].
  rewrite Hj. simpl. apply Z.eqb_neq. intros ->.
  destruct Hnew as [Hseq | Hnot]; [lia | congruence].
Qed.

Lemma owner_collaborator_is_clean (st st1 : Store) (b : Board) (k : Z) :
  store_ok st = true ->
  collaborators st1 = collaborators st ->
  board_id b = Some k ->
  k = seq (boards st) \/ table_has board_id k (boards st) = false ->
  BoardCollaborator_full_clean
    (mkBoardCollaborator None b
       (Some (ac_user (account_owner (board_account b)))) None
       WRITE_PERMISSION)
    st1
  = Ok tt st1.
Proof.
  intros Hok Hsame Hk Hnew.
  apply full_clean_passes; [reflexivity | reflexivity |].
  unfold BoardCollaborator_validate_unique. simpl. rewrite Hk, Hsame.
  rewrite existsb_false_forall; [reflexivity|].
  intros c Hc. apply filter_In in Hc. destruct Hc as [Hc _].
  rewrite (no_collaborator_of_new_board st c k Hok Hc Hnew). reflexivity.
Qed.

Lemma Board_update_keeps_collaborators (env : Env) (st : Store) (b : Board)
    (k : Z) :
  board_id b = Some k -> table_has board_id k (boards st) = true ->
  collaborators (store_of (Board_save env b st)) = collaborators st.
Proof.
  intros Hk Hhas. unfold Board_save, bind, outside.
  destruct (fails env WriteBoard st); [reflexivity|].
  unfold table_save. rewrite Hk, Hhas. reflexivity.
Qed.

Lemma table_has_last (t : list Board) (b : Board) (k : Z) :
  board_id b = Some k ->
  existsb (fun r => same_pk (board_id r) (Some k)) (t ++ [b]) = true.
Proof.
  intros Hk. rewrite existsb_app. simpl. rewrite Hk. simpl.
  rewrite Z.eqb_refl. apply orb_true_iff. right. reflexivity.
Qed.

Lemma Board_save_new (env : Env) (st : Store) (b : Board) :
  no_failures env -> store_ok st = true -> is_new_board st b = true ->
  exists b' st1 k,
    Board_save env b st
    = Ok b'
         (with_collaborators
            (mkTable
               (rows (collaborators st)
                ++ [mkBoardCollaborator (Some (seq (collaborators st))) b'
                      (Some (ac_user (account_owner (board_account b))))
                      None WRITE_PERMISSION])%list
               (seq (collaborators st) + 1))
            st1)
    /\ In b' (rows (boards st1))
    /\ board_id b' = Some k
    /\ table_has board_id k (boards st1) = true.
Proof.
  intros Hup Hok Hnew. unfold is_new_board in Hnew.
  unfold Board_save, bind, outside at 1. rewrite Hup.
  unfold table_save, table_insert.
  destruct (board_id b) as [k|] eqn:Hk.
  - apply negb_true_iff in Hnew. rewrite Hnew. simpl.
    unfold create_owner_collaborator, BoardCollaborator_objects_create.
    unfold bind.
    rewrite save_new_collaborator_ok;
      [| reflexivity | apply Hup
       | apply (owner_collaborator_is_clean st _ b k); auto ].
    simpl. eexists _, _, k. split; [reflexivity|]. simpl.
    split; [apply in_or_app; right; left; reflexivity|].
    split; [exact Hk|].
    unfold table_has. simpl. apply table_has_last. exact Hk.
  - simpl.
    unfold create_owner_collaborator, BoardCollaborator_objects_create.
    unfold bind.
    rewrite save_new_collaborator_ok;
      [| reflexivity | apply Hup
       | apply (owner_collaborator_is_clean st _
                  (set_board_id (Some (seq (boards st))) b)
                  (seq (boards st)));
         auto ].
    simpl. eexists _, _, (seq (boards st)). split; [reflexivity|]. simpl.
    split; [apply in_or_app; right; left; reflexivity|].
    split; [reflexivity|].
    unfold table_has. simpl. apply table_has_last. reflexivity.
Qed.

(** C5. Saving a board that is new writes its row and, in the same
    call, exactly one collaborator row: of that board, for the user who
    owns the board's account, with write permission.  Any later save of
    the board, whatever the outside calls do, leaves the collaborator
    table as it is. *)
Theorem board_creation_adds_one_owner_collaborator (env : Env) (st : Store)
    (b : Board) :
  no_failures env -> store_ok st = true -> is_new_board st b = true ->
  exists b' c st',
    Board_save env b st = Ok b' st'
    /\ In b' (rows (boards st'))
    /\ rows (collaborators st') = (rows (collaborators st) ++ [c])%list
    /\ bc_board c = b'
    /\ bc_user c = Some (ac_user (account_owner (board_account b)))
    /\ bc_invited_user c = None
    /\ bc_permission c = "write"
    /\ forall env2 b2,
         board_id b2 = board_id b' ->
         collaborators (store_of (Board_save env2 b2 st'))
         = collaborators st'.
Proof.
  intros Hup Hok Hnew.
  destruct (Board_save_new env st b Hup Hok Hnew)
    as [b' [st1 [k [Hsave [Hin [Hk Hhas]]]]]].
  eexists b', _, _. split; [exact Hsave|].
  split; [exact Hin|].
  do 5 (split; [reflexivity|]).
  intros env2 b2 Hb2.
  apply (Board_update_keeps_collaborators env2 _ b2 k);
    [congruence | exact Hhas].
Qed.

Lemma board_creation_adds_one_owner_collaborator_witness :
  exists b' c st',
    Board_save calm draft_board sample_store = Ok b' st'
    /\ In b' (rows (boards st'))
    /\ rows (collaborators st')
       = (rows (collaborators sample_store) ++ [c])%list
    /\ bc_board c = b'
    /\ bc_user c = Some olivia
    /\ bc_invited_user c = None
    /\ bc_permission c = "write"
    /\ forall env2 b2,
         board_id b2 = board_id b' ->
         collaborators (store_of (Board_save env2 b2 st'))
         = collaborators st'.
Proof.
  apply (board_creation_adds_one_owner_collaborator calm sample_store
           draft_board).
  - exact calm_no_failures.
  - reflexivity.
  - reflexivity.
Defined.

(** ** BoardCollaboratorRequest.save and clean *)

Lemma filter_nothing {A} (p : A -> bool) (l : list A) :
  (forall x, In x l -> p x = false) -> filter p l = [].
Proof.
  intros H. induction l as [|a l IH]; simpl; [reflexivity|].
  rewrite (H a (or_introl eq_refl)). apply IH.
  intros x Hx. apply H. right. exact Hx.
Qed.

Lemma clean_rejects_anonymous (r : BoardCollaboratorRequest) (st : Store) :
  req_user r = None -> req_email r = "" ->
  BoardCollaboratorRequest_clean r st
  = Raise (ValidationError ["Either user or email must be set."]) st.
Proof.
  intros Hu He. unfold BoardCollaboratorRequest_clean.
  rewrite Hu, He. reflexivity.
Qed.

Lemma bind_user_no_match (st : Store) (r : BoardCollaboratorRequest) :
  req_user r = None ->
  (forall u, In u (users st) -> user_email u <> req_email r) ->
  BoardCollaboratorRequest_bind_user r st = Ok r st.
Proof.
  intros Hu Hnone.
  unfold BoardCollaboratorRequest_bind_user, bind, try_except,
    User_objects_get.
  rewrite Hu. simpl.
  rewrite filter_nothing.
  - simpl. rewrite Hu. reflexivity.
  - intros u Hin. apply String.eqb_neq. apply Hnone. exact Hin.
Qed.

Lemma bind_user_match (st : Store) (r : BoardCollaboratorRequest)
    (u : User) :
  req_user r = None -> matches_only st (req_email r) u ->
  BoardCollaboratorRequest_bind_user r st = Ok (bound_to u r) st.
Proof.
  intros Hu Hmatch.
  unfold BoardCollaboratorRequest_bind_user, bind, try_except,
    User_objects_get.
  rewrite Hu. simpl. unfold matches_only in Hmatch. rewrite Hmatch.
  reflexivity.
Qed.

Lemma updated_row_present {A} (p : A -> bool) (a : A) (l : list A) :
  existsb p l = true -> In a (map (fun r => if p r then a else r) l).
Proof.
  induction l as [|x l IH]; simpl; [discriminate|].
  destruct (p x); simpl; [left; reflexivity | right; auto].
Qed.

(** What [save] has written when it returns. *)
Lemma written_request (r obj : BoardCollaboratorRequest)
    (t t' : Table BoardCollaboratorRequest) (created : bool) :
  table_save req_id set_req_id r t = (obj, created, t') ->
  In obj (rows t')
  /\ req_first_name obj = req_first_name r
  /\ req_last_name obj = req_last_name r
  /\ req_email obj = req_email r
  /\ req_user obj = req_user r.
Proof.
  unfold table_save, table_insert.
  destruct (req_id r) as [k|].
  - destruct (table_has req_id k t) eqn:Hhas; intros H; inversion H; subst.
    + split; [|repeat split]. simpl. apply updated_row_present. exact Hhas.
    + split; [|repeat split]. simpl. apply in_or_app. right. left.
      reflexivity.
  - intros H. inversion H; subst. split; [|repeat split].
    simpl. apply in_or_app. right. left. reflexivity.
Qed.

(** C8, as the code has it.  For a request without a bound user:
    if its e-mail address is empty and no user has an empty e-mail
    address, [save] raises a validation error and writes nothing; if
    exactly one user has the request's e-mail address, that user is bound
    and the request takes the user's first name, last name and e-mail
    address before validation and before the write, so that whatever
    [save] writes carries them; and the write does happen when the
    fields are valid, no other request clashes and the database takes
    it. *)
Theorem request_save_validates_and_binds (env : Env) (st : Store)
    (r : BoardCollaboratorRequest) :
  req_user r = None ->
  (req_email r = "" ->
   (forall u, In u (users st) -> user_email u <> "") ->
   exists msgs,
     BoardCollaboratorRequest_save env r st
     = Raise (ValidationError msgs) st)
  /\ (forall u,
        matches_only st (req_email r) u ->
        BoardCollaboratorRequest_bind_user r st = Ok (bound_to u r) st
        /\ (forall obj st',
              BoardCollaboratorRequest_save env r st = Ok obj st' ->
              In obj (rows (requests st'))
              /\ req_user obj = Some u
              /\ req_first_name obj = user_first_name u
              /\ req_last_name obj = user_last_name u
              /\ req_email obj = user_email u)
        /\ (request_fields_valid env (bound_to u r) = true ->
            BoardCollaboratorRequest_validate_unique st (bound_to u r) = [] ->
            fails env WriteBoardCollaboratorRequest st = false ->
            exists obj st',
              BoardCollaboratorRequest_save env r st = Ok obj st')).
Proof.
  intros Hu. split.
  - intros He Hnone.
    unfold BoardCollaboratorRequest_save, bind.
    rewrite bind_user_no_match;
      [| exact Hu | rewrite He; exact Hnone].
    unfold BoardCollaboratorRequest_full_clean, validation_messages.
    rewrite (clean_rejects_anonymous r st Hu He).
    destruct (request_fields_valid env r); simpl; eexists; reflexivity.
  - intros u Hmatch.
    pose proof (bind_user_match st r u Hu Hmatch) as Hbind.
    split; [exact Hbind|]. split.
    + intros obj st'. unfold BoardCollaboratorRequest_save, bind.
      rewrite Hbind.
      destruct (BoardCollaboratorRequest_full_clean env (bound_to u r) st)
        as [[] st1 | e st1] eqn:Hclean; [|discriminate].
      assert (st1 = st) as ->.
      { unfold BoardCollaboratorRequest_full_clean in Hclean.
        destruct (_ ++ _)%list in Hclean; inversion Hclean; reflexivity. }
      unfold outside.
      destruct (fails env WriteBoardCollaboratorRequest st); [discriminate|].
      destruct (table_save req_id set_req_id (bound_to u r) (requests st))
        as [[obj' created] t'] eqn:Hsave.
      intros H. inversion H; subst.
      destruct (written_request _ _ _ _ _ Hsave) as [Hin [H1 [H2 [H3 H4]]]].
      simpl. auto.
    + intros Hfields Hunique Hdb.
      unfold BoardCollaboratorRequest_save, bind. rewrite Hbind.
      unfold BoardCollaboratorRequest_full_clean, validation_messages.
      rewrite Hfields, Hunique. simpl. unfold outside. rewrite Hdb.
      destruct (table_save req_id set_req_id (bound_to u r) (requests st))
        as [[obj' created] t'].
      eexists _, _. reflexivity.
Qed.

Lemma request_save_validates_and_binds_witness :
  (exists msgs,
      BoardCollaboratorRequest_save calm blank_request sample_store
      = Raise (ValidationError msgs) sample_store)
  /\ BoardCollaboratorRequest_bind_user unbound_request quiet_store
     = Ok (bound_to alice unbound_request) quiet_store
  /\ (exists obj st',
         BoardCollaboratorRequest_save calm unbound_request quiet_store
         = Ok obj st').
Proof.
  split; [|split].
  - apply (proj1 (request_save_validates_and_binds calm sample_store
                    blank_request eq_refl)).
    + reflexivity.
    + simpl. intros u [<- | [<- | []]]; discriminate.
  - apply (proj2 (request_save_validates_and_binds calm quiet_store
                    unbound_request eq_refl) alice).
    reflexivity.
  - apply (proj2 (request_save_validates_and_binds calm quiet_store
                    unbound_request eq_refl) alice);
      reflexivity.
Defined.

(** C8, as the specification has it, fails.  In a store with a user
    whose e-mail address is empty, a request with no user and no e-mail
    address is bound to that user and saved, with no validation error;
    and where two users share the request's e-mail address, [save]
    raises [MultipleObjectsReturned] and binds neither. *)
Lemma request_save_binds_on_empty_email :
  BoardCollaboratorRequest_save calm blank_request nobody_store
  = Ok (mkBoardCollaboratorRequest (Some 2%Z) "" "" "" (Some nobody)
          roadmap "")
       (with_requests
          (mkTable
             [alice_request;
              mkBoardCollaboratorRequest (Some 2%Z) "" "" "" (Some nobody)
                roadmap ""]
             3)
          nobody_store)
  /\ BoardCollaboratorRequest_save calm unbound_request twin_store
     = Raise MultipleObjectsReturned twin_store.
Proof. split; reflexivity. Qed.

End BoardsProperties.

(** * Properties of cards/models.py *)

Section CardsProperties.
Import Cards.

(** ** Card.clean *)

Lemma check_disallowed_result (fields : list (string * bool)) (st : Store) :
  if existsb snd fields
  then exists msgs, check_disallowed fields st
                    = Raise (ValidationError msgs) st
  else check_disallowed fields st = Ok tt st.
Proof.
  induction fields as [|[field value] rest IH]; simpl; [reflexivity|].
  destruct value; simpl; [eexists; reflexivity | exact IH].
Qed.

Lemma truthy_true (s : string) : truthy s = true <-> s <> "".
Proof.
  unfold truthy. rewrite negb_true_iff. apply String.eqb_neq.
Qed.

Lemma truthy_false (s : string) : truthy s = false <-> s = "".
Proof.
  unfold truthy. rewrite negb_false_iff. apply String.eqb_eq.
Qed.

(** [clean] either passes or raises a validation error, and leaves the
    store alone. *)
Lemma Card_clean_result (self : Card) (st : Store) :
  Card_clean self st = Ok tt st
  \/ exists msgs, Card_clean self st = Raise (ValidationError msgs) st.
Proof.
  unfold Card_clean.
  destruct (card_type self =? "stack"); cbn [negb].
  - pose proof (check_disallowed_result (disallowed_fields self) st) as H.
    destruct (existsb snd (disallowed_fields self)); auto.
  - destruct (truthy (card_content self)); simpl;
      [left | right; eexists]; reflexivity.
Qed.

(** What [clean] decides, in terms of truthiness. *)
Lemma Card_clean_raises_iff (self : Card) (st : Store) :
  (exists msgs, Card_clean self st = Raise (ValidationError msgs) st)
  <-> (if card_type self =? "stack"
       then existsb snd (disallowed_fields self) = true
       else truthy (card_content self) = false).
Proof.
  unfold Card_clean.
  destruct (card_type self =? "stack"); cbn [negb].
  - pose proof (check_disallowed_result (disallowed_fields self) st) as H.
    destruct (existsb snd (disallowed_fields self)).
    + split; [reflexivity | intros _; exact H].
    + rewrite H. split; [intros [msgs Hm]|]; discriminate.
  - destruct (truthy (card_content self)); simpl.
    + split; [intros [msgs Hm]|]; discriminate.
    + split; [reflexivity | intros _; eexists; reflexivity].
Qed.

Lemma disallowed_truthy_is_set (self : Card) :
  existsb snd (disallowed_fields self) = true -> stack_field_set self.
Proof.
  unfold disallowed_fields, stack_field_set. simpl.
  rewrite !orb_true_iff, !truthy_true.
  intros [H | [H | [H | [H | [H | [H | [H | H]]]]]]]; auto 10.
  - do 5 right. left. destruct (card_file_size self); [|discriminate].
    discriminate.
  - do 6 right. destruct (card_mime_type self) as [m|]; [|discriminate].
    exists m. split; [reflexivity | apply truthy_true; exact H].
  - discriminate.
Qed.

Lemma set_is_disallowed_truthy (self : Card) :
  card_file_size self <> Some 0%Z ->
  stack_field_set self -> existsb snd (disallowed_fields self) = true.
Proof.
  unfold disallowed_fields, stack_field_set. simpl.
  rewrite !orb_true_iff, !truthy_true.
  intros Hzero [H | [H | [H | [H | [H | [H | [m [Hm H]]]]]]]]; auto 10.
  - do 5 right. left. destruct (card_file_size self) as [n|];
      [|congruence].
    simpl. apply negb_true_iff. apply Z.eqb_neq. congruence.
  - do 6 right. left. rewrite Hm. simpl. apply truthy_true. exact H.
Qed.

(** Validation fails only where it has to, and everywhere it has to
    except on a file size of zero. *)
Lemma Card_clean_fails_iff_invalid (self : Card) (st : Store) :
  ((exists msgs, Card_clean self st = Raise (ValidationError msgs) st)
   -> invalid_card self)
  /\ (card_file_size self <> Some 0%Z ->
      invalid_card self ->
      exists msgs, Card_clean self st = Raise (ValidationError msgs) st).
Proof.
  rewrite Card_clean_raises_iff. unfold invalid_card.
  destruct (card_type self =? "stack") eqn:Htype.
  - apply String.eqb_eq in Htype. split.
    + intros H. right. split; [exact Htype|].
      apply disallowed_truthy_is_set. exact H.
    + intros Hzero [[Hno _] | [_ Hset]]; [congruence|].
      apply set_is_disallowed_truthy; assumption.
  - apply String.eqb_neq in Htype. split.
    + intros H. left. split; [exact Htype | apply truthy_false; exact H].
    + intros _ [[_ Hempty] | [Hstack _]]; [|congruence].
      apply truthy_false. exact Hempty.
Qed.

(** C6. A stack card that carries a file size of zero has one of the
    fields a stack must not have, and validation lets it through. *)
Theorem Card_clean_accepts_zero_size_stack :
  card_type zero_size_stack = "stack"
  /\ card_file_size zero_size_stack = Some 0%Z
  /\ invalid_card zero_size_stack
  /\ Card_clean zero_size_stack deck = Ok tt deck.
Proof.
  split; [reflexivity|]. split; [reflexivity|]. split; [|reflexivity].
  right. split; [reflexivity|].
  do 5 right. left. discriminate.
Qed.

(** ** Card.save and post_save *)

Lemma Card_full_clean_result (env : Env) (self : Card) (st : Store) :
  Card_full_clean env self st = Ok tt st
  \/ exists msgs, Card_full_clean env self st
                  = Raise (ValidationError msgs) st.
Proof.
  unfold Card_full_clean.
  destruct (_ ++ _)%list; [left | right; eexists]; reflexivity.
Qed.

Lemma Card_full_clean_passes (env : Env) (self : Card) (st : Store) :
  card_fields_valid env self = true ->
  Card_clean self st = Ok tt st ->
  Card_full_clean env self st = Ok tt st.
Proof.
  intros Hfields Hclean.
  unfold Card_full_clean, validation_messages.
  rewrite Hfields, Hclean. reflexivity.
Qed.

(** A [post_save] that does not announce a new file card leaves the
    preview queue alone. *)
Lemma Card_post_save_quiet (env : Env) (self : Card) (created : bool)
    (st : Store) :
  created && (card_type self =? "file") = false ->
  preview_queue (store_of (Card_post_save env self created st))
  = preview_queue st.
Proof.
  intros Hquiet. unfold Card_post_save. rewrite Hquiet.
  unfold bind, ret, BaseModel_post_save, outside.
  destruct (fails env BasePostSave st); reflexivity.
Qed.

(** The row and the flag that the write of [Card.save] hands to
    [post_save]. *)
Lemma Card_written (c obj : Card) (created : bool) (t t' : Table Card) :
  table_save card_id set_card_id c t = (obj, created, t') ->
  card_type obj = card_type c
  /\ card_content obj = card_content c
  /\ (match card_id c with
      | Some k => created = negb (table_has card_id k t) /\ obj = c
      | None => created = true /\ card_id obj = Some (seq t)
      end)
  /\ (exists k, card_id obj = Some k /\ table_has card_id k t' = true).
Proof.
  unfold table_save, table_insert.
  destruct (card_id c) as [k|] eqn:Hk.
  - destruct (table_has card_id k t) eqn:Hhas; intros H; inversion H; subst.
    + repeat split; auto. exists k. split; [exact Hk|].
      unfold table_has, table_update in *. simpl.
      rewrite existsb_exists in *. destruct Hhas as [x [Hx Hsame]].
      exists obj. split.
      * apply in_map_iff. exists x. rewrite Hsame. auto.
      * rewrite Hk. simpl. apply Z.eqb_refl.
    + repeat split; auto. exists k. split; [exact Hk|].
      unfold table_has, table_insert_at. simpl.
      rewrite existsb_app. simpl. rewrite Hk. simpl. rewrite Z.eqb_refl.
      apply orb_true_iff. right. reflexivity.
  - intros H. inversion H; subst. repeat split; auto.
    exists (seq t). split; [reflexivity|].
    unfold table_has. simpl. rewrite existsb_app. simpl.
    rewrite Z.eqb_refl. apply orb_true_iff. right. reflexivity.
Qed.

(** A save that is not the creation of a file card leaves the preview
    queue alone, whatever the outside calls do. *)
Lemma Card_save_quiet (env : Env) (c : Card) (st : Store) :
  is_new_card st c && (card_type c =? "file") = false ->
  preview_queue (store_of (Card_save env c st)) = preview_queue st.
Proof.
  intros Hquiet. unfold Card_save, bind, Card_pre_save.
  destruct (Card_full_clean_result env c st) as [-> | [msgs ->]];
    [|reflexivity].
  unfold outside at 1. destruct (fails env WriteCard st); [reflexivity|].
  destruct (table_save card_id set_card_id c (cards st))
    as [[obj created] t'] eqn:Hsave.
  destruct (Card_written c obj created (cards st) t' Hsave)
    as [Htype [_ [Hcreated _]]].
  simpl.
  assert (Hq : created && (card_type obj =? "file") = false).
  { rewrite Htype. unfold is_new_card in Hquiet.
    destruct (card_id c) as [k|].
    - destruct Hcreated as [-> _]. exact Hquiet.
    - destruct Hcreated as [-> _]. exact Hquiet. }
  pose proof (Card_post_save_quiet env obj created
                (with_cards t' st) Hq) as Hpost.
  destruct (Card_post_save env obj created (with_cards t' st));
    simpl in *; exact Hpost.
Qed.

Lemma Card_save_new_file (env : Env) (c : Card) (st : Store) :
  no_failures env -> card_fields_valid env c = true ->
  is_new_card st c = true -> card_type c = "file" ->
  card_content c <> "" ->
  exists c' k t',
    Card_save env c st
    = Ok c'
         (with_preview_queue
            (preview_queue st
             ++ [mkPreviewRequest (card_content c)
                   ["200x200"; "500x500"; "800x800"]
                   [("cardId", Some k)]])%list
            (with_cards t' st))
    /\ card_id c' = Some k
    /\ table_has card_id k t' = true.
Proof.
  intros Hup Hfields Hnew Htype Hcontent.
  unfold Card_save, bind, Card_pre_save.
  rewrite Card_full_clean_passes; [| exact Hfields |].
  - unfold outside at 1. rewrite Hup.
    destruct (table_save card_id set_card_id c (cards st))
      as [[obj created] t'] eqn:Hsave.
    destruct (Card_written c obj created (cards st) t' Hsave)
      as [Hty [Hco [Hcreated [k [Hk Hhas]]]]].
    assert (Hc : created = true).
    { unfold is_new_card in Hnew. destruct (card_id c).
      - destruct Hcreated as [-> _]. exact Hnew.
      - destruct Hcreated as [-> _]. reflexivity. }
    exists obj, k, t'. split; [|split; assumption].
    simpl. unfold Card_post_save. rewrite Hc, Hty, Htype. simpl.
    unfold bind, queue_previews, bind, BaseModel_post_save, outside.
    rewrite !Hup. rewrite Hco, Hk. reflexivity.
  - unfold Card_clean. rewrite Htype. simpl.
    apply truthy_true in Hcontent. rewrite Hcontent. reflexivity.
Qed.

(** C9. The creation of a file card (valid, and with the outside calls
    working) puts exactly one request on the preview queue, for the
    three sizes and with the key of the new card under [cardId], and no
    later save of that card, whatever it carries and whatever the
    outside calls do, puts another; saving a note or a stack requests
    no preview; and saving a card that exists requests none. *)
Theorem preview_requested_once_for_new_file_card (env : Env) (st : Store)
    (c : Card) :
  (no_failures env -> card_fields_valid env c = true ->
   is_new_card st c = true -> card_type c = "file" ->
   card_content c <> "" ->
   exists c' k st',
     Card_save env c st = Ok c' st'
     /\ card_id c' = Some k
     /\ preview_queue st'
        = (preview_queue st
           ++ [mkPreviewRequest (card_content c)
                 ["200x200"; "500x500"; "800x800"]
                 [("cardId", Some k)]])%list
     /\ forall env2 c2,
          card_id c2 = Some k ->
          preview_queue (store_of (Card_save env2 c2 st'))
          = preview_queue st')
  /\ (card_type c = "note" \/ card_type c = "stack" ->
      preview_queue (store_of (Card_save env c st)) = preview_queue st)
  /\ (is_new_card st c = false ->
      preview_queue (store_of (Card_save env c st)) = preview_queue st).
Proof.
  split; [|split].
  - intros Hup Hfields Hnew Htype Hcontent.
    destruct (Card_save_new_file env c st Hup Hfields Hnew Htype Hcontent)
      as [c' [k [t' [Hsave [Hk Hhas]]]]].
    eexists c', k, _. split; [exact Hsave|].
    split; [exact Hk|]. split; [reflexivity|].
    intros env2 c2 Hc2. apply Card_save_quiet.
    unfold is_new_card. rewrite Hc2. simpl. rewrite Hhas. reflexivity.
  - intros Htype. apply Card_save_quiet.
    destruct Htype as [-> | ->]; apply andb_false_r.
  - intros Hold. apply Card_save_quiet. rewrite Hold. reflexivity.
Qed.

Lemma calm_no_failures_cards : no_failures calm.
Proof. intros c st. reflexivity. Qed.

Lemma preview_requested_once_for_new_file_card_witness :
  (exists c' k st',
      Card_save calm new_file deck = Ok c' st'
      /\ card_id c' = Some k
      /\ preview_queue st'
         = (preview_queue deck
            ++ [mkPreviewRequest "https://files.example.com/plan.pdf"
                  ["200x200"; "500x500"; "800x800"]
                  [("cardId", Some k)]])%list
      /\ forall env2 c2,
           card_id c2 = Some k ->
           preview_queue (store_of (Card_save env2 c2 st'))
           = preview_queue st')
  /\ preview_queue (store_of (Card_save calm memo deck))
     = preview_queue deck.
Proof.
  split.
  - apply (proj1 (preview_requested_once_for_new_file_card calm deck
                    new_file)).
    + exact calm_no_failures_cards.
    + reflexivity.
    + reflexivity.
    + reflexivity.
    + discriminate.
  - apply (proj1 (proj2 (preview_requested_once_for_new_file_card calm deck
                           memo))).
    left. reflexivity.
Defined.

(** ** The member set of a stack and cards_changed *)

Lemma Card_cards_add_result (instance : Card) (s : Z) (objs : list Z)
    (st : Store) :
  card_id instance = Some s ->
  Card_cards_add instance objs st
  = Ok tt
       (mkStore
          (restacked (pk_in (newly_added st s objs)) (Some s) st)
          (card_cards st
           ++ map (fun k => (s, k)) (newly_added st s objs))%list
          (preview_queue st)).
Proof.
  intros Hs. unfold Card_cards_add. rewrite Hs.
  unfold bind, cards_changed, update_stack. simpl. rewrite Hs.
  reflexivity.
Qed.

Lemma Card_cards_remove_result (instance : Card) (s : Z) (objs : list Z)
    (st : Store) :
  card_id instance = Some s ->
  Card_cards_remove instance objs st
  = Ok tt
       (mkStore
          (restacked (fun c => pk_in (Z_nodup objs) c && stack_is instance c)
                     None st)
          (filter (fun l => negb ((fst l =? s)%Z
                                  && existsb (Z.eqb (snd l)) (Z_nodup objs)))
                  (card_cards st))
          (preview_queue st)).
Proof.
  intros Hs. unfold Card_cards_remove. rewrite Hs.
  unfold bind, cards_changed, update_stack. simpl. reflexivity.
Qed.

Lemma Card_cards_clear_result (instance : Card) (s : Z) (st : Store) :
  card_id instance = Some s ->
  Card_cards_clear instance st
  = Ok tt
       (mkStore
          (restacked (stack_is instance) None st)
          (filter (fun l => negb (fst l =? s)%Z) (card_cards st))
          (preview_queue st)).
Proof.
  intros Hs. unfold Card_cards_clear. rewrite Hs.
  unfold bind, cards_changed, update_stack. simpl. reflexivity.
Qed.

Lemma is_member_In (st : Store) (s k : Z) :
  is_member st s k = true <-> In (s, k) (card_cards st).
Proof.
  unfold is_member, is_link. rewrite existsb_exists. split.
  - intros [[a b] [Hin Heq]]. simpl in Heq.
    apply andb_true_iff in Heq. destruct Heq as [Ha Hb].
    apply Z.eqb_eq in Ha. apply Z.eqb_eq in Hb. subst. exact Hin.
  - intros Hin. exists (s, k). split; [exact Hin|]. simpl.
    rewrite !Z.eqb_refl. reflexivity.
Qed.

Lemma mem_In (k : Z) (l : list Z) :
  existsb (Z.eqb k) l = true <-> In k l.
Proof.
  rewrite existsb_exists. split.
  - intros [x [Hin Heq]]. apply Z.eqb_eq in Heq. subst. exact Hin.
  - intros Hin. exists k. split; [exact Hin | apply Z.eqb_refl].
Qed.

Lemma newly_added_In (st : Store) (s k : Z) (objs : list Z) :
  In k (newly_added st s objs)
  <-> In k objs /\ is_member st s k = false.
Proof.
  unfold newly_added, Z_nodup. rewrite nodup_In, filter_In.
  rewrite negb_true_iff. reflexivity.
Qed.

Lemma pk_in_In (l : list Z) (c : Card) (k : Z) :
  card_id c = Some k -> (pk_in l c = true <-> In k l).
Proof.
  intros Hk. unfold pk_in. rewrite Hk. apply mem_In.
Qed.

Lemma lookup_key (st : Store) (k : Z) (c : Card) :
  lookup st k = Some c -> In c (rows (cards st)) /\ card_id c = Some k.
Proof.
  unfold lookup. intros H. apply find_some in H. destruct H as [Hin Hk].
  split; [exact Hin|].
  destruct (card_id c) as [j|]; simpl in Hk; [|discriminate].
  apply Z.eqb_eq in Hk. congruence.
Qed.

Lemma find_map_same_key {A} (q : A -> bool) (f : A -> A) (l : list A) :
  (forall x, q (f x) = q x) ->
  find q (map f l) = option_map f (find q l).
Proof.
  intros Hq. induction l as [|a l IH]; simpl; [reflexivity|].
  rewrite Hq. destruct (q a); [reflexivity | exact IH].
Qed.

Lemma lookup_restacked (p : Card -> bool) (v : option Z) (st : Store)
    (links : list (Z * Z)) (k : Z) :
  lookup (mkStore (restacked p v st) links (preview_queue st)) k
  = option_map (fun c => if p c then set_card_stack v c else c)
               (lookup st k).
Proof.
  unfold lookup, restacked. simpl. apply find_map_same_key.
  intros c. destruct (p c); reflexivity.
Qed.

Lemma in_step_restacked (p : Card -> bool) (v : option Z) (st : Store)
    (links : list (Z * Z)) :
  (forall c k s,
      In c (rows (cards st)) -> card_id c = Some k ->
      (card_stack_id (if p c then set_card_stack v c else c) = Some s
       <-> In (s, k) links)) ->
  in_step (mkStore (restacked p v st) links (preview_queue st)).
Proof.
  intros H c k s Hin Hk. rewrite is_member_In. simpl in *.
  apply in_map_iff in Hin. destruct Hin as [c0 [Heq Hin0]]. subst c.
  apply H; [exact Hin0|].
  destruct (p c0); exact Hk.
Qed.

Lemma in_step_In (st : Store) (c : Card) (k s : Z) :
  in_step st -> In c (rows (cards st)) -> card_id c = Some k ->
  (card_stack_id c = Some s <-> In (s, k) (card_cards st)).
Proof.
  intros Hstep Hin Hk. rewrite <- is_member_In. apply Hstep; assumption.
Qed.

Lemma stack_is_true (instance c : Card) (s : Z) :
  card_id instance = Some s ->
  (stack_is instance c = true <-> card_stack_id c = Some s).
Proof.
  intros Hs. unfold stack_is. rewrite Hs.
  destruct (card_stack_id c) as [j|]; simpl.
  - rewrite Z.eqb_eq. split; congruence.
  - split; discriminate.
Qed.

Lemma add_keeps_in_step (instance : Card) (s : Z) (objs : list Z)
    (st : Store) :
  card_id instance = Some s -> in_step st ->
  (forall c k, In c (rows (cards st)) -> card_id c = Some k ->
               In k objs -> is_member st s k = false ->
               card_stack_id c = None) ->
  in_step (store_of (Card_cards_add instance objs st)).
Proof.
  intros Hs Hstep Hfree.
  rewrite (Card_cards_add_result instance s objs st Hs). simpl.
  apply in_step_restacked. intros c k s2 Hin Hk.
  rewrite in_app_iff, in_map_iff.
  pose proof (in_step_In st c k s2 Hstep Hin Hk) as Hold.
  destruct (pk_in (newly_added st s objs) c) eqn:Hp.
  - apply (pk_in_In _ c k Hk) in Hp. pose proof Hp as Hnew.
    apply newly_added_In in Hnew. destruct Hnew as [Hobj Hnot].
    pose proof (Hfree c k Hin Hk Hobj Hnot) as Hnone.
    simpl. split.
    + intros Heq. right. exists k. split; [congruence | exact Hp].
    + intros [Hlink | [j [Heq _]]].
      * apply Hold in Hlink. congruence.
      * congruence.
  - split.
    + intros Heq. left. apply Hold. exact Heq.
    + intros [Hlink | [j [Heq Hj]]]; [apply Hold; exact Hlink|].
      inversion Heq; subst.
      apply (pk_in_In _ c k Hk) in Hj. congruence.
Qed.

Lemma remove_keeps_in_step (instance : Card) (s : Z) (objs : list Z)
    (st : Store) :
  card_id instance = Some s -> in_step st ->
  in_step (store_of (Card_cards_remove instance objs st)).
Proof.
  intros Hs Hstep.
  rewrite (Card_cards_remove_result instance s objs st Hs). simpl.
  apply in_step_restacked. intros c k s2 Hin Hk.
  rewrite filter_In. simpl. rewrite negb_true_iff, andb_false_iff.
  pose proof (in_step_In st c k s2 Hstep Hin Hk) as Hold.
  pose proof (in_step_In st c k s Hstep Hin Hk) as Hmine.
  destruct (pk_in (Z_nodup objs) c) eqn:Hp; simpl.
  - assert (Hmem : existsb (Z.eqb k) (Z_nodup objs) = true).
    { unfold pk_in in Hp. rewrite Hk in Hp. exact Hp. }
    rewrite Hmem.
    destruct (stack_is instance c) eqn:Hst.
    + apply (stack_is_true instance c s Hs) in Hst. simpl. split.
      * discriminate.
      * intros [Hlink [Hne | Hf]]; [|discriminate].
        apply Hold in Hlink. apply Z.eqb_neq in Hne. congruence.
    + split.
      * intros Heq. split; [apply Hold; exact Heq|]. left.
        apply Z.eqb_neq. intros ->.
        apply (stack_is_true instance c s Hs) in Heq. congruence.
      * intros [Hlink _]. apply Hold. exact Hlink.
  - assert (Hmem : existsb (Z.eqb k) (Z_nodup objs) = false).
    { unfold pk_in in Hp. rewrite Hk in Hp. exact Hp. }
    rewrite Hmem. split.
    + intros Heq. split; [apply Hold; exact Heq | right; reflexivity].
    + intros [Hlink _]. apply Hold. exact Hlink.
Qed.

Lemma clear_keeps_in_step (instance : Card) (s : Z) (st : Store) :
  card_id instance = Some s -> in_step st ->
  in_step (store_of (Card_cards_clear instance st)).
Proof.
  intros Hs Hstep.
  rewrite (Card_cards_clear_result instance s st Hs). simpl.
  apply in_step_restacked. intros c k s2 Hin Hk.
  rewrite filter_In. simpl. rewrite negb_true_iff, Z.eqb_neq.
  pose proof (in_step_In st c k s2 Hstep Hin Hk) as Hold.
  destruct (stack_is instance c) eqn:Hst.
  - apply (stack_is_true instance c s Hs) in Hst. simpl. split.
    + discriminate.
    + intros [Hlink Hne]. apply Hold in Hlink. congruence.
  - split.
    + intros Heq. split; [apply Hold; exact Heq|]. intros ->.
      apply (stack_is_true instance c s Hs) in Heq. congruence.
    + intros [Hlink _]. apply Hold. exact Hlink.
Qed.

Lemma stack_of_restacked (p : Card -> bool) (v : option Z) (st : Store)
    (links : list (Z * Z)) (k : Z) (c : Card) :
  lookup st k = Some c ->
  stack_of (mkStore (restacked p v st) links (preview_queue st)) k
  = Some (if p c then v else card_stack_id c).
Proof.
  intros Hc. unfold stack_of. rewrite lookup_restacked, Hc. simpl.
  destruct (p c); reflexivity.
Qed.

Lemma not_member (st : Store) (s k : Z) :
  ~ In (s, k) (card_cards st) -> is_member st s k = false.
Proof.
  intros Hnot. destruct (is_member st s k) eqn:Hm; [|reflexivity].
  apply is_member_In in Hm. contradiction.
Qed.

(** C7, as the code has it.  For a stack card [S]: adding cards puts
    them in the member set and makes every card that was not a member
    point to [S], while a card that was a member already, like any card
    that is not added, keeps its back-reference; removing cards takes them out of the member set, nulls
    the back-reference of those that pointed to [S] and leaves the
    back-reference of the others as it was; clearing empties the member
    set and nulls the back-reference of exactly the cards that pointed
    to [S].  If back-references and member sets agree, they still agree
    after a removal or a clearing, and after adding cards that pointed
    to no stack. *)
Theorem stack_follows_member_set (st : Store) (S : Card) (s : Z) :
  card_id S = Some s ->
  (forall objs, exists st',
      Card_cards_add S objs st = Ok tt st'
      /\ (forall k, In k objs -> is_member st' s k = true)
      /\ (forall k c, In k objs -> is_member st s k = false ->
                      lookup st k = Some c ->
                      stack_of st' k = Some (Some s))
      /\ (forall k c, lookup st k = Some c ->
                      is_member st s k = true \/ ~ In k objs ->
                      stack_of st' k = Some (card_stack_id c))
      /\ (in_step st ->
          (forall c k, In c (rows (cards st)) -> card_id c = Some k ->
                       In k objs -> is_member st s k = false ->
                       card_stack_id c = None) ->
          in_step st'))
  /\ (forall objs, exists st',
         Card_cards_remove S objs st = Ok tt st'
         /\ (forall k, In k objs -> is_member st' s k = false)
         /\ (forall k c, In k objs -> lookup st k = Some c ->
               (card_stack_id c = Some s -> stack_of st' k = Some None)
               /\ (card_stack_id c <> Some s ->
                   stack_of st' k = Some (card_stack_id c)))
         /\ (in_step st -> in_step st'))
  /\ (exists st',
         Card_cards_clear S st = Ok tt st'
         /\ (forall k, is_member st' s k = false)
         /\ (forall k c, lookup st k = Some c ->
               (card_stack_id c = Some s -> stack_of st' k = Some None)
               /\ (card_stack_id c <> Some s ->
                   stack_of st' k = Some (card_stack_id c)))
         /\ (in_step st -> in_step st')).
Proof.
  intros Hs. split; [|split].
  - intros objs. eexists. split; [apply Card_cards_add_result; exact Hs|].
    split; [|split; [|split]].
    + intros k Hk. apply is_member_In. simpl. apply in_or_app.
      destruct (is_member st s k) eqn:Hm.
      * left. apply is_member_In. exact Hm.
      * right. apply in_map. apply newly_added_In. auto.
    + intros k c Hk Hm Hc. rewrite (stack_of_restacked _ _ _ _ k c Hc).
      destruct (lookup_key st k c Hc) as [_ Hid].
      assert (Hp : pk_in (newly_added st s objs) c = true).
      { apply (pk_in_In _ c k Hid). apply newly_added_In. auto. }
      rewrite Hp. reflexivity.
    + intros k c Hc Hkept. rewrite (stack_of_restacked _ _ _ _ k c Hc).
      destruct (lookup_key st k c Hc) as [_ Hid].
      destruct (pk_in (newly_added st s objs) c) eqn:Hp; [|reflexivity].
      apply (pk_in_In _ c k Hid) in Hp. apply newly_added_In in Hp.
      destruct Hp as [Hobj Hnot]. destruct Hkept as [Hm | Hout].
      * congruence.
      * contradiction.
    + intros Hstep Hfree.
      pose proof (add_keeps_in_step S s objs st Hs Hstep Hfree) as H.
      rewrite (Card_cards_add_result S s objs st Hs) in H. exact H.
  - intros objs. eexists.
    split; [apply Card_cards_remove_result; exact Hs|].
    split; [|split].
    + intros k Hk. apply not_member. simpl. rewrite filter_In. simpl.
      intros [_ Hkeep]. rewrite Z.eqb_refl in Hkeep.
      assert (Hmem : existsb (Z.eqb k) (Z_nodup objs) = true).
      { apply mem_In. unfold Z_nodup. apply nodup_In. exact Hk. }
      rewrite Hmem in Hkeep. discriminate.
    + intros k c Hk Hc. rewrite (stack_of_restacked _ _ _ _ k c Hc).
      destruct (lookup_key st k c Hc) as [_ Hid].
      assert (Hp : pk_in (Z_nodup objs) c = true).
      { apply (pk_in_In _ c k Hid). unfold Z_nodup. apply nodup_In.
        exact Hk. }
      rewrite Hp. simpl. split.
      * intros Hst. apply (stack_is_true S c s Hs) in Hst. rewrite Hst.
        reflexivity.
      * intros Hst. destruct (stack_is S c) eqn:Hb; [|reflexivity].
        apply (stack_is_true S c s Hs) in Hb. contradiction.
    + intros Hstep.
      pose proof (remove_keeps_in_step S s objs st Hs Hstep) as H.
      rewrite (Card_cards_remove_result S s objs st Hs) in H. exact H.
  - eexists. split; [apply Card_cards_clear_result; exact Hs|].
    split; [|split].
    + intros k. apply not_member. simpl. rewrite filter_In. simpl.
      intros [_ Hkeep]. rewrite Z.eqb_refl in Hkeep. discriminate.
    + intros k c Hc. rewrite (stack_of_restacked _ _ _ _ k c Hc). split.
      * intros Hst. apply (stack_is_true S c s Hs) in Hst. rewrite Hst.
        reflexivity.
      * intros Hst. destruct (stack_is S c) eqn:Hb; [|reflexivity].
        apply (stack_is_true S c s Hs) in Hb. contradiction.
    + intros Hstep.
      pose proof (clear_keeps_in_step S s st Hs Hstep) as H.
      rewrite (Card_cards_clear_result S s st Hs) in H. exact H.
Qed.

Lemma stack_follows_member_set_witness :
  exists st',
    Card_cards_add pile [3%Z] deck = Ok tt st'
    /\ is_member st' 1 3 = true
    /\ stack_of st' 3 = Some (Some 1%Z).
Proof.
  destruct (proj1 (stack_follows_member_set deck pile 1 eq_refl) [3%Z])
    as [st' [Hadd [Hmember [Hstack _]]]].
  exists st'. split; [exact Hadd|]. split.
  - apply Hmember. left. reflexivity.
  - apply (Hstack 3%Z memo); [left; reflexivity | reflexivity | reflexivity].
Defined.

(** C7, as the specification has it, fails.  The memo is added to the
    pile and then to the heap: it is a member of both and points to the
    heap.  Removing it from the pile, or clearing the pile, leaves its
    back-reference on the heap instead of nulling it; and adding it to
    the pile once more, where it is a member already, leaves its
    back-reference on the heap instead of setting it to the pile. *)
Lemma removal_keeps_other_stack :
  is_member memo_on_both 1 3 = true
  /\ is_member memo_on_both 2 3 = true
  /\ stack_of memo_on_both 3 = Some (Some 2%Z)
  /\ Card_cards_remove pile [3%Z] memo_on_both
     = Ok tt (with_card_cards [(2, 3)%Z] memo_on_both)
  /\ stack_of (store_of (Card_cards_remove pile [3%Z] memo_on_both)) 3
     = Some (Some 2%Z)
  /\ Card_cards_clear pile memo_on_both
     = Ok tt (with_card_cards [(2, 3)%Z] memo_on_both)
  /\ stack_of (store_of (Card_cards_clear pile memo_on_both)) 3
     = Some (Some 2%Z)
  /\ Card_cards_add pile [3%Z] memo_on_both = Ok tt memo_on_both
  /\ stack_of (store_of (Card_cards_add pile [3%Z] memo_on_both)) 3
     = Some (Some 2%Z).
Proof. repeat split. Qed.

End CardsProperties.

(** * Further properties of boards/models.py *)

Section BoardsFurtherProperties.
Import Boards.

(** ** BoardCollaborator.clean and save *)

Lemma full_clean_result_store (c : BoardCollaborator) (st st' : Store)
    (e : Exception) :
  BoardCollaborator_full_clean c st = Raise e st' ->
  st' = st /\ exists msgs, e = ValidationError msgs.
Proof.
  intros H. destruct (full_clean_keeps_store c st) as [Hok | [msgs Hm]].
  - congruence.
  - rewrite Hm in H. inversion H; subst. split; [reflexivity|].
    exists msgs. reflexivity.
Qed.

Lemma clean_needs_exactly_one (c : BoardCollaborator) (st : Store) :
  xorb (is_set (bc_user c)) (is_set (bc_invited_user c)) = false ->
  exists msg, BoardCollaborator_clean c st = Raise (ValidationError [msg]) st.
Proof.
  unfold BoardCollaborator_clean.
  destruct (bc_user c), (bc_invited_user c); simpl; intros H;
    try discriminate; eexists; reflexivity.
Qed.

(** A collaborator with both a user and an invited user, or with
    neither, is not saved: [save] raises a validation error before it
    reaches the database, whatever the outside calls would do. *)
Theorem collaborator_save_rejects_both_or_neither (env : Env)
    (c : BoardCollaborator) (st : Store) :
  xorb (is_set (bc_user c)) (is_set (bc_invited_user c)) = false ->
  exists msgs,
    BoardCollaborator_save env c st = Raise (ValidationError msgs) st.
Proof.
  intros Hx. destruct (clean_needs_exactly_one c st Hx) as [msg Hclean].
  unfold BoardCollaborator_save, bind, BoardCollaborator_full_clean,
    validation_messages.
  rewrite Hclean.
  destruct (BoardCollaborator_clean_fields c); simpl; eexists; reflexivity.
Qed.

Lemma collaborator_save_rejects_both_or_neither_witness :
  exists msgs,
    BoardCollaborator_save calm
      (mkBoardCollaborator None roadmap None None "read") sample_store
    = Raise (ValidationError msgs) sample_store.
Proof.
  apply (collaborator_save_rejects_both_or_neither calm
           (mkBoardCollaborator None roadmap None None "read") sample_store).
  reflexivity.
Defined.

Lemma written_collaborator (c obj : BoardCollaborator)
    (t t' : Table BoardCollaborator) (created : bool) :
  table_save bc_id set_bc_id c t = (obj, created, t') ->
  In obj (rows t')
  /\ bc_board obj = bc_board c
  /\ bc_user obj = bc_user c
  /\ bc_invited_user obj = bc_invited_user c
  /\ bc_permission obj = bc_permission c.
Proof.
  unfold table_save, table_insert.
  destruct (bc_id c) as [k|].
  - destruct (table_has bc_id k t) eqn:Hhas; intros H; inversion H; subst.
    + split; [|repeat split]. simpl. apply updated_row_present. exact Hhas.
    + split; [|repeat split]. simpl. apply in_or_app. right. left.
      reflexivity.
  - intros H. inversion H; subst. split; [|repeat split].
    simpl. apply in_or_app. right. left. reflexivity.
Qed.

Lemma clean_fields_passed (c : BoardCollaborator) :
  BoardCollaborator_clean_fields c = [] ->
  bc_permission c = "read" \/ bc_permission c = "write".
Proof.
  unfold BoardCollaborator_clean_fields, PERMISSION_CHOICES,
    READ_PERMISSION, WRITE_PERMISSION.
  cbn [existsb fst].
  destruct ("read" =? bc_permission c) eqn:Hr.
  - apply String.eqb_eq in Hr. auto.
  - destruct ("write" =? bc_permission c) eqn:Hw.
    + apply String.eqb_eq in Hw. auto.
    + simpl. intros H. discriminate H.
Qed.

Lemma clean_passed (c : BoardCollaborator) (st : Store) :
  validation_messages (BoardCollaborator_clean c) st = [] ->
  xorb (is_set (bc_user c)) (is_set (bc_invited_user c)) = true.
Proof.
  unfold validation_messages, BoardCollaborator_clean.
  destruct (bc_user c), (bc_invited_user c); simpl; intros H;
    try reflexivity; discriminate H.
Qed.

(** Another row of the same board and the same user makes the
    uniqueness check of [c] fail. *)
Lemma same_board_and_user_clash (st : Store) (c c0 : BoardCollaborator)
    (k j : Z) :
  In c0 (rows (collaborators st)) ->
  same_pk (bc_id c0) (bc_id c) = false ->
  board_id (bc_board c0) = Some k -> board_id (bc_board c) = Some k ->
  user_pk (bc_user c0) = Some j -> user_pk (bc_user c) = Some j ->
  BoardCollaborator_validate_unique st c <> [].
Proof.
  intros Hin Hother Hb0 Hb Hu0 Hu.
  unfold BoardCollaborator_validate_unique. rewrite Hb, Hu.
  assert (Hex : existsb
            (fun x => same_pk (board_id (bc_board x)) (Some k)
                      && same_pk (user_pk (bc_user x)) (Some j))
            (filter (fun x => negb (same_pk (bc_id x) (bc_id c)))
                    (rows (collaborators st))) = true).
  { apply existsb_exists. exists c0. split.
    - apply filter_In. split; [exact Hin|]. rewrite Hother. reflexivity.
    - rewrite Hb0, Hu0. simpl. rewrite !Z.eqb_refl. reflexivity. }
  rewrite Hex. simpl. discriminate.
Qed.

(** Whatever [save] writes is a proper collaborator row: it is in the
    table, it has exactly one of user and invited user, its permission
    is read or write, and no other row of the table had the same board
    and user. *)
Theorem collaborator_save_writes_proper_rows (env : Env)
    (c obj : BoardCollaborator) (st st' : Store) :
  BoardCollaborator_save env c st = Ok obj st' ->
  In obj (rows (collaborators st'))
  /\ xorb (is_set (bc_user obj)) (is_set (bc_invited_user obj)) = true
  /\ (bc_permission obj = "read" \/ bc_permission obj = "write")
  /\ (forall c0 k j,
        In c0 (rows (collaborators st)) ->
        same_pk (bc_id c0) (bc_id c) = false ->
        board_id (bc_board c0) = Some k -> board_id (bc_board obj) = Some k ->
        user_pk (bc_user c0) = Some j -> user_pk (bc_user obj) <> Some j).
Proof.
  unfold BoardCollaborator_save, bind, BoardCollaborator_full_clean.
  destruct (BoardCollaborator_clean_fields c) eqn:Hfields;
    [|discriminate].
  destruct (validation_messages (BoardCollaborator_clean c) st) eqn:Hclean;
    [|discriminate].
  destruct (BoardCollaborator_validate_unique st c) eqn:Hunique;
    [|discriminate].
  simpl. unfold outside.
  destruct (fails env WriteBoardCollaborator st); [discriminate|].
  destruct (table_save bc_id set_bc_id c (collaborators st))
    as [[obj' created] t'] eqn:Hsave.
  intros H. inversion H; subst.
  destruct (written_collaborator _ _ _ _ _ Hsave)
    as [Hin [Hb [Hu [Hi Hp]]]].
  simpl. split; [exact Hin|].
  rewrite Hu, Hi, Hp, Hb. split; [exact (clean_passed c st Hclean)|].
  split; [exact (clean_fields_passed c Hfields)|].
  intros c0 k j Hin0 Hother Hb0 Hbc Hu0 Huc.
  exact (same_board_and_user_clash st c c0 k j Hin0 Hother Hb0 Hbc Hu0 Huc
           Hunique).
Qed.

Lemma collaborator_save_writes_proper_rows_witness :
  In alice_on_roadmap (rows (collaborators reader_store))
  /\ xorb (is_set (bc_user alice_on_roadmap))
          (is_set (bc_invited_user alice_on_roadmap)) = true
  /\ (bc_permission alice_on_roadmap = "read"
      \/ bc_permission alice_on_roadmap = "write")
  /\ (forall c0 k j,
        In c0 (rows (collaborators sample_store)) ->
        same_pk (bc_id c0) None = false ->
        board_id (bc_board c0) = Some k ->
        board_id (bc_board alice_on_roadmap) = Some k ->
        user_pk (bc_user c0) = Some j ->
        user_pk (bc_user alice_on_roadmap) <> Some j).
Proof.
  apply (collaborator_save_writes_proper_rows calm
           (mkBoardCollaborator None roadmap (Some alice) None "read")
           alice_on_roadmap sample_store reader_store).
  reflexivity.
Defined.

Lemma full_clean_fails_on_clash (c : BoardCollaborator) (st : Store) :
  BoardCollaborator_validate_unique st c <> [] ->
  exists msgs,
    BoardCollaborator_full_clean c st = Raise (ValidationError msgs) st.
Proof.
  intros Hclash. unfold BoardCollaborator_full_clean.
  destruct (_ ++ _ ++ _)%list eqn:Hall; [|eexists; reflexivity].
  apply app_eq_nil in Hall. destruct Hall as [_ Hall].
  apply app_eq_nil in Hall. destruct Hall as [_ Hall]. contradiction.
Qed.

(** A user is not made a collaborator of a board twice: creating a
    collaborator row for a board and a user who already has a row on
    that board raises a validation error and writes nothing. *)
Theorem second_collaborator_row_rejected (env : Env) (st : Store)
    (board : Board) (user : User) (permission : string)
    (c0 : BoardCollaborator) (k : Z) :
  In c0 (rows (collaborators st)) ->
  board_id (bc_board c0) = Some k -> board_id board = Some k ->
  user_pk (bc_user c0) = Some (user_id user) ->
  exists msgs,
    BoardCollaborator_objects_create env board (Some user) None permission st
    = Raise (ValidationError msgs) st.
Proof.
  intros Hin Hb0 Hb Hu0.
  destruct (full_clean_fails_on_clash
              (mkBoardCollaborator None board (Some user) None permission) st)
    as [msgs Hfail].
  { apply (same_board_and_user_clash st _ c0 k (user_id user)); auto.
    destruct (bc_id c0); reflexivity. }
  exists msgs.
  unfold BoardCollaborator_objects_create, BoardCollaborator_save, bind.
  rewrite Hfail. reflexivity.
Qed.

Lemma second_collaborator_row_rejected_witness :
  exists msgs,
    BoardCollaborator_objects_create calm roadmap (Some olivia) None "read"
      sample_store
    = Raise (ValidationError msgs) sample_store.
Proof.
  apply (second_collaborator_row_rejected calm sample_store roadmap olivia
           "read" olivia_on_roadmap 1).
  - simpl. left. reflexivity.
  - reflexivity.
  - reflexivity.
  - reflexivity.
Defined.

(** ** Board.save, create_owner_collaborator and the permission check *)

(** Right after a board is created, the owner of its account passes the
    permission check on it at every level: write, read and unset. *)
Theorem owner_can_write_new_board (env : Env) (st : Store) (b : Board) :
  no_failures env -> store_ok st = true -> is_new_board st b = true ->
  exists b' st',
    Board_save env b st = Ok b' st'
    /\ forall p,
         p = None \/ p = Some "read" \/ p = Some "write" ->
         is_user_collaborator st' b'
           (ac_user (account_owner (board_account b))) p = true.
Proof.
  intros Hup Hok Hnew.
  destruct (Board_save_new env st b Hup Hok Hnew)
    as [b' [st1 [k [Hsave [_ [Hk _]]]]]].
  eexists b', _. split; [exact Hsave|].
  assert (Hwrite :
    exists c,
      row_for
        (with_collaborators
           (mkTable
              (rows (collaborators st)
               ++ [mkBoardCollaborator (Some (seq (collaborators st))) b'
                     (Some (ac_user (account_owner (board_account b))))
                     None WRITE_PERMISSION])%list
              (seq (collaborators st) + 1))
           st1)
        b' (ac_user (account_owner (board_account b))) c
      /\ bc_permission c = "write").
  { exists (mkBoardCollaborator (Some (seq (collaborators st))) b'
              (Some (ac_user (account_owner (board_account b))))
              None WRITE_PERMISSION).
    split; [|reflexivity]. split; [|split].
    - simpl. apply in_or_app. right. left. reflexivity.
    - exists k. simpl. auto.
    - eexists. simpl. split; reflexivity. }
  intros p [-> | [-> | ->]].
  - apply is_user_collaborator_any.
    destruct Hwrite as [c [Hrow _]]. exists c. exact Hrow.
  - apply is_user_collaborator_read.
    destruct Hwrite as [c [Hrow Hp]]. exists c. auto.
  - apply is_user_collaborator_write. exact Hwrite.
Qed.

Lemma owner_can_write_new_board_witness :
  exists b' st',
    Board_save calm draft_board sample_store = Ok b' st'
    /\ forall p,
         p = None \/ p = Some "read" \/ p = Some "write" ->
         is_user_collaborator st' b' olivia p = true.
Proof.
  apply (owner_can_write_new_board calm sample_store draft_board).
  - exact calm_no_failures.
  - reflexivity.
  - reflexivity.
Defined.

(** ** BoardCollaboratorRequest.save *)

Lemma bind_user_given (st : Store) (r : BoardCollaboratorRequest)
    (u : User) :
  req_user r = Some u ->
  BoardCollaboratorRequest_bind_user r st = Ok (bound_to u r) st.
Proof.
  intros Hu. unfold BoardCollaboratorRequest_bind_user, bind.
  rewrite Hu. simpl. unfold ret, bound_to, set_req_identity. simpl.
  rewrite Hu. reflexivity.
Qed.

Lemma request_full_clean_store (env : Env) (r : BoardCollaboratorRequest)
    (st st1 : Store) (x : unit) :
  BoardCollaboratorRequest_full_clean env r st = Ok x st1 ->
  st1 = st
  /\ request_fields_valid env r = true
  /\ validation_messages (BoardCollaboratorRequest_clean r) st = []
  /\ BoardCollaboratorRequest_validate_unique st r = [].
Proof.
  unfold BoardCollaboratorRequest_full_clean.
  destruct (request_fields_valid env r); [|discriminate].
  destruct (validation_messages (BoardCollaboratorRequest_clean r) st);
    [|discriminate].
  destruct (BoardCollaboratorRequest_validate_unique st r); [|discriminate].
  simpl. intros H. inversion H. auto.
Qed.

(** [save] once the first half has produced [r']: what it writes is
    [r'] under a key, and it does write when [r'] is valid and unique
    and the database takes it. *)
Lemma save_after_bind (env : Env) (st : Store)
    (r r' : BoardCollaboratorRequest) :
  BoardCollaboratorRequest_bind_user r st = Ok r' st ->
  (forall obj st',
      BoardCollaboratorRequest_save env r st = Ok obj st' ->
      In obj (rows (requests st'))
      /\ req_user obj = req_user r'
      /\ req_first_name obj = req_first_name r'
      /\ req_last_name obj = req_last_name r'
      /\ req_email obj = req_email r')
  /\ (request_fields_valid env r' = true ->
      validation_messages (BoardCollaboratorRequest_clean r') st = [] ->
      BoardCollaboratorRequest_validate_unique st r' = [] ->
      fails env WriteBoardCollaboratorRequest st = false ->
      exists obj st', BoardCollaboratorRequest_save env r st = Ok obj st').
Proof.
  intros Hbind. split.
  - intros obj st'. unfold BoardCollaboratorRequest_save, bind.
    rewrite Hbind.
    destruct (BoardCollaboratorRequest_full_clean env r' st)
      as [x st1 | e st1] eqn:Hclean; [|discriminate].
    destruct (request_full_clean_store env r' st st1 x Hclean) as [-> _].
    unfold outside.
    destruct (fails env WriteBoardCollaboratorRequest st); [discriminate|].
    destruct (table_save req_id set_req_id r' (requests st))
      as [[obj' created] t'] eqn:Hsave.
    intros H. inversion H; subst.
    destruct (written_request _ _ _ _ _ Hsave) as [Hin [H1 [H2 [H3 H4]]]].
    simpl. auto.
  - intros Hfields Hclean Hunique Hdb.
    unfold BoardCollaboratorRequest_save, bind. rewrite Hbind.
    unfold BoardCollaboratorRequest_full_clean.
    rewrite Hfields, Hclean, Hunique. simpl. unfold outside. rewrite Hdb.
    destruct (table_save req_id set_req_id r' (requests st))
      as [[obj' created] t'].
    eexists _, _. reflexivity.
Qed.

(** A request that comes with a user takes its first name, last name
    and e-mail address from that user, whatever it was given and with no
    lookup by e-mail: what [save] writes carries the user's identity,
    and [save] does write when the fields are valid, no other request
    clashes and the database takes it. *)
Theorem request_save_copies_identity_of_given_user (env : Env) (st : Store)
    (r : BoardCollaboratorRequest) (u : User) :
  req_user r = Some u ->
  (forall obj st',
      BoardCollaboratorRequest_save env r st = Ok obj st' ->
      In obj (rows (requests st'))
      /\ req_user obj = Some u
      /\ req_first_name obj = user_first_name u
      /\ req_last_name obj = user_last_name u
      /\ req_email obj = user_email u)
  /\ (request_fields_valid env (bound_to u r) = true ->
      BoardCollaboratorRequest_validate_unique st (bound_to u r) = [] ->
      fails env WriteBoardCollaboratorRequest st = false ->
      exists obj st', BoardCollaboratorRequest_save env r st = Ok obj st').
Proof.
  intros Hu.
  destruct (save_after_bind env st r (bound_to u r) (bind_user_given st r u Hu))
    as [Hwritten Hwrites].
  split.
  - intros obj st' Hsave. apply (Hwritten obj st' Hsave).
  - intros Hfields Hunique Hdb. apply Hwrites; auto.
Qed.

Lemma request_save_copies_identity_of_given_user_witness :
  exists obj st',
    BoardCollaboratorRequest_save calm
      (mkBoardCollaboratorRequest None "Someone" "Else" "else@example.com"
         (Some alice) roadmap "")
      quiet_store
    = Ok obj st'.
Proof.
  apply (proj2 (request_save_copies_identity_of_given_user calm quiet_store
                  (mkBoardCollaboratorRequest None "Someone" "Else"
                     "else@example.com" (Some alice) roadmap "")
                  alice eq_refl));
    reflexivity.
Defined.

(** A request with an e-mail address that no user has is saved as it
    is, without a user: the failed lookup is not an error. *)
Theorem request_save_without_matching_user (env : Env) (st : Store)
    (r : BoardCollaboratorRequest) :
  req_user r = None -> req_email r <> "" ->
  (forall u, In u (users st) -> user_email u <> req_email r) ->
  (forall obj st',
      BoardCollaboratorRequest_save env r st = Ok obj st' ->
      In obj (rows (requests st'))
      /\ req_user obj = None
      /\ req_first_name obj = req_first_name r
      /\ req_last_name obj = req_last_name r
      /\ req_email obj = req_email r)
  /\ (request_fields_valid env r = true ->
      BoardCollaboratorRequest_validate_unique st r = [] ->
      fails env WriteBoardCollaboratorRequest st = false ->
      exists obj st', BoardCollaboratorRequest_save env r st = Ok obj st').
Proof.
  intros Hu Hemail Hnone.
  destruct (save_after_bind env st r r (bind_user_no_match st r Hu Hnone))
    as [Hwritten Hwrites].
  split.
  - intros obj st' Hsave. rewrite <- Hu. apply (Hwritten obj st' Hsave).
  - intros Hfields Hunique Hdb. apply Hwrites; auto.
    unfold validation_messages, BoardCollaboratorRequest_clean.
    apply truthy_true in Hemail. rewrite Hemail, andb_false_r. reflexivity.
Qed.

Lemma request_save_without_matching_user_witness :
  exists obj st',
    BoardCollaboratorRequest_save calm newcomer_request sample_store
    = Ok obj st'.
Proof.
  apply (proj2 (request_save_without_matching_user calm sample_store
                  newcomer_request eq_refl ltac:(discriminate)
                  ltac:(simpl; intros u [<- | [<- | []]]; discriminate)));
    reflexivity.
Defined.

(** A user cannot have two requests for one board: saving a request of
    a user for a board on which another request carries the user's
    e-mail address raises a validation error and writes nothing. *)
Theorem repeated_request_rejected (env : Env) (st : Store)
    (r r0 : BoardCollaboratorRequest) (u : User) (k : Z) :
  req_user r = Some u ->
  In r0 (rows (requests st)) ->
  same_pk (req_id r0) (req_id r) = false ->
  req_email r0 = user_email u ->
  board_id (req_board r0) = Some k -> board_id (req_board r) = Some k ->
  exists msgs,
    BoardCollaboratorRequest_save env r st = Raise (ValidationError msgs) st.
Proof.
  intros Hu Hin Hother Hemail Hb0 Hb.
  unfold BoardCollaboratorRequest_save, bind.
  rewrite (bind_user_given st r u Hu).
  assert (Hclash :
    exists m rest,
      BoardCollaboratorRequest_validate_unique st (bound_to u r)
      = m :: rest).
  { unfold BoardCollaboratorRequest_validate_unique. simpl. rewrite Hb.
    assert (Hex : existsb
              (fun x => (req_email x =? user_email u)
                        && same_pk (board_id (req_board x)) (Some k))
              (filter (fun x => negb (same_pk (req_id x) (req_id r)))
                      (rows (requests st))) = true).
    { apply existsb_exists. exists r0. split.
      - apply filter_In. split; [exact Hin|]. rewrite Hother. reflexivity.
      - rewrite Hemail, Hb0, String.eqb_refl. simpl. apply Z.eqb_refl. }
    rewrite Hex. simpl. eexists _, _. reflexivity. }
  destruct Hclash as [m [rest Hclash]].
  unfold BoardCollaboratorRequest_full_clean. rewrite Hclash.
  destruct (_ ++ _ ++ _)%list eqn:Hall; [|eexists; reflexivity].
  apply app_eq_nil in Hall. destruct Hall as [_ Hall].
  apply app_eq_nil in Hall. destruct Hall as [_ Hall]. discriminate.
Qed.

Lemma repeated_request_rejected_witness :
  exists msgs,
    BoardCollaboratorRequest_save calm repeated_request sample_store
    = Raise (ValidationError msgs) sample_store.
Proof.
  apply (repeated_request_rejected calm sample_store repeated_request
           alice_request alice 1).
  - reflexivity.
  - simpl. left. reflexivity.
  - reflexivity.
  - reflexivity.
  - reflexivity.
  - reflexivity.
Defined.

(** ** Board.announce_room *)

Lemma format_int_injective (a b : Z) :
  format_int a = format_int b -> a = b.
Proof.
  unfold format_int. intros H.
  assert (Hint : Some (Z.to_int a) = Some (Z.to_int b)).
  { rewrite <- !NilEmpty.isi. rewrite H. reflexivity. }
  inversion Hint as [Heq].
  rewrite <- (DecimalZ.of_to a), <- (DecimalZ.of_to b), Heq. reflexivity.
Qed.

(** Two boards announce to the same room exactly when they belong to the
    same account: rooms never mix accounts. *)
Theorem announce_room_separates_accounts (b1 b2 : Board) :
  Board_announce_room b1 = Board_announce_room b2
  <-> account_id (board_account b1) = account_id (board_account b2).
Proof.
  unfold Board_announce_room. split.
  - intros H. inversion H as [Heq]. apply format_int_injective. exact Heq.
  - intros ->. reflexivity.
Qed.

(** ** Referential integrity is kept *)

Lemma store_ok_spec (st : Store) :
  store_ok st = true
  <-> boards_keyed (boards st)
      /\ (forall c, In c (rows (collaborators st)) ->
                    collaborator_linked (boards st) (invited_users st) c)
      /\ (forall r, In r (rows (requests st)) -> is_set (req_id r) = true).
Proof.
  unfold store_ok, boards_keyed, collaborator_linked.
  rewrite !andb_true_iff, !forallb_forall. split.
  - intros [[Hb Hc] Hr]. split; [|split; [|exact Hr]].
    + intros b Hin. specialize (Hb b Hin).
      destruct (board_id b) as [k|]; [|discriminate].
      exists k. split; [reflexivity | apply Z.ltb_lt; exact Hb].
    + intros c Hin. specialize (Hc c Hin).
      apply andb_true_iff in Hc. destruct Hc as [Hboard Hiu]. split.
      * apply existsb_exists in Hboard. exact Hboard.
      * intros i Hi. rewrite Hi in Hiu.
        destruct (iu_id i) as [k|]; [|discriminate].
        exists k. split; [reflexivity | apply Z.ltb_lt; exact Hiu].
  - intros [Hb [Hc Hr]]. split; [split|exact Hr].
    + intros b Hin. destruct (Hb b Hin) as [k [-> Hlt]].
      apply Z.ltb_lt. exact Hlt.
    + intros c Hin. destruct (Hc c Hin) as [Hboard Hiu].
      apply andb_true_iff. split.
      * apply existsb_exists. exact Hboard.
      * destruct (bc_invited_user c) as [i|]; [|reflexivity].
        destruct (Hiu i eq_refl) as [k [-> Hlt]]. apply Z.ltb_lt. exact Hlt.
Qed.

Lemma accept_returns (env : Env) (st st' : Store)
    (r : BoardCollaboratorRequest) (x : unit) :
  accept env r st = Ok x st' ->
  exists k, req_id r = Some k /\ st' = after_delete st r k.
Proof.
  unfold accept, bind.
  unfold InvitedUser_objects_create, bind, outside at 1.
  destruct (fails env InsertInvitedUser st); [discriminate|].
  unfold table_insert, set_iu_id. simpl.
  change (with_invited_users _ st) with (after_invited_user st r).
  change (mkInvitedUser (Some (seq (invited_users st))) _ _ _ _ _ _)
    with (accepted_invited_user st r).
  unfold BoardCollaborator_objects_create.
  destruct (save_new_collaborator env
              (mkBoardCollaborator None (req_board r) None
                 (Some (accepted_invited_user st r)) READ_PERMISSION)
              (after_invited_user st r) eq_refl) as [[e' He'] | Hsaved].
  { rewrite He'. discriminate. }
  rewrite Hsaved. clear Hsaved.
  change (with_collaborators _ (after_invited_user st r))
    with (after_collaborator st r).
  unfold InvitedUser_board_collaborators_add. simpl.
  unfold bind, outside at 1.
  destruct (fails env LinkBoardCollaborator (after_collaborator st r));
    [discriminate|].
  change (invited_user_board_collaborators (after_collaborator st r))
    with (invited_user_board_collaborators st).
  assert (Hlink :
    (if existsb (fun l => (fst l =? seq (invited_users st))%Z
                          && (snd l =? seq (collaborators st))%Z)
                (invited_user_board_collaborators st)
     then Ok tt (after_collaborator st r)
     else Ok tt (with_links
                   (invited_user_board_collaborators st
                    ++ [(seq (invited_users st), seq (collaborators st))])%list
                   (after_collaborator st r)))
    = Ok tt (after_link st r)).
  { unfold after_link. simpl. destruct (existsb _ _); reflexivity. }
  rewrite Hlink. clear Hlink.
  unfold InvitedUser_send_invite. simpl. unfold bind, outside at 1.
  destruct (fails env SendInvite (after_link st r)); [discriminate|].
  assert (Hinvites : invites (after_link st r) = invites st)
    by apply after_link_tables.
  rewrite Hinvites.
  change (with_invites _ (after_link st r)) with (after_invite st r).
  unfold BoardCollaboratorRequest_delete.
  destruct (req_id r) as [k|]; [|discriminate].
  unfold bind, outside.
  destruct (fails env DeleteBoardCollaboratorRequest (after_invite st r));
    [discriminate|].
  intros H. inversion H. exists k. split; [reflexivity|].
  unfold after_delete.
  change (requests (after_invite st r)) with (requests (after_link st r)).
  destruct (after_link_tables st r) as [_ [_ [Hreq _]]].
  rewrite Hreq. reflexivity.
Qed.

Lemma same_pk_sym (a b : option Z) : same_pk a b = same_pk b a.
Proof.
  destruct a, b; simpl; try reflexivity. apply Z.eqb_sym.
Qed.

(** A store that differs from an intact one by rows [accept] writes is
    intact. *)
Lemma store_ok_after_accept_rows (st s' : Store)
    (r : BoardCollaboratorRequest) (k : Z) :
  store_ok st = true ->
  board_id (req_board r) = Some k ->
  table_has board_id k (boards st) = true ->
  boards s' = boards st ->
  (forall c, In c (rows (collaborators s')) ->
             (In c (rows (collaborators st))
              /\ (seq (invited_users st) <= seq (invited_users s'))%Z)
             \/ (c = accepted_collaborator st r
                 /\ seq (invited_users s') = (seq (invited_users st) + 1)%Z)) ->
  (forall x, In x (rows (requests s')) -> In x (rows (requests st))) ->
  store_ok s' = true.
Proof.
  intros Hok Hk Hhas Hboards Hcollab Hreq.
  apply store_ok_spec in Hok. destruct Hok as [Hb [Hc Hr]].
  apply store_ok_spec. rewrite Hboards. split; [exact Hb|]. split.
  - intros c Hin. destruct (Hcollab c Hin) as [[Hold Hseq] | [-> Hseq]].
    + destruct (Hc c Hold) as [Hboard Hiu]. split; [exact Hboard|].
      intros i Hi. destruct (Hiu i Hi) as [j [Hj Hlt]].
      exists j. split; [exact Hj | lia].
    + split.
      * unfold table_has in Hhas. apply existsb_exists in Hhas.
        destruct Hhas as [b [Hinb Hsame]]. exists b. split; [exact Hinb|].
        simpl. rewrite Hk, same_pk_sym. exact Hsame.
      * intros i Hi. simpl in Hi. inversion Hi; subst.
        exists (seq (invited_users st)). split; [reflexivity | lia].
  - intros x Hx. apply Hr. apply Hreq. exact Hx.
Qed.

Lemma after_link_boards (st : Store) (r : BoardCollaboratorRequest) :
  boards (after_link st r) = boards st.
Proof.
  unfold after_link.
  destruct (existsb _ (invited_user_board_collaborators st)); reflexivity.
Qed.

Lemma accepted_rows (st : Store) (r : BoardCollaboratorRequest)
    (c : BoardCollaborator) :
  In c (rows (collaborators st) ++ [accepted_collaborator st r])%list ->
  (In c (rows (collaborators st))
   /\ (seq (invited_users st) <= seq (invited_users st) + 1)%Z)
  \/ (c = accepted_collaborator st r
      /\ (seq (invited_users st) + 1 = seq (invited_users st) + 1)%Z).
Proof.
  intros Hin. apply in_app_or in Hin.
  destruct Hin as [Hold | [<- | []]]; [left | right]; split; auto; lia.
Qed.

(** Whatever happens to the outside calls, [accept] of a request for a
    board of the boards table leaves the store referentially intact, so
    the next save, accept or reject finds it as they need it. *)
Theorem accept_keeps_store_ok (env : Env) (st : Store)
    (r : BoardCollaboratorRequest) (k : Z) :
  store_ok st = true ->
  board_id (req_board r) = Some k ->
  table_has board_id k (boards st) = true ->
  store_ok (store_of (accept env r st)) = true.
Proof.
  intros Hok Hk Hhas.
  destruct (after_link_tables st r) as [Hiu [Hbc [Hreq _]]].
  pose proof (after_link_boards st r) as Hboards.
  assert (Hlinked : store_ok (after_link st r) = true).
  { apply (store_ok_after_accept_rows st _ r k Hok Hk Hhas Hboards).
    - rewrite Hbc, Hiu. simpl. apply accepted_rows.
    - rewrite Hreq. auto. }
  assert (Hinvited : store_ok (after_invite st r) = true) by exact Hlinked.
  destruct (accept env r st) as [x st' | e st'] eqn:Hrun; simpl.
  - destruct (accept_returns env st st' r x Hrun) as [j [_ ->]].
    apply (store_ok_after_accept_rows st _ r k Hok Hk Hhas).
    + simpl. exact Hboards.
    + simpl. rewrite Hbc, Hiu. simpl. apply accepted_rows.
    + simpl. intros y Hy. apply deleted_request_rows in Hy. tauto.
  - destruct (accept_failure_stages env st st' r e Hrun)
      as [-> | [-> | [-> | [-> | ->]]]]; auto.
    + apply (store_ok_after_accept_rows st (after_invited_user st r) r k
               Hok Hk Hhas eq_refl).
      * simpl. intros c Hc. left. split; [exact Hc | lia].
      * auto.
    + apply (store_ok_after_accept_rows st (after_collaborator st r) r k
               Hok Hk Hhas eq_refl).
      * simpl. apply accepted_rows.
      * auto.
Qed.

Lemma accept_keeps_store_ok_witness :
  store_ok (store_of (accept invite_down alice_request sample_store)) = true.
Proof.
  apply (accept_keeps_store_ok invite_down sample_store alice_request 1);
    reflexivity.
Defined.

Lemma in_updated_rows {A} (p : A -> bool) (a x : A) (l : list A) :
  In x (map (fun r => if p r then a else r) l) ->
  (x = a /\ exists r, In r l /\ p r = true) \/ In x l.
Proof.
  intros Hin. apply in_map_iff in Hin. destruct Hin as [r [Heq Hr]].
  destruct (p r) eqn:Hp; subst; [left | right]; eauto.
Qed.

(** The write of [Board.save] keeps the boards table keyed, keeps every
    key that was in it, and holds the written board. *)
Lemma board_write_keeps_keys (b obj : Board) (created : bool)
    (t t' : Table Board) :
  table_save board_id set_board_id b t = (obj, created, t') ->
  boards_keyed t ->
  boards_keyed t'
  /\ (forall b0, In b0 (rows t) ->
                 exists b1, In b1 (rows t') /\ board_id b1 = board_id b0)
  /\ In obj (rows t')
  /\ exists k, board_id obj = Some k.
Proof.
  unfold table_save, table_insert, boards_keyed. intros Hsave Hkeyed.
  destruct (board_id b) as [k|] eqn:Hk.
  - destruct (table_has board_id k t) eqn:Hhas;
      inversion Hsave; subst; clear Hsave; simpl.
    + unfold table_has in Hhas. pose proof Hhas as Hrow.
      apply existsb_exists in Hrow. destruct Hrow as [b0 [Hin0 Hsame0]].
      apply same_pk_true in Hsame0. destruct Hsame0 as [j [Hj0 Hj]].
      inversion Hj; subst j.
      destruct (Hkeyed b0 Hin0) as [j [Hj1 Hlt]].
      assert (j = k) by congruence. subst j.
      split; [|split; [|split]].
      * intros x Hx. apply in_updated_rows in Hx.
        destruct Hx as [[-> _] | Hold]; [exists k; auto | auto].
      * intros b1 Hin1.
        destruct (same_pk (board_id b1) (Some k)) eqn:Hs.
        -- exists obj. split.
           ++ apply updated_row_present. exact Hhas.
           ++ apply same_pk_true in Hs. destruct Hs as [j [Hb1 Hj2]].
              congruence.
        -- exists b1. split; [|reflexivity].
           apply in_map_iff. exists b1. rewrite Hs. auto.
      * apply updated_row_present. exact Hhas.
      * exists k. exact Hk.
    + split; [|split; [|split]].
      * intros x Hx. apply in_app_or in Hx.
        destruct Hx as [Hold | [<- | []]].
        -- destruct (Hkeyed x Hold) as [j [Hj Hlt]].
           exists j. split; [exact Hj | lia].
        -- exists k. split; [exact Hk | lia].
      * intros b0 Hin0. exists b0. split; [|reflexivity].
        apply in_or_app. left. exact Hin0.
      * apply in_or_app. right. left. reflexivity.
      * exists k. exact Hk.
  - inversion Hsave; subst; clear Hsave; simpl.
    split; [|split; [|split]].
    + intros x Hx. apply in_app_or in Hx.
      destruct Hx as [Hold | [<- | []]].
      * destruct (Hkeyed x Hold) as [j [Hj Hlt]].
        exists j. split; [exact Hj | lia].
      * exists (seq t). split; [reflexivity | lia].
    + intros b0 Hin0. exists b0. split; [|reflexivity].
      apply in_or_app. left. exact Hin0.
    + apply in_or_app. right. left. reflexivity.
    + exists (seq t). reflexivity.
Qed.

Lemma store_ok_after_board_write (st : Store) (b obj : Board)
    (created : bool) (t : Table Board) :
  store_ok st = true ->
  table_save board_id set_board_id b (boards st) = (obj, created, t) ->
  store_ok (with_boards t st) = true
  /\ In obj (rows t)
  /\ exists k, board_id obj = Some k.
Proof.
  intros Hok Hsave. apply store_ok_spec in Hok.
  destruct Hok as [Hb [Hc Hr]].
  destruct (board_write_keeps_keys b obj created (boards st) t Hsave Hb)
    as [Hkeyed [Hkept [Hin Hkey]]].
  split; [|split; assumption].
  apply store_ok_spec. simpl. split; [exact Hkeyed|]. split; [|exact Hr].
  intros c Hcin. destruct (Hc c Hcin) as [[b0 [Hin0 Hsame]] Hiu].
  split; [|exact Hiu].
  destruct (Hkept b0 Hin0) as [b1 [Hin1 Heq]].
  exists b1. split; [exact Hin1 | rewrite Heq; exact Hsame].
Qed.

(** Whatever happens to the outside calls, and for a new board as for a
    saved one, [Board.save] leaves the store referentially intact. *)
Theorem Board_save_keeps_store_ok (env : Env) (st : Store) (b : Board) :
  store_ok st = true ->
  store_ok (store_of (Board_save env b st)) = true.
Proof.
  intros Hok. unfold Board_save, bind, outside at 1.
  destruct (fails env WriteBoard st); [exact Hok|].
  destruct (table_save board_id set_board_id b (boards st))
    as [[obj created] t] eqn:Hsave.
  destruct (store_ok_after_board_write st b obj created t Hok Hsave)
    as [Hok1 [Hin [k Hk]]].
  simpl. unfold create_owner_collaborator.
  destruct created; [|exact Hok1].
  unfold BoardCollaborator_objects_create, bind.
  destruct (save_new_collaborator env
              (mkBoardCollaborator None obj
                 (Some (ac_user (account_owner (board_account obj)))) None
                 WRITE_PERMISSION)
              (with_boards t st) eq_refl) as [[e He] | Hsaved].
  - rewrite He. exact Hok1.
  - rewrite Hsaved. simpl.
    apply store_ok_spec in Hok1. destruct Hok1 as [Hb [Hc Hr]].
    apply store_ok_spec. simpl in *. split; [exact Hb|].
    split; [|exact Hr].
    intros c Hcin. apply in_app_or in Hcin.
    destruct Hcin as [Hold | [<- | []]]; [apply Hc; exact Hold|].
    split.
    + exists obj. split; [exact Hin|]. simpl. rewrite Hk. simpl.
      apply Z.eqb_refl.
    + simpl. discriminate.
Qed.

Lemma Board_save_keeps_store_ok_witness :
  store_ok (store_of (Board_save calm draft_board sample_store)) = true.
Proof.
  apply (Board_save_keeps_store_ok calm sample_store draft_board).
  reflexivity.
Defined.

(** ** accept and reject of a request that was never saved *)

(** [accept] deletes the request last.  For a request without a key,
    on a board of the boards table, the deletion raises
    [AssertionError], after the invited user and the collaborator were
    written and the invite went out; [reject] of such a request raises
    and changes nothing. *)
Theorem accept_of_unsaved_request_invites_then_raises (env : Env)
    (st : Store) (r : BoardCollaboratorRequest) (b : Z) :
  no_failures env -> store_ok st = true ->
  board_id (req_board r) = Some b ->
  table_has board_id b (boards st) = true ->
  req_id r = None ->
  accept env r st = Raise AssertionError (after_invite st r)
  /\ In (accepted_invited_user st r)
        (rows (invited_users (after_invite st r)))
  /\ In (accepted_collaborator st r)
        (rows (collaborators (after_invite st r)))
  /\ In (seq (invited_users st)) (invites (after_invite st r))
  /\ reject env r st = Raise AssertionError st.
Proof.
  intros Hup Hok Hboard Hhas Hk. split; [|split; [|split; [|split]]].
  - unfold accept, bind.
    unfold InvitedUser_objects_create, bind, outside at 1.
    rewrite Hup. simpl.
    change (with_invited_users _ st) with (after_invited_user st r).
    change (mkInvitedUser (Some (seq (invited_users st))) _ _ _ _ _ _)
      with (accepted_invited_user st r).
    unfold BoardCollaborator_objects_create.
    rewrite save_new_collaborator_ok;
      [| reflexivity | apply Hup
       | apply accept_collaborator_is_clean; exact Hok].
    change (with_collaborators _ (after_invited_user st r))
      with (after_collaborator st r).
    unfold InvitedUser_board_collaborators_add. simpl.
    unfold bind, outside. rewrite Hup.
    change (invited_user_board_collaborators (after_collaborator st r))
      with (invited_user_board_collaborators st).
    unfold InvitedUser_send_invite, BoardCollaboratorRequest_delete.
    simpl. rewrite Hk. unfold bind, outside, after_invite.
    unfold after_link. simpl.
    destruct (existsb _ (invited_user_board_collaborators st));
      rewrite !Hup; reflexivity.
  - destruct (after_link_tables st r) as [Hiu _].
    unfold after_invite. simpl. rewrite Hiu. simpl.
    apply in_or_app. right. left. reflexivity.
  - destruct (after_link_tables st r) as [_ [Hbc _]].
    unfold after_invite. simpl. rewrite Hbc. simpl.
    apply in_or_app. right. left. reflexivity.
  - unfold after_invite. simpl. apply in_or_app. right. left. reflexivity.
  - unfold reject, BoardCollaboratorRequest_delete. rewrite Hk. reflexivity.
Qed.

Lemma accept_of_unsaved_request_invites_then_raises_witness :
  accept calm unsaved_request sample_store
  = Raise AssertionError (after_invite sample_store unsaved_request)
  /\ In (accepted_invited_user sample_store unsaved_request)
        (rows (invited_users (after_invite sample_store unsaved_request)))
  /\ In (accepted_collaborator sample_store unsaved_request)
        (rows (collaborators (after_invite sample_store unsaved_request)))
  /\ In (seq (invited_users sample_store))
        (invites (after_invite sample_store unsaved_request))
  /\ reject calm unsaved_request sample_store
     = Raise AssertionError sample_store.
Proof.
  apply (accept_of_unsaved_request_invites_then_raises calm sample_store
           unsaved_request 1).
  - exact calm_no_failures.
  - reflexivity.
  - reflexivity.
  - reflexivity.
  - reflexivity.
Defined.

End BoardsFurtherProperties.

(** * Further properties of cards/models.py *)

Section CardsFurtherProperties.
Import Cards.

(** ** Card.clean and save *)

Lemma disallowed_truthy_iff (self : Card) :
  existsb snd (disallowed_fields self) = true
  <-> (card_origin_url self <> ""
       \/ card_content self <> ""
       \/ card_thumbnail_sm_path self <> ""
       \/ card_thumbnail_md_path self <> ""
       \/ card_thumbnail_lg_path self <> ""
       \/ (exists n, card_file_size self = Some n /\ n <> 0%Z)
       \/ (exists m, card_mime_type self = Some m /\ m <> "")).
Proof.
  unfold disallowed_fields. simpl.
  rewrite !orb_true_iff, !truthy_true.
  assert (Hsize : truthy_int (card_file_size self) = true
                  <-> exists n, card_file_size self = Some n /\ n <> 0%Z).
  { destruct (card_file_size self) as [n|]; simpl.
    - rewrite negb_true_iff, Z.eqb_neq. split.
      + intros Hn. exists n. auto.
      + intros [m [Hm Hne]]. congruence.
    - split; [discriminate | intros [m [Hm _]]; discriminate]. }
  assert (Hmime : truthy_opt (card_mime_type self) = true
                  <-> exists m, card_mime_type self = Some m /\ m <> "").
  { destruct (card_mime_type self) as [m|]; simpl.
    - rewrite truthy_true. split.
      + intros Hm. exists m. auto.
      + intros [m' [Hm' Hne]]. congruence.
    - split; [discriminate | intros [m [Hm _]]; discriminate]. }
  rewrite Hsize, Hmime.
  split; [|tauto].
  intros [H | [H | [H | [H | [H | [H | [H | H]]]]]]];
    try discriminate; tauto.
Qed.

Lemma Card_clean_raises_refused (self : Card) (st : Store) :
  (exists msgs, Card_clean self st = Raise (ValidationError msgs) st)
  <-> refused_by_clean self.
Proof.
  rewrite Card_clean_raises_iff. unfold refused_by_clean.
  rewrite <- disallowed_truthy_iff.
  destruct (card_type self =? "stack") eqn:Htype.
  - apply String.eqb_eq in Htype. split.
    + intros H. right. auto.
    + intros [[Hno _] | [_ H]]; [congruence | exact H].
  - apply String.eqb_neq in Htype. rewrite truthy_false. split.
    + intros H. left. auto.
    + intros [[_ H] | [Hst _]]; [exact H | congruence].
Qed.

Lemma check_disallowed_message (fields : list (string * bool))
    (st st' : Store) (e : Exception) :
  check_disallowed fields st = Raise e st' ->
  exists msg, e = ValidationError [msg].
Proof.
  induction fields as [|[field value] rest IH]; simpl.
  - discriminate.
  - destruct value; [|exact IH].
    intros H. inversion H. eexists. reflexivity.
Qed.

(** A validation error of [clean] carries one message. *)
Lemma Card_clean_message (self : Card) (st st' : Store) (e : Exception) :
  Card_clean self st = Raise e st' -> exists msg, e = ValidationError [msg].
Proof.
  unfold Card_clean.
  destruct (negb (card_type self =? "stack")).
  - destruct (negb (truthy (card_content self))); [|discriminate].
    intros H. inversion H. eexists. reflexivity.
  - apply check_disallowed_message.
Qed.

(** [clean] raises a validation error exactly for a card that is no
    stack and has no content, and for a stack with a truthy value in one
    of the seven fields of files and notes; every other card passes. *)
Theorem Card_clean_refuses_exactly (self : Card) (st : Store) :
  ((exists msgs, Card_clean self st = Raise (ValidationError msgs) st)
   <-> refused_by_clean self)
  /\ (Card_clean self st = Ok tt st <-> ~ refused_by_clean self).
Proof.
  pose proof (Card_clean_raises_refused self st) as Hraise.
  split; [exact Hraise|].
  destruct (Card_clean_result self st) as [Hok | Hfail].
  - split; [|intros _; exact Hok].
    intros _ Href. apply Hraise in Href. destruct Href as [msgs Hm].
    congruence.
  - split.
    + intros Hok. destruct Hfail as [msgs Hm]. congruence.
    + intros Hnot. exfalso. apply Hnot. apply Hraise. exact Hfail.
Qed.

(** A card that [clean] refuses is not saved: [save] raises a
    validation error before the row is written or a preview requested,
    whatever the outside calls would do. *)
Theorem refused_card_is_not_saved (env : Env) (self : Card) (st : Store) :
  refused_by_clean self ->
  exists msgs, Card_save env self st = Raise (ValidationError msgs) st.
Proof.
  intros Href. apply (Card_clean_raises_refused self st) in Href.
  destruct Href as [msgs Hclean].
  destruct (Card_clean_message self st st _ Hclean) as [msg Hmsg].
  inversion Hmsg; subst msgs.
  unfold Card_save, bind, Card_pre_save, Card_full_clean,
    validation_messages.
  rewrite Hclean.
  destruct (card_fields_valid env self); simpl; eexists; reflexivity.
Qed.

Lemma refused_card_is_not_saved_witness :
  exists msgs,
    Card_save calm empty_note deck = Raise (ValidationError msgs) deck.
Proof.
  apply (refused_card_is_not_saved calm empty_note deck).
  left. split; [discriminate | reflexivity].
Defined.

(** When the preview service fails, the creation of a file card raises
    the failure to the caller, but the card has been written: the row is
    in the table, and no preview is queued for it. *)
Theorem preview_failure_leaves_card_saved (env : Env) (c : Card)
    (st : Store) :
  card_fields_valid env c = true -> is_new_card st c = true ->
  card_type c = "file" -> card_content c <> "" ->
  fails env WriteCard st = false ->
  (forall s, fails env QueuePreviews s = true) ->
  exists c' k st',
    Card_save env c st = Raise DeliveryError st'
    /\ In c' (rows (cards st'))
    /\ card_id c' = Some k
    /\ card_content c' = card_content c
    /\ preview_queue st' = preview_queue st.
Proof.
  intros Hfields Hnew Htype Hcontent Hdb Hdown.
  unfold Card_save, bind, Card_pre_save.
  rewrite Card_full_clean_passes; [| exact Hfields |].
  - unfold outside at 1. rewrite Hdb.
    destruct (table_save card_id set_card_id c (cards st))
      as [[obj created] t'] eqn:Hsave.
    destruct (Card_written c obj created (cards st) t' Hsave)
      as [Hty [Hco [Hcreated [k [Hk Hhas]]]]].
    assert (Hc : created = true).
    { unfold is_new_card in Hnew. destruct (card_id c).
      - destruct Hcreated as [-> _]. exact Hnew.
      - destruct Hcreated as [-> _]. reflexivity. }
    exists obj, k, (with_cards t' st).
    split; [|split; [|split; [|split]]]; auto.
    + simpl. unfold Card_post_save. rewrite Hc, Hty, Htype. simpl.
      unfold bind, queue_previews, bind, outside. rewrite Hdown.
      reflexivity.
    + simpl. unfold table_has in Hhas. apply existsb_exists in Hhas.
      destruct Hhas as [x [Hx Hsame]].
      unfold table_save, table_insert in Hsave.
      destruct (card_id c) as [j|].
      * destruct Hcreated as [_ ->].
        destruct (table_has card_id j (cards st)); inversion Hsave; subst.
        -- discriminate.
        -- simpl. apply in_or_app. right. left. reflexivity.
      * inversion Hsave; subst. simpl. apply in_or_app. right. left.
        reflexivity.
  - unfold Card_clean. rewrite Htype. simpl.
    apply truthy_true in Hcontent. rewrite Hcontent. reflexivity.
Qed.

Lemma preview_failure_leaves_card_saved_witness :
  exists c' k st',
    Card_save previews_down new_file deck = Raise DeliveryError st'
    /\ In c' (rows (cards st'))
    /\ card_id c' = Some k
    /\ card_content c' = card_content new_file
    /\ preview_queue st' = preview_queue deck.
Proof.
  apply (preview_failure_leaves_card_saved previews_down new_file deck).
  - reflexivity.
  - reflexivity.
  - reflexivity.
  - discriminate.
  - reflexivity.
  - intros s. reflexivity.
Defined.

(** ** The member set: how add, remove and clear compose *)

Lemma set_card_stack_same (c : Card) (v : option Z) :
  card_stack_id c = v -> set_card_stack v c = c.
Proof.
  intros <-. destruct c. reflexivity.
Qed.

Lemma set_card_stack_twice (c : Card) (v w : option Z) :
  set_card_stack w (set_card_stack v c) = set_card_stack w c.
Proof. reflexivity. Qed.

Lemma filter_all {A} (p : A -> bool) (l : list A) :
  (forall x, In x l -> p x = true) -> filter p l = l.
Proof.
  intros H. induction l as [|a l IH]; simpl; [reflexivity|].
  rewrite (H a (or_introl eq_refl)). f_equal. apply IH.
  intros x Hx. apply H. right. exact Hx.
Qed.

Lemma map_unchanged {A} (f : A -> A) (l : list A) :
  (forall x, In x l -> f x = x) -> map f l = l.
Proof.
  intros H. induction l as [|a l IH]; simpl; [reflexivity|].
  rewrite (H a (or_introl eq_refl)). f_equal. apply IH.
  intros x Hx. apply H. right. exact Hx.
Qed.

Lemma pk_in_false (l : list Z) (c : Card) :
  (forall k, card_id c = Some k -> ~ In k l) -> pk_in l c = false.
Proof.
  intros H. unfold pk_in. destruct (card_id c) as [k|]; [|reflexivity].
  destruct (existsb (Z.eqb k) l) eqn:Hex; [|reflexivity].
  apply mem_In in Hex. exfalso. exact (H k eq_refl Hex).
Qed.

Lemma store_eta (st : Store) :
  mkStore (mkTable (rows (cards st)) (seq (cards st))) (card_cards st)
          (preview_queue st) = st.
Proof. destruct st as [[r q] l p]. reflexivity. Qed.

(** Adding cards that are in no stack to a stack and removing them again
    gives back the store as it was: the join table, and every card with
    its back-reference. *)
Theorem add_then_remove_restores (st : Store) (S : Card) (s : Z)
    (objs : list Z) :
  card_id S = Some s ->
  (forall k, In k objs -> is_member st s k = false) ->
  (forall c k, In c (rows (cards st)) -> card_id c = Some k ->
               In k objs -> card_stack_id c = None) ->
  store_of (Card_cards_remove S objs
              (store_of (Card_cards_add S objs st))) = st.
Proof.
  intros Hs Hfresh Hfree.
  rewrite (Card_cards_add_result S s objs st Hs). simpl.
  rewrite (Card_cards_remove_result S s objs _ Hs). simpl.
  unfold restacked. simpl.
  match goal with
  | |- mkStore (mkTable ?r _) ?l _ = _ =>
      assert (Hrows : r = rows (cards st));
      [| assert (Hlinks : l = card_cards st);
         [| rewrite Hrows, Hlinks; apply store_eta]]
  end.
  - rewrite map_map. apply map_unchanged. intros c Hc.
    destruct (pk_in (newly_added st s objs) c) eqn:Hp.
    + unfold pk_in in Hp. destruct (card_id c) as [k|] eqn:Hk;
        [|discriminate].
      apply mem_In in Hp. apply newly_added_In in Hp.
      destruct Hp as [Hobj _].
      assert (Hq : pk_in (Z_nodup objs) (set_card_stack (Some s) c) = true).
      { apply (pk_in_In _ _ k); [exact Hk|].
        unfold Z_nodup. apply nodup_In. exact Hobj. }
      rewrite Hq. unfold stack_is. rewrite Hs. simpl. rewrite Z.eqb_refl.
      simpl. rewrite set_card_stack_twice.
      apply set_card_stack_same. exact (Hfree c k Hc Hk Hobj).
    + assert (Hq : pk_in (Z_nodup objs) c = false).
      { apply pk_in_false. intros k Hk Hin.
        unfold Z_nodup in Hin. apply nodup_In in Hin.
        assert (Hnew : pk_in (newly_added st s objs) c = true).
        { apply (pk_in_In _ c k Hk). apply newly_added_In. auto. }
        congruence. }
      rewrite Hq. reflexivity.
  - rewrite filter_app.
    rewrite filter_all, filter_nothing; [apply app_nil_r | |].
    + intros l Hl. apply in_map_iff in Hl. destruct Hl as [k [<- Hk]].
      simpl. rewrite Z.eqb_refl. simpl. apply negb_false_iff.
      apply mem_In. unfold Z_nodup. apply nodup_In.
      apply newly_added_In in Hk. tauto.
    + intros [a b] Hl. simpl. apply negb_true_iff.
      destruct (a =? s)%Z eqn:Ha; [|reflexivity]. simpl.
      apply Z.eqb_eq in Ha. subst a.
      destruct (existsb (Z.eqb b) (Z_nodup objs)) eqn:Hb; [|reflexivity].
      apply mem_In in Hb. unfold Z_nodup in Hb. apply nodup_In in Hb.
      pose proof (Hfresh b Hb) as Hnot.
      apply is_member_In in Hl. congruence.
Qed.

Lemma add_then_remove_restores_witness :
  store_of (Card_cards_remove pile [3%Z]
              (store_of (Card_cards_add pile [3%Z] deck))) = deck.
Proof.
  apply (add_then_remove_restores deck pile 1 [3%Z]).
  - reflexivity.
  - intros k Hk. reflexivity.
  - simpl. intros c k [<- | [<- | [<- | []]]] Hk Hin; reflexivity.
Defined.

(** Adding the same cards to a stack a second time changes nothing:
    they are members already, so no row is inserted and no
    back-reference is written. *)
Theorem add_twice_is_add_once (st : Store) (S : Card) (s : Z)
    (objs : list Z) :
  card_id S = Some s ->
  store_of (Card_cards_add S objs (store_of (Card_cards_add S objs st)))
  = store_of (Card_cards_add S objs st).
Proof.
  intros Hs.
  rewrite (Card_cards_add_result S s objs st Hs). simpl.
  set (st1 := mkStore _ _ _).
  rewrite (Card_cards_add_result S s objs st1 Hs). simpl.
  assert (Hnone : newly_added st1 s objs = []).
  { unfold newly_added, Z_nodup.
    rewrite filter_nothing; [reflexivity|].
    intros k Hk. apply negb_false_iff. apply is_member_In.
    unfold st1. simpl. apply in_or_app.
    destruct (is_member st s k) eqn:Hm.
    - left. apply is_member_In. exact Hm.
    - right. apply in_map. apply newly_added_In. auto. }
  rewrite Hnone. simpl. rewrite app_nil_r. unfold restacked.
  rewrite map_unchanged; [exact (store_eta st1)|].
  intros c _. unfold pk_in. destruct (card_id c); reflexivity.
Qed.

Lemma add_twice_is_add_once_witness :
  store_of (Card_cards_add pile [3%Z]
              (store_of (Card_cards_add pile [3%Z] deck)))
  = store_of (Card_cards_add pile [3%Z] deck).
Proof.
  apply (add_twice_is_add_once deck pile 1 [3%Z]). reflexivity.
Defined.

Lemma members_In (st : Store) (s k : Z) :
  In k (members st s) <-> In (s, k) (card_cards st).
Proof.
  unfold members. rewrite in_map_iff. split.
  - intros [[a b] [Heq Hin]]. simpl in Heq. subst b.
    apply filter_In in Hin. destruct Hin as [Hin Ha]. simpl in Ha.
    apply Z.eqb_eq in Ha. subst a. exact Hin.
  - intros Hin. exists (s, k). split; [reflexivity|].
    apply filter_In. split; [exact Hin | simpl; apply Z.eqb_refl].
Qed.

(** Where back-references and member sets agree, clearing a stack does
    what removing all its members does. *)
Theorem clear_is_removal_of_all_members (st : Store) (S : Card) (s : Z) :
  card_id S = Some s -> in_step st ->
  (forall c, In c (rows (cards st)) -> card_id c <> None) ->
  Card_cards_clear S st = Card_cards_remove S (members st s) st.
Proof.
  intros Hs Hstep Hkeyed.
  rewrite (Card_cards_clear_result S s st Hs).
  rewrite (Card_cards_remove_result S s (members st s) st Hs).
  unfold restacked. f_equal. f_equal; [f_equal|].
  - apply map_ext_in. intros c Hc.
    destruct (stack_is S c) eqn:Hst; [|rewrite andb_false_r; reflexivity].
    destruct (card_id c) as [k|] eqn:Hk; [|exfalso; exact (Hkeyed c Hc Hk)].
    assert (Hin : pk_in (Z_nodup (members st s)) c = true).
    { apply (pk_in_In _ c k Hk). unfold Z_nodup. apply nodup_In.
      apply members_In. apply (in_step_In st c k s Hstep Hc Hk).
      apply (stack_is_true S c s Hs). exact Hst. }
    rewrite Hin. reflexivity.
  - apply filter_ext_in. intros [a b] Hl. simpl.
    destruct (a =? s)%Z eqn:Ha; [|reflexivity]. simpl.
    apply Z.eqb_eq in Ha. subst a.
    assert (Hb : existsb (Z.eqb b) (Z_nodup (members st s)) = true).
    { apply mem_In. unfold Z_nodup. apply nodup_In. apply members_In.
      exact Hl. }
    rewrite Hb. reflexivity.
Qed.

Lemma clear_is_removal_of_all_members_witness :
  Card_cards_clear pile (store_of (Card_cards_add pile [3%Z] deck))
  = Card_cards_remove pile [3%Z] (store_of (Card_cards_add pile [3%Z] deck)).
Proof.
  apply (clear_is_removal_of_all_members
           (store_of (Card_cards_add pile [3%Z] deck)) pile 1).
  - reflexivity.
  - apply add_keeps_in_step with (s := 1%Z).
    + reflexivity.
    + intros c k s Hc Hk. simpl in Hc.
      destruct Hc as [<- | [<- | [<- | []]]]; simpl;
        split; intros H; discriminate H.
    + simpl. intros c k [<- | [<- | [<- | []]]] Hk Hin; reflexivity.
  - simpl. intros c [<- | [<- | [<- | []]]]; discriminate.
Defined.

(** ** What cards_changed leaves alone *)

Lemma restacked_rows_differ_in_stack (p : Card -> bool) (v : option Z)
    (l : list Card) :
  Forall2 (fun c c' => c' = set_card_stack (card_stack_id c') c) l
          (map (fun c => if p c then set_card_stack v c else c) l).
Proof.
  induction l as [|c l IH]; simpl; constructor; [|exact IH].
  destruct (p c); [reflexivity|].
  symmetry. apply set_card_stack_same. reflexivity.
Qed.

(** The receiver writes back-references and nothing else: for every
    action and key set it leaves the join table, the preview queue and
    the key sequence as they are, keeps every card in its place with
    all fields but [stack], and for an action other than [post_add],
    [post_remove] and [post_clear] it changes nothing at all. *)
Theorem cards_changed_writes_only_stack (instance : Card) (action : string)
    (pk_set : option (list Z)) (st : Store) :
  card_cards (store_of (cards_changed instance action pk_set st))
  = card_cards st
  /\ preview_queue (store_of (cards_changed instance action pk_set st))
     = preview_queue st
  /\ seq (cards (store_of (cards_changed instance action pk_set st)))
     = seq (cards st)
  /\ Forall2 (fun c c' => c' = set_card_stack (card_stack_id c') c)
       (rows (cards st))
       (rows (cards (store_of (cards_changed instance action pk_set st))))
  /\ (action <> "post_add" -> action <> "post_remove" ->
      action <> "post_clear" ->
      cards_changed instance action pk_set st = Ok tt st).
Proof.
  assert (Hsame : Forall2
            (fun c c' => c' = set_card_stack (card_stack_id c') c)
            (rows (cards st)) (rows (cards st))).
  { rewrite <- (map_id (rows (cards st))) at 2.
    apply (restacked_rows_differ_in_stack (fun _ => false) None). }
  unfold cards_changed, update_stack.
  destruct (action =? "post_add") eqn:Hadd.
  - apply String.eqb_eq in Hadd.
    destruct pk_set as [pks|]; simpl.
    + repeat split; try reflexivity;
        [apply restacked_rows_differ_in_stack | congruence].
    + repeat split; try reflexivity; [exact Hsame | congruence].
  - destruct (action =? "post_remove") eqn:Hremove.
    + apply String.eqb_eq in Hremove.
      destruct pk_set as [pks|]; simpl.
      * repeat split; try reflexivity;
          [apply restacked_rows_differ_in_stack | congruence].
      * repeat split; try reflexivity; [exact Hsame | congruence].
    + destruct (action =? "post_clear") eqn:Hclear.
      * apply String.eqb_eq in Hclear. simpl.
        repeat split; try reflexivity;
          [apply restacked_rows_differ_in_stack | congruence].
      * simpl. repeat split; try reflexivity. exact Hsame.
Qed.

End CardsFurtherProperties.

(** * Properties of notifications/types.py *)

Section NotificationsProperties.
Import Notifications.

Lemma first_labelled_some (types : list NotificationType) (label : string)
    (t : NotificationType) :
  first_labelled types label = Some t ->
  In t types /\ nt_label t = label.
Proof.
  induction types as [|a rest IH]; simpl; [discriminate|].
  destruct (nt_label a =? label) eqn:Ha.
  - intros H. inversion H; subst. apply String.eqb_eq in Ha. auto.
  - intros H. destruct (IH H). auto.
Qed.

Lemma first_labelled_none (types : list NotificationType) (label : string) :
  first_labelled types label = None
  <-> forall t, In t types -> nt_label t <> label.
Proof.
  induction types as [|a rest IH]; simpl.
  - split; [intros _ t [] | reflexivity].
  - destruct (nt_label a =? label) eqn:Ha.
    + apply String.eqb_eq in Ha. split; [discriminate|].
      intros H. exfalso. apply (H a); auto.
    + apply String.eqb_neq in Ha. rewrite IH. split.
      * intros H t [<- | Ht]; auto.
      * intros H t Ht. apply H. auto.
Qed.

(** The lookup finds exactly the registered types: it returns a type
    when and only when that type is in the registry under the label
    (no entry hides another), and it returns [None], raising nothing,
    when and only when no registered type has the label. *)
Theorem get_notification_type_finds_registered :
  (forall label t,
      get_notification_type label = Some t
      <-> In t NOTIFICATION_TYPES /\ nt_label t = label)
  /\ (forall label,
        get_notification_type label = None
        <-> forall t, In t NOTIFICATION_TYPES -> nt_label t <> label).
Proof.
  split.
  - intros label t. split.
    + apply first_labelled_some.
    + intros [Hin <-]. unfold get_notification_type.
      simpl in Hin.
      repeat (destruct Hin as [<- | Hin]; [reflexivity|]).
      destruct Hin.
  - intros label. apply first_labelled_none.
Qed.

End NotificationsProperties.

(** * Properties of Card.notify_comment_created *)

Section CardCommentsProperties.
Import Boards.
Import CardComments.

Lemma copies_In {A B} (u r : A) (l : list B) :
  In r (map (fun _ => u) l) <-> r = u /\ l <> [].
Proof.
  rewrite in_map_iff. split.
  - intros [c [<- Hc]]. split; [reflexivity|].
    intros ->. destruct Hc.
  - intros [-> Hl]. destruct l as [|c l]; [contradiction|].
    exists c. split; [reflexivity | left; reflexivity].
Qed.

Lemma users_of_board_In (st : Boards.Store) (board : Z) (r : User) :
  In r (users_of_board st board)
  <-> In r (users st) /\ collaborates st board r.
Proof.
  unfold users_of_board, collaborates. rewrite in_flat_map. split.
  - intros [u [Hu Hr]]. apply copies_In in Hr. destruct Hr as [-> Hne].
    split; [exact Hu|].
    destruct (filter _ (rows (collaborators st))) as [|c l] eqn:Hf;
      [contradiction|].
    assert (Hc : In c (c :: l)) by (left; reflexivity).
    rewrite <- Hf in Hc. apply filter_In in Hc. destruct Hc as [Hin Hm].
    apply andb_true_iff in Hm. destruct Hm as [Hu' Hb].
    apply same_pk_true in Hu'. destruct Hu' as [j [Hv Hj]].
    apply same_pk_true in Hb. destruct Hb as [b [Hb Hb']].
    unfold user_pk in Hv. destruct (bc_user c) as [v|] eqn:Hcu;
      [|discriminate].
    exists c, v.
    split; [exact Hin|]. split; [exact Hcu|]. split; congruence.
  - intros [Hu [c [v [Hin [Hv [Hid Hb]]]]]].
    exists r. split; [exact Hu|]. apply copies_In. split; [reflexivity|].
    intros Hnil.
    assert (Hc : In c (filter
                  (fun c => same_pk (user_pk (bc_user c)) (Some (user_id r))
                            && same_pk (board_id (bc_board c)) (Some board))
                  (rows (collaborators st)))).
    { apply filter_In. split; [exact Hin|].
      rewrite Hv, Hb. simpl. rewrite Hid, !Z.eqb_refl. reflexivity. }
    rewrite Hnil in Hc. destruct Hc.
Qed.

Lemma recipients_In (st : Boards.Store) (board k : Z) (r : User) :
  In r (exclude_id k (users_of_board st board))
  <-> In r (users st) /\ user_id r <> k /\ collaborates st board r.
Proof.
  unfold exclude_id. rewrite filter_In, users_of_board_In.
  rewrite negb_true_iff, Z.eqb_neq. tauto.
Qed.

(** A comment is announced in one notification, labelled
    [card_comment_created] (a label the registry knows), from the
    commenting user, about the comment and the card.  Its recipients
    are exactly the users with a collaborator row on the card's board,
    the commenting user left out: who comments is never notified, and
    neither is a collaborator who is only an invited user. *)
Theorem comment_notification_recipients (dispatch_fails : World -> bool)
    (self : Cards.Card) (user : User) (comment : Comment) (w : World) :
  dispatch_fails w = false ->
  exists n,
    notify_comment_created dispatch_fails self user comment w
    = Ok tt (mkWorld (db w) (dispatched w ++ [n])%list)
    /\ n_actor n = user
    /\ n_label n = "card_comment_created"
    /\ Notifications.get_notification_type (n_label n) <> None
    /\ n_action_object n = comment
    /\ n_description n = comment_content comment
    /\ n_target n = self
    /\ (forall r,
          In r (n_recipients n)
          <-> In r (users (db w))
              /\ user_id r <> user_id user
              /\ collaborates (db w) (Cards.card_board_id self) r).
Proof.
  intros Hup. eexists. split.
  - unfold notify_comment_created, bind, notify_send. rewrite Hup.
    reflexivity.
  - simpl. do 2 (split; [reflexivity|]). split; [discriminate|].
    do 3 (split; [reflexivity|]).
    intros r. apply recipients_In.
Qed.

Lemma comment_notification_recipients_witness :
  exists n,
    notify_comment_created (fun _ => false) Cards.memo olivia hello
      quiet_world
    = Ok tt (mkWorld reader_store [n])
    /\ n_actor n = olivia
    /\ n_label n = "card_comment_created"
    /\ Notifications.get_notification_type (n_label n) <> None
    /\ n_action_object n = hello
    /\ n_description n = "Looks good"
    /\ n_target n = Cards.memo
    /\ (forall r,
          In r (n_recipients n)
          <-> In r (users reader_store)
              /\ user_id r <> user_id olivia
              /\ collaborates reader_store 1 r).
Proof.
  apply (comment_notification_recipients (fun _ => false) Cards.memo olivia
           hello quiet_world).
  reflexivity.
Defined.

Lemma users_of_board_NoDup (st : Boards.Store) (board : Z) :
  NoDup (users st) -> one_row_per_user st board ->
  NoDup (users_of_board st board).
Proof.
  intros Hnodup Hone. unfold users_of_board.
  induction (users st) as [|u us IH]; simpl; [constructor|].
  inversion Hnodup as [|u' us' Hnot Hrest]; subst.
  specialize (IH Hrest). specialize (Hone u).
  destruct (filter _ (rows (collaborators st))) as [|c [|c' l]].
  - simpl. exact IH.
  - simpl. constructor; [|exact IH].
    intros Hin. apply in_flat_map in Hin. destruct Hin as [v [Hv Hu]].
    apply copies_In in Hu. destruct Hu as [-> _]. contradiction.
  - simpl in Hone. lia.
Qed.

(** Where the users are listed once and no user has two collaborator
    rows on the card's board, nobody receives the notification of a
    comment twice. *)
Theorem comment_notifies_nobody_twice (dispatch_fails : World -> bool)
    (self : Cards.Card) (user : User) (comment : Comment) (w : World) :
  dispatch_fails w = false ->
  NoDup (users (db w)) ->
  one_row_per_user (db w) (Cards.card_board_id self) ->
  exists n,
    notify_comment_created dispatch_fails self user comment w
    = Ok tt (mkWorld (db w) (dispatched w ++ [n])%list)
    /\ NoDup (n_recipients n).
Proof.
  intros Hup Hnodup Hone. eexists. split.
  - unfold notify_comment_created, bind, notify_send. rewrite Hup.
    reflexivity.
  - simpl. unfold exclude_id. apply NoDup_filter.
    apply users_of_board_NoDup; assumption.
Qed.

Lemma comment_notifies_nobody_twice_witness :
  exists n,
    notify_comment_created (fun _ => false) Cards.memo olivia hello
      quiet_world
    = Ok tt (mkWorld reader_store [n])
    /\ NoDup (n_recipients n).
Proof.
  apply (comment_notifies_nobody_twice (fun _ => false) Cards.memo olivia
           hello quiet_world).
  - reflexivity.
  - simpl. repeat constructor; simpl; intuition discriminate.
  - intros u. simpl.
    destruct (user_id u) as [|q|q]; simpl; try lia.
    destruct q as [q|q|]; simpl; try lia.
    destruct q; simpl; lia.
Defined.

End CardCommentsProperties.
